(** * E<T>WIN front end: HTTP client, dashboard polling and policy chat

    A shallow embedding of
    - [frontend/src/api/gaiaApi.ts] (modules [Http] and [Api]),
    - [frontend/src/components/SimulationDashboard.tsx] (module [Dashboard]),
    - [frontend/src/components/PolicyChat.tsx] (modules [PolicyChat],
      [Conversation] and [DeltaBadge]),
    - [frontend/src/components/CityHexMap.tsx] (module [CityHexMap]) and what
      the dashboard renders from its state (module [Render]),
    and the properties of the specification that concern them, followed by
    further properties of the same code.

    Conventions.
    - A JavaScript number is a [Js.num]: NaN, the two infinities, or a finite
      value carried as an exact rational.  Rounding to binary64, overflow of
      finite arithmetic and the sign of zero are not modelled.
    - An asynchronous function is a computation in [IO]: it reads the replies
      of the outside world and records every request it issues, in the order
      in which [fetch] is called.
    - An answer is read at the TypeScript type its caller gives it; the types
      that occur form the closed universe [Http.Shape].
    - The two base URLs are fixed when the bundle is built and are kept
      symbolic; a string is carried as the bytes of its UTF-8 encoding.
    - React state is passed explicitly: a callback takes the state it runs on
      and returns the state it leaves; a state setter takes effect at once. *)

From Stdlib Require Import ZArith QArith Qround Qabs List String Ascii Bool Lia Lqa.
From Stdlib Require Import DecimalString.
Import ListNotations.

Set Implicit Arguments.

(* ------------------------------------------------------------------------- *)
(** ** JavaScript numbers and the operators the sources use *)

Module Js.

Inductive num : Type :=
| NaN
| PInf
| NInf
| Fin (q : Q).

Definition sgn (q : Q) : comparison := (Qnum q ?= 0)%Z.

(** Unary minus. *)
Definition neg (x : num) : num :=
  match x with
  | NaN => NaN
  | PInf => NInf
  | NInf => PInf
  | Fin q => Fin (- q)
  end.

(** [Math.abs]. *)
Definition abs (x : num) : num :=
  match x with
  | NaN => NaN
  | PInf | NInf => PInf
  | Fin q => Fin (Qabs q)
  end.

(** [x + y]. *)
Definition add (x y : num) : num :=
  match x, y with
  | NaN, _ | _, NaN => NaN
  | PInf, NInf | NInf, PInf => NaN
  | PInf, _ | _, PInf => PInf
  | NInf, _ | _, NInf => NInf
  | Fin a, Fin b => Fin (a + b)
  end.

(** [x - y]. *)
Definition sub (x y : num) : num :=
  match x, y with
  | NaN, _ | _, NaN => NaN
  | PInf, PInf | NInf, NInf => NaN
  | PInf, _ | _, NInf => PInf
  | NInf, _ | _, PInf => NInf
  | Fin a, Fin b => Fin (a - b)
  end.

(** [x * y]; zero times an infinity is NaN. *)
Definition mul (x y : num) : num :=
  match x, y with
  | NaN, _ | _, NaN => NaN
  | Fin a, Fin b => Fin (a * b)
  | Fin a, PInf | PInf, Fin a =>
      match sgn a with Eq => NaN | Gt => PInf | Lt => NInf end
  | Fin a, NInf | NInf, Fin a =>
      match sgn a with Eq => NaN | Gt => NInf | Lt => PInf end
  | PInf, PInf | NInf, NInf => PInf
  | PInf, NInf | NInf, PInf => NInf
  end.

(** [x / y]; a zero divisor is read as +0. *)
Definition div (x y : num) : num :=
  match x, y with
  | NaN, _ | _, NaN => NaN
  | PInf, Fin b => match sgn b with Lt => NInf | _ => PInf end
  | NInf, Fin b => match sgn b with Lt => PInf | _ => NInf end
  | Fin _, PInf | Fin _, NInf => Fin 0
  | Fin a, Fin b =>
      match sgn b with
      | Eq => match sgn a with Eq => NaN | Gt => PInf | Lt => NInf end
      | _ => Fin (a / b)
      end
  | _, _ => NaN
  end.

(** [x <= y]; every comparison with NaN is false. *)
Definition leb (x y : num) : bool :=
  match x, y with
  | NaN, _ | _, NaN => false
  | NInf, _ | _, PInf => true
  | PInf, _ | _, NInf => false
  | Fin a, Fin b => Qle_bool a b
  end.

(** [x < y]. *)
Definition ltb (x y : num) : bool :=
  match x, y with
  | NaN, _ | _, NaN => false
  | PInf, _ | _, NInf => false
  | NInf, _ | _, PInf => true
  | Fin a, Fin b => negb (Qle_bool b a)
  end.

(** [x >= y] and [x > y]. *)
Definition geb (x y : num) : bool := leb y x.
Definition gtb (x y : num) : bool := ltb y x.

(** [Math.max(x, y)] and [Math.min(x, y)]: NaN as soon as one argument is. *)
Definition max (x y : num) : num :=
  match x, y with
  | NaN, _ | _, NaN => NaN
  | _, _ => if leb x y then y else x
  end.

Definition min (x y : num) : num :=
  match x, y with
  | NaN, _ | _, NaN => NaN
  | _, _ => if leb x y then x else y
  end.

(** [Math.round]: the nearest integer, halves towards +Infinity. *)
Definition round (x : num) : num :=
  match x with
  | Fin q => Fin (inject_Z (Qfloor (q + 0.5)))
  | _ => x
  end.

(** An integer as a number. *)
Definition of_Z (z : Z) : num := Fin (inject_Z z).

(** ToInt32: truncate, wrap modulo 2^32, read as signed; 0 when not finite. *)
Definition toInt32 (x : num) : Z :=
  match x with
  | Fin q =>
      let m := ((Z.quot (Qnum q) (Zpos (Qden q))) mod 2 ^ 32)%Z in
      if (2 ^ 31 <=? m)%Z then (m - 2 ^ 32)%Z else m
  | _ => 0%Z
  end.

(** [x & y] on numbers. *)
Definition bitand (x y : num) : num :=
  of_Z (Z.land (toInt32 x) (toInt32 y)).

(** [x >>> 0]: ToUint32. *)
Definition ushr0 (x : num) : num :=
  of_Z ((toInt32 x) mod 2 ^ 32)%Z.

(** [o ?? d] and [o?.f]. *)
Definition nullish {A : Type} (o : option A) (d : A) : A :=
  match o with Some v => v | None => d end.

Definition chain {A B : Type} (o : option A) (f : A -> option B) : option B :=
  match o with Some v => f v | None => None end.

(** [Array.from({ length: n }, (_, i) => f i)], indices counted from [i]. *)
Fixpoint array_from {A : Type} (n : nat) (i : Z) (f : Z -> A) : list A :=
  match n with
  | O => []
  | S n' => f i :: array_from n' (i + 1)%Z f
  end.

End Js.

Declare Scope num_scope.
Delimit Scope num_scope with num.
Bind Scope num_scope with Js.num.
Infix "+" := Js.add : num_scope.
Infix "-" := Js.sub : num_scope.
Infix "*" := Js.mul : num_scope.
Infix "/" := Js.div : num_scope.
Infix "<=?" := Js.leb : num_scope.
Infix "<?" := Js.ltb : num_scope.
Infix ">=?" := Js.geb (at level 70) : num_scope.
Infix ">?" := Js.gtb (at level 70) : num_scope.
Infix "??" := Js.nullish (at level 45, left associativity).
Coercion Js.Fin : Q >-> Js.num.

Open Scope string_scope.
Open Scope Q_scope.
Open Scope num_scope.

(* ------------------------------------------------------------------------- *)
(** ** The response types of [gaiaApi.ts] and of the components

    One module per TypeScript interface, so that fields keep their names. *)

Module StateResponse.
Record t : Type := mk {
  timestamp : string;
  location : string;
  sdg_composite_score : Js.num;
  system_stability_score : Js.num;
  confidence_score : Js.num;
  cycle_id : Js.num
}.
End StateResponse.

Module ClimateResponse.
Inductive trend_t : Type := rising | falling | stable.
Record t : Type := mk {
  temperature_current : Js.num;
  temperature_7_cycle_avg : Js.num;
  temperature_anomaly : Js.num;
  precipitation_current : Js.num;
  climate_stress_factor : Js.num;
  anomaly_detected : bool;
  trend : trend_t
}.
End ClimateResponse.

Module WaterResponse.
Inductive status_t : Type := normal | warning | critical.
Record t : Type := mk {
  reservoir_level_percent : Js.num;
  daily_inflow : Js.num;
  daily_outflow : Js.num;
  water_stress_index : Js.num;
  days_until_critical : Js.num;
  status : status_t
}.
End WaterResponse.

Module EnvironmentResponse.
Inductive trend_t : Type := increasing | decreasing | stable.
Record t : Type := mk {
  co2_ppm : Js.num;
  emission_growth_rate : Js.num;
  trend : trend_t;
  carbon_stress_index : Js.num
}.
End EnvironmentResponse.

Module EconomyResponse.
Record t : Type := mk {
  gdp_growth_rate : Js.num;
  industry_profit_index : Js.num;
  energy_price_index : Js.num;
  policy_spending : Js.num;
  economic_stability_score : Js.num
}.
End EconomyResponse.

Module SocialResponse.
Inductive trend_t : Type := improving | declining | stable.
Record t : Type := mk {
  inequality_index : Js.num;
  public_sentiment_score : Js.num;
  public_pressure_score : Js.num;
  governance_confidence : Js.num;
  stability_trend : trend_t
}.
End SocialResponse.

Module Alert.
Inductive type_t : Type :=
  climate_anomaly | resource_threshold | policy_triggered | sdg_shift | economic_shock.
Inductive severity_t : Type := high | medium | low.
Record t : Type := mk {
  id : Js.num;
  type : type_t;
  severity : severity_t;
  message : string;
  timestamp : string
}.
End Alert.

Module AlertsResponse.
Record t : Type := mk { alerts : list Alert.t }.
End AlertsResponse.

Module InsightResponse.
Inductive risk_t : Type := low | moderate | high | critical.
Record t : Type := mk {
  recommended_policy : string;
  expected_sdg_delta : Js.num;
  expected_economic_impact : Js.num;
  confidence : Js.num;
  risk_level : risk_t;
  explanation : string
}.
End InsightResponse.

Module TimelineEvent.
Record t : Type := mk {
  cycle_id : Js.num;
  real_signal : string;
  anomaly_score : Js.num;
  policy_applied : string;
  sdg_change : Js.num;
  resulting_stability : Js.num
}.
End TimelineEvent.

Module TimelineResponse.
Record t : Type := mk { events : list TimelineEvent.t }.
End TimelineResponse.

Module ForecastResponse.
Record t : Type := mk {
  reservoir_projection : list Js.num;
  emission_projection : list Js.num;
  risk_probability : Js.num
}.
End ForecastResponse.

Module HealthResponse.
Record t : Type := mk {
  simulation_engine_status : string;
  last_signal_injection : string;
  last_policy_run : string
}.
End HealthResponse.

(** [SimMetrics] of SimulationDashboard.tsx: every field is optional. *)
Module SimMetrics.
Record t : Type := mk {
  total_emissions : option Js.num;
  total_water_consumption : option Js.num;
  average_social_vulnerability : option Js.num;
  composite_sdg_score : option Js.num;
  timestep : option Js.num
}.
End SimMetrics.

(** [NodeData] of CityHexMap.tsx; [RawNode] of the dashboard has the same fields. *)
Module NodeData.
Record t : Type := mk {
  id : Js.num;
  lat : Js.num;
  lon : Js.num;
  stress : Js.num;
  emissions : Js.num;
  vulnerability : Js.num
}.
End NodeData.

(** [Record<string, number>]. *)
Definition Policy : Type := list (string * Js.num).

(** What [/api/simulate] answers, as stepSim reads it: [results] and
    [current_timestep] may both be missing. *)
Module SimulateResult.
Record t : Type := mk {
  results : option (list SimMetrics.t);
  current_timestep : option Js.num
}.
End SimulateResult.

(** What [/api/nodes] answers, as fetchNodes reads it. *)
Module NodesResult.
Record t : Type := mk {
  nodes : option (list NodeData.t);
  timestep : Js.num
}.
End NodesResult.

(** [PolicyResult] of PolicyChat.tsx. *)
Module PolicyResult.
Record weather_t : Type := mk_weather {
  available : bool;
  temperature_forecast_c : option (list Js.num);
  precipitation_forecast_mm : option (list Js.num)
}.
Record t : Type := mk {
  analysis : string;
  policy_used : Policy;
  baseline : Policy;
  projected : Policy;
  weather : weather_t;
  delta : Policy;
  timestep : Js.num
}.
End PolicyResult.

(** A JSON value, for request bodies and for answers read as [any]. *)
#[local] Set Warnings "-register-all".
Inductive Json : Type :=
| JNull
| JBool (b : bool)
| JNum (n : Js.num)
| JStr (s : string)
| JArr (items : list Json)
| JObj (fields : list (string * Json)).

(* ------------------------------------------------------------------------- *)
(** ** The outside world: requests, replies, and computations that fetch *)

Module Http.

Inductive Method : Type := GET | POST.

(** The two base URLs, fixed when the bundle is built. *)
Inductive Base : Type := SIM_API | GOV_API.

(** The arguments of one call of [fetch]: the URL is [base ++ path]; [timeout]
    is the delay of [AbortSignal.timeout], [None] when no signal is passed. *)
Record Request : Type := mkRequest {
  method : Method;
  base : Base;
  path : string;
  headers : list (string * string);
  body : option Json;
  timeout : option Z
}.

(** What a rejected promise carries: an [Error] with its message, or
    something that is no [Error]. *)
Inductive Thrown : Type :=
| ErrorObj (message : string)
| NonError.

(** How [res.json()] settles: with the body as a value, or rejected. *)
Inductive Read (T : Type) : Type :=
| Parsed (v : T)
| Unparsable (e : Thrown).

Record Response (T : Type) : Type := mkResponse {
  status : Z;
  json : Read T
}.

(** [res.ok]. *)
Definition ok {T : Type} (res : Response T) : bool :=
  ((200 <=? status res) && (status res <=? 299))%Z.

(** How a call of [fetch] ends. *)
Inductive Outcome (T : Type) : Type :=
| NetworkFailure (e : Thrown)
| TimedOut (e : Thrown)
| Responded (res : Response T).

Arguments Parsed {T} v.
Arguments Unparsable {T} e.
Arguments NetworkFailure {T} e.
Arguments TimedOut {T} e.
Arguments Responded {T} res.

(** The type argument of [get<T>] and the shape each caller reads from
    [res.json()]. *)
Inductive Shape : Type :=
| SState | SClimate | SWater | SEnvironment | SEconomy | SSocial
| SAlerts | SInsight | STimeline | SForecast | SHealth
| SNodes | SSimulate | SPolicy | SAny.

Definition El (s : Shape) : Type :=
  match s with
  | SState => StateResponse.t
  | SClimate => ClimateResponse.t
  | SWater => WaterResponse.t
  | SEnvironment => EnvironmentResponse.t
  | SEconomy => EconomyResponse.t
  | SSocial => SocialResponse.t
  | SAlerts => AlertsResponse.t
  | SInsight => InsightResponse.t
  | STimeline => TimelineResponse.t
  | SForecast => ForecastResponse.t
  | SHealth => HealthResponse.t
  | SNodes => NodesResult.t
  | SSimulate => SimulateResult.t
  | SPolicy => PolicyResult.t
  | SAny => Json
  end.

(** Whether the reader of a body at shape [s] admits [null] beside the type
    it names.  [get<T>] returns [T | null], and [simulate] passes on what
    [r.json()] yields to a caller that tests it with [?.]: these bodies are an
    [El s] or [null].  A body read at [SAny] is any JSON value, [null]
    included, which [Json] holds as [JNull].  The chat declares its body a
    [PolicyResult]. *)
Definition nullable (s : Shape) : bool :=
  match s with
  | SPolicy | SAny => false
  | _ => true
  end.

(** What [await res.json()] yields at shape [s]; where [null] is admitted
    beside [El s], [None] is [null]. *)
Definition Body (s : Shape) : Type :=
  if nullable s then option (El s) else El s.

(** The value of a body, [None] when the body is [null]. *)
Definition value (s : Shape) : Body s -> option (El s) :=
  match s return Body s -> option (El s) with
  | SPolicy => fun v => Some v
  | SAny => fun j => match j with JNull => None | _ => Some j end
  | _ => fun v => v
  end.

(** The world answers the [n]-th request of a run; it also holds the clock
    ([Date.now()] in milliseconds and [new Date().toISOString()]). *)
Record World : Type := mkWorld {
  reply : forall s : Shape, nat -> Request -> Outcome (Body s);
  date_now : Z;
  date_iso : string
}.

(** A computation reads the world and extends the log of issued requests. *)
Definition IO (A : Type) : Type := World -> list Request -> A * list Request.

Definition ret {A : Type} (a : A) : IO A := fun _ log => (a, log).

Definition bind {A B : Type} (c : IO A) (k : A -> IO B) : IO B :=
  fun w log => let (a, log') := c w log in k a w log'.

Definition fetch (s : Shape) (r : Request) : IO (Outcome (Body s)) :=
  fun w log => (reply w s (List.length log) r, (log ++ [r])%list).

(** The requests a computation issues when started with an empty log. *)
Definition requests {A : Type} (c : IO A) (w : World) : list Request :=
  snd (c w []).

Definition result {A : Type} (c : IO A) (w : World) : A :=
  fst (c w []).

End Http.

Notation "x <- c ;; k" := (Http.bind c (fun x => k))
  (at level 61, c at next level, right associativity).
Notation "c ;;; k" := (Http.bind c (fun _ => k))
  (at level 61, right associativity).

(* ------------------------------------------------------------------------- *)
(** ** gaiaApi.ts: the fetch helpers and the [EtwinAPI] object *)

Module Api.
Import Http.

(** [Number.prototype.toString] on an integer, for template literals. *)
Definition decimal (z : Z) : string := NilZero.string_of_int (Z.to_int z).

Definition json_headers : list (string * string) :=
  [("Content-Type", "application/json")].

(** [Record<string, number>] as the JSON object it is serialised to. *)
Definition json_of_policy (p : Policy) : Json :=
  JObj (map (fun kv => (fst kv, JNum (snd kv))) p).

(** The arguments [get] passes to [fetch]. *)
Definition get_request (b : Base) (p : string) : Request :=
  {| method := GET; base := b; path := p; headers := []; body := None;
     timeout := Some 5000%Z |}.

(** [async function get<T>(base, path)]. *)
Definition get (s : Shape) (b : Base) (p : string) : IO (option (El s)) :=
  out <- fetch s (get_request b p) ;;
  match out with
  | Responded res =>
      if negb (ok res) then ret None
      else match json res with
           | Parsed v => ret (value s v)   (* the body, or [null] *)
           | Unparsable _ => ret None      (* caught *)
           end
  | NetworkFailure _ | TimedOut _ => ret None   (* caught *)
  end.

Definition gov (s : Shape) (p : string) : IO (option (El s)) := get s GOV_API p.

Definition sim (s : Shape) (p : string) : IO (option (El s)) := get s SIM_API p.

(** [r => r.ok ? r.json() : null] followed by [.catch(() => null)]: the
    body of a 2xx answer, which may itself be [null]. *)
Definition json_or_null {s : Shape} (out : Outcome (Body s)) : option (El s) :=
  match out with
  | Responded res =>
      if ok res then
        match json res with
        | Parsed v => value s v
        | Unparsable _ => None
        end
      else None
  | NetworkFailure _ | TimedOut _ => None
  end.

(** The arguments [govPost] passes to [fetch]; the body defaults to [{}]. *)
Definition govPost_request (p : string) (b : option Json) : Request :=
  {| method := POST; base := GOV_API; path := p; headers := json_headers;
     body := Some (b ?? JObj []); timeout := Some 10000%Z |}.

(** [govPost(path, body = {})]. *)
Definition govPost (p : string) (b : option Json) : IO (option Json) :=
  out <- fetch SAny (govPost_request p b) ;;
  ret (json_or_null out).

Module EtwinAPI.

Definition state : IO (option StateResponse.t) := gov SState "/api/state/current".
Definition climate : IO (option ClimateResponse.t) := gov SClimate "/api/signals/climate".
Definition water : IO (option WaterResponse.t) := gov SWater "/api/systems/water".
Definition environment : IO (option EnvironmentResponse.t) :=
  gov SEnvironment "/api/systems/environment".
Definition economy : IO (option EconomyResponse.t) := gov SEconomy "/api/systems/economy".
Definition social : IO (option SocialResponse.t) := gov SSocial "/api/systems/social".
Definition alerts : IO (option AlertsResponse.t) := gov SAlerts "/api/alerts/recent".
Definition insight : IO (option InsightResponse.t) := gov SInsight "/api/insights/latest".
Definition timeline (limit : option Z) : IO (option TimelineResponse.t) :=
  gov STimeline ("/api/timeline?limit=" ++ decimal (limit ?? 20%Z)).
Definition forecast : IO (option ForecastResponse.t) := gov SForecast "/api/forecast/7-cycle".
Definition health : IO (option HealthResponse.t) := gov SHealth "/api/meta/health".

Definition updateDigitalTwin (b : Json) : IO (option Json) :=
  govPost "/update-digital-twin" (Some b).
Definition runEmergencySimulation (b : option Json) : IO (option Json) :=
  govPost "/run-emergency-simulation" b.

(** [JSON.stringify({ steps, policy })]: an undefined [policy] is left out. *)
Definition simulate_body (steps : Js.num) (policy : option Policy) : Json :=
  JObj (("steps", JNum steps) ::
        match policy with
        | Some p => [("policy", json_of_policy p)]
        | None => []
        end).

Definition simulate_request (steps : Js.num) (policy : option Policy) : Request :=
  {| method := POST; base := SIM_API; path := "/api/simulate"; headers := json_headers;
     body := Some (simulate_body steps policy); timeout := Some 8000%Z |}.

Definition simulate (steps : Js.num) (policy : option Policy)
  : IO (option SimulateResult.t) :=
  out <- fetch SSimulate (simulate_request steps policy) ;;
  ret (json_or_null out).

Definition nodes : IO (option NodesResult.t) := sim SNodes "/api/nodes".

(** [fetch(url, { method: 'POST' }).catch(() => null)]: the promise resolves
    to the [Response] itself whenever the server answers. *)
Definition reset_request : Request :=
  {| method := POST; base := SIM_API; path := "/api/reset"; headers := [];
     body := None; timeout := None |}.

Definition reset : IO (option (Response Json)) :=
  out <- fetch SAny reset_request ;;
  match out with
  | Responded res => ret (Some res)
  | NetworkFailure _ | TimedOut _ => ret None
  end.

End EtwinAPI.

(** The properties of the [EtwinAPI] object, each with its arguments. *)
Inductive Call : Type :=
| CState | CClimate | CWater | CEnvironment | CEconomy | CSocial
| CAlerts | CInsight
| CTimeline (limit : option Z)
| CForecast | CHealth
| CUpdateDigitalTwin (b : Json)
| CRunEmergencySimulation (b : option Json)
| CSimulate (steps : Js.num) (policy : option Policy)
| CNodes
| CReset.

(** What a call resolves to: [null], or some value. *)
Inductive Resolved : Type :=
| Null
| Value.

Definition resolved {A : Type} (o : option A) : Resolved :=
  match o with Some _ => Value | None => Null end.

(** Perform a call of the client and keep whether it resolved to [null]. *)
Definition perform (c : Call) : IO Resolved :=
  match c with
  | CState => r <- EtwinAPI.state ;; ret (resolved r)
  | CClimate => r <- EtwinAPI.climate ;; ret (resolved r)
  | CWater => r <- EtwinAPI.water ;; ret (resolved r)
  | CEnvironment => r <- EtwinAPI.environment ;; ret (resolved r)
  | CEconomy => r <- EtwinAPI.economy ;; ret (resolved r)
  | CSocial => r <- EtwinAPI.social ;; ret (resolved r)
  | CAlerts => r <- EtwinAPI.alerts ;; ret (resolved r)
  | CInsight => r <- EtwinAPI.insight ;; ret (resolved r)
  | CTimeline limit => r <- EtwinAPI.timeline limit ;; ret (resolved r)
  | CForecast => r <- EtwinAPI.forecast ;; ret (resolved r)
  | CHealth => r <- EtwinAPI.health ;; ret (resolved r)
  | CUpdateDigitalTwin b => r <- EtwinAPI.updateDigitalTwin b ;; ret (resolved r)
  | CRunEmergencySimulation b => r <- EtwinAPI.runEmergencySimulation b ;; ret (resolved r)
  | CSimulate steps policy => r <- EtwinAPI.simulate steps policy ;; ret (resolved r)
  | CNodes => r <- EtwinAPI.nodes ;; ret (resolved r)
  | CReset => r <- EtwinAPI.reset ;; ret (resolved r)
  end.

End Api.

(* ------------------------------------------------------------------------- *)
(** ** SimulationDashboard.tsx *)

Module Dashboard.
Import Http.

(** *** The seeded generator and the derived data *)

(** [makeRng(seed)]: the closure it returns is carried as the value of its
    variable [s]. *)
Definition makeRng (seed : Js.num) : Js.num := seed.

(** One call of the closure returned by [makeRng]: the new value of [s] and
    the number returned. *)
Definition rand (s : Js.num) : Js.num * Js.num :=
  let s' := Js.bitand (s * 1664525 + 1013904223) (Js.of_Z 0xfffffff) in
  (s', Js.ushr0 s' / Js.of_Z 0xfffffff).

(** What [deriveLocalGovData] returns. *)
Module Derived.
Record t : Type := mk {
  state : StateResponse.t;
  climate : ClimateResponse.t;
  water : WaterResponse.t;
  env : EnvironmentResponse.t;
  economy : EconomyResponse.t;
  social : SocialResponse.t;
  forecast : ForecastResponse.t
}.
End Derived.

(** [deriveLocalGovData(simMetrics, timestep)]; [iso] is what
    [new Date().toISOString()] returns at the call. *)
Definition deriveLocalGovData (simMetrics : option SimMetrics.t) (timestep : Js.num)
    (iso : string) : Derived.t :=
  let emissions := Js.abs (Js.chain simMetrics SimMetrics.total_emissions ?? 120) in
  let water := Js.abs (Js.chain simMetrics SimMetrics.total_water_consumption ?? 85) in
  let vuln := Js.abs (Js.chain simMetrics SimMetrics.average_social_vulnerability ?? 0.4) in
  let sdg := Js.abs (Js.chain simMetrics SimMetrics.composite_sdg_score ?? 45) in
  let baseCO2 := 420 + emissions / 10 in
  let baseWaterPercent := Js.max 10 (80 - water / 50) in
  let state :=
    {| StateResponse.timestamp := iso;
       StateResponse.location := "Chennai";
       StateResponse.sdg_composite_score := sdg;
       StateResponse.system_stability_score := Js.max 0 (100 - vuln * 60 - (emissions / 5));
       StateResponse.confidence_score := 0.72;
       StateResponse.cycle_id := timestep |} in
  let climate :=
    {| ClimateResponse.temperature_current := 33 + vuln * 3;
       ClimateResponse.temperature_7_cycle_avg := 30;
       ClimateResponse.temperature_anomaly := vuln * 3;
       ClimateResponse.precipitation_current := Js.max 0 (2 - vuln * 2);
       ClimateResponse.climate_stress_factor := 1 + vuln * 0.5;
       ClimateResponse.anomaly_detected := vuln >? 0.5;
       ClimateResponse.trend :=
         if vuln >? 0.5 then ClimateResponse.rising else ClimateResponse.stable |} in
  let waterResp :=
    {| WaterResponse.reservoir_level_percent := baseWaterPercent;
       WaterResponse.daily_inflow := 2.1;
       WaterResponse.daily_outflow := water / 40;
       WaterResponse.water_stress_index := Js.min 1 (water / 200);
       WaterResponse.days_until_critical := Js.max 1 (Js.round (50 - water / 10));
       WaterResponse.status :=
         if water >? 100 then WaterResponse.critical
         else if water >? 60 then WaterResponse.warning
         else WaterResponse.normal |} in
  let env :=
    {| EnvironmentResponse.co2_ppm := baseCO2;
       EnvironmentResponse.emission_growth_rate := Js.min 0.15 (emissions / 2000);
       EnvironmentResponse.trend :=
         if emissions >? 150 then EnvironmentResponse.increasing
         else EnvironmentResponse.stable;
       EnvironmentResponse.carbon_stress_index := Js.min 1 (emissions / 300) |} in
  let economy :=
    {| EconomyResponse.gdp_growth_rate := Js.max (-2) (4 - vuln * 3);
       EconomyResponse.industry_profit_index := Js.max 0 (0.8 - vuln * 0.3);
       EconomyResponse.energy_price_index := 1 + emissions / 500;
       EconomyResponse.policy_spending := 32000000;
       EconomyResponse.economic_stability_score := Js.max 0 (0.8 - vuln * 0.4) |} in
  let social :=
    {| SocialResponse.inequality_index := vuln;
       SocialResponse.public_sentiment_score := Js.max (-1) (0.3 - vuln * 1.2);
       SocialResponse.public_pressure_score := Js.min 1 (vuln * 1.5);
       SocialResponse.governance_confidence := Js.max 0.2 (0.8 - vuln * 0.4);
       SocialResponse.stability_trend :=
         if vuln >? 0.5 then SocialResponse.declining
         else if vuln >? 0.3 then SocialResponse.stable
         else SocialResponse.improving |} in
  let forecast :=
    {| ForecastResponse.reservoir_projection :=
         Js.array_from 7 0 (fun i =>
           Js.max 10 (Js.round (baseWaterPercent - Js.of_Z i * (water / 500))));
       ForecastResponse.emission_projection :=
         Js.array_from 7 0 (fun i =>
           Js.round (baseCO2 + Js.of_Z i * (1.2 + emissions / 1000)));
       ForecastResponse.risk_probability := Js.min 0.95 (vuln * 0.8 + emissions / 600) |} in
  {| Derived.state := state; Derived.climate := climate; Derived.water := waterResp;
     Derived.env := env; Derived.economy := economy; Derived.social := social;
     Derived.forecast := forecast |}.

(** [buildNodesFromAPI]: every node is copied field by field. *)
Definition buildNodesFromAPI (raw : list NodeData.t) : list NodeData.t :=
  map (fun n =>
         {| NodeData.id := NodeData.id n; NodeData.lat := NodeData.lat n;
            NodeData.lon := NodeData.lon n; NodeData.stress := NodeData.stress n;
            NodeData.emissions := NodeData.emissions n;
            NodeData.vulnerability := NodeData.vulnerability n |}) raw.

Definition CL : Js.num := 13.0827.
Definition CO : Js.num := 80.2707.
Definition R : Js.num := 0.18.

(** The callback of [Array.from] in [generateSyntheticNodes], with the state
    of the generator made explicit: four draws per node. *)
Definition synthetic_node (stressFactor : Js.num) (id : Z) (s : Js.num)
  : NodeData.t * Js.num :=
  let (s1, r1) := rand s in
  let lat := CL - R + r1 * R * 2 in
  let (s2, r2) := rand s1 in
  let lon := CO - R + r2 * R * 2 in
  let (s3, r3) := rand s2 in
  let (s4, r4) := rand s3 in
  let stress := Js.min 1 ((r3 * 0.5) + stressFactor * 0.5 + r4 * 0.15) in
  ({| NodeData.id := Js.of_Z id; NodeData.lat := lat; NodeData.lon := lon;
      NodeData.stress := stress; NodeData.emissions := stress * 400;
      NodeData.vulnerability := stressFactor |}, s4).

Fixpoint synthetic_nodes (n : nat) (stressFactor : Js.num) (id : Z) (s : Js.num)
  : list NodeData.t :=
  match n with
  | O => []
  | S n' =>
      let (node, s') := synthetic_node stressFactor id s in
      node :: synthetic_nodes n' stressFactor (id + 1)%Z s'
  end.

(** [generateSyntheticNodes(stressFactor, seed = 42)]. *)
Definition generateSyntheticNodes (stressFactor : Js.num) (seed : option Js.num)
  : list NodeData.t :=
  synthetic_nodes 200 stressFactor 0 (makeRng (seed ?? 42)).

(** *** The state of the component

    One field per [useState] of [SimulationDashboard]. *)

Module Tab.
Inductive t : Type := overview | systems | alerts | forecast | insights.
End Tab.

Module View.
Record t : Type := mk {
  activeTab : Tab.t;
  simOnline : bool;
  govOnline : bool;
  nodes : list NodeData.t;
  tooltip : option (Js.num * Js.num * NodeData.t);
  timestep : Js.num;
  simLoading : bool;
  lastSimMetrics : option SimMetrics.t;
  stateData : option StateResponse.t;
  climate : option ClimateResponse.t;
  water : option WaterResponse.t;
  env : option EnvironmentResponse.t;
  economy : option EconomyResponse.t;
  social : option SocialResponse.t;
  alerts : option AlertsResponse.t;
  insight : option InsightResponse.t;
  forecast : option ForecastResponse.t;
  health : option HealthResponse.t;
  lastManualSimTime : Z
}.

(** The initial values passed to [useState]. *)
Definition initial : t :=
  {| activeTab := Tab.overview; simOnline := false; govOnline := false; nodes := [];
     tooltip := None; timestep := 0; simLoading := false; lastSimMetrics := None;
     stateData := None; climate := None; water := None; env := None; economy := None;
     social := None; alerts := None; insight := None; forecast := None; health := None;
     lastManualSimTime := 0%Z |}.

(** The setters returned by [useState]. *)
Definition setActiveTab (v : Tab.t) (d : t) : t :=
  {| activeTab := v; simOnline := simOnline d; govOnline := govOnline d; nodes := nodes d;
     tooltip := tooltip d; timestep := timestep d; simLoading := simLoading d;
     lastSimMetrics := lastSimMetrics d; stateData := stateData d; climate := climate d;
     water := water d; env := env d; economy := economy d; social := social d; alerts :=
     alerts d; insight := insight d; forecast := forecast d; health := health d;
     lastManualSimTime := lastManualSimTime d |}.

Definition setSimOnline (v : bool) (d : t) : t :=
  {| activeTab := activeTab d; simOnline := v; govOnline := govOnline d; nodes := nodes d;
     tooltip := tooltip d; timestep := timestep d; simLoading := simLoading d;
     lastSimMetrics := lastSimMetrics d; stateData := stateData d; climate := climate d;
     water := water d; env := env d; economy := economy d; social := social d; alerts :=
     alerts d; insight := insight d; forecast := forecast d; health := health d;
     lastManualSimTime := lastManualSimTime d |}.

Definition setGovOnline (v : bool) (d : t) : t :=
  {| activeTab := activeTab d; simOnline := simOnline d; govOnline := v; nodes := nodes d;
     tooltip := tooltip d; timestep := timestep d; simLoading := simLoading d;
     lastSimMetrics := lastSimMetrics d; stateData := stateData d; climate := climate d;
     water := water d; env := env d; economy := economy d; social := social d; alerts :=
     alerts d; insight := insight d; forecast := forecast d; health := health d;
     lastManualSimTime := lastManualSimTime d |}.

Definition setNodes (v : list NodeData.t) (d : t) : t :=
  {| activeTab := activeTab d; simOnline := simOnline d; govOnline := govOnline d; nodes
     := v; tooltip := tooltip d; timestep := timestep d; simLoading := simLoading d;
     lastSimMetrics := lastSimMetrics d; stateData := stateData d; climate := climate d;
     water := water d; env := env d; economy := economy d; social := social d; alerts :=
     alerts d; insight := insight d; forecast := forecast d; health := health d;
     lastManualSimTime := lastManualSimTime d |}.

Definition setTooltip (v : option (Js.num * Js.num * NodeData.t)) (d : t) : t :=
  {| activeTab := activeTab d; simOnline := simOnline d; govOnline := govOnline d; nodes
     := nodes d; tooltip := v; timestep := timestep d; simLoading := simLoading d;
     lastSimMetrics := lastSimMetrics d; stateData := stateData d; climate := climate d;
     water := water d; env := env d; economy := economy d; social := social d; alerts :=
     alerts d; insight := insight d; forecast := forecast d; health := health d;
     lastManualSimTime := lastManualSimTime d |}.

Definition setTimestep (v : Js.num) (d : t) : t :=
  {| activeTab := activeTab d; simOnline := simOnline d; govOnline := govOnline d; nodes
     := nodes d; tooltip := tooltip d; timestep := v; simLoading := simLoading d;
     lastSimMetrics := lastSimMetrics d; stateData := stateData d; climate := climate d;
     water := water d; env := env d; economy := economy d; social := social d; alerts :=
     alerts d; insight := insight d; forecast := forecast d; health := health d;
     lastManualSimTime := lastManualSimTime d |}.

Definition setSimLoading (v : bool) (d : t) : t :=
  {| activeTab := activeTab d; simOnline := simOnline d; govOnline := govOnline d; nodes
     := nodes d; tooltip := tooltip d; timestep := timestep d; simLoading := v;
     lastSimMetrics := lastSimMetrics d; stateData := stateData d; climate := climate d;
     water := water d; env := env d; economy := economy d; social := social d; alerts :=
     alerts d; insight := insight d; forecast := forecast d; health := health d;
     lastManualSimTime := lastManualSimTime d |}.

Definition setLastSimMetrics (v : option SimMetrics.t) (d : t) : t :=
  {| activeTab := activeTab d; simOnline := simOnline d; govOnline := govOnline d; nodes
     := nodes d; tooltip := tooltip d; timestep := timestep d; simLoading := simLoading
     d; lastSimMetrics := v; stateData := stateData d; climate := climate d; water :=
     water d; env := env d; economy := economy d; social := social d; alerts := alerts
     d; insight := insight d; forecast := forecast d; health := health d;
     lastManualSimTime := lastManualSimTime d |}.

Definition setStateData (v : option StateResponse.t) (d : t) : t :=
  {| activeTab := activeTab d; simOnline := simOnline d; govOnline := govOnline d; nodes
     := nodes d; tooltip := tooltip d; timestep := timestep d; simLoading := simLoading
     d; lastSimMetrics := lastSimMetrics d; stateData := v; climate := climate d; water
     := water d; env := env d; economy := economy d; social := social d; alerts :=
     alerts d; insight := insight d; forecast := forecast d; health := health d;
     lastManualSimTime := lastManualSimTime d |}.

Definition setClimate (v : option ClimateResponse.t) (d : t) : t :=
  {| activeTab := activeTab d; simOnline := simOnline d; govOnline := govOnline d; nodes
     := nodes d; tooltip := tooltip d; timestep := timestep d; simLoading := simLoading
     d; lastSimMetrics := lastSimMetrics d; stateData := stateData d; climate := v;
     water := water d; env := env d; economy := economy d; social := social d; alerts :=
     alerts d; insight := insight d; forecast := forecast d; health := health d;
     lastManualSimTime := lastManualSimTime d |}.

Definition setWater (v : option WaterResponse.t) (d : t) : t :=
  {| activeTab := activeTab d; simOnline := simOnline d; govOnline := govOnline d; nodes
     := nodes d; tooltip := tooltip d; timestep := timestep d; simLoading := simLoading
     d; lastSimMetrics := lastSimMetrics d; stateData := stateData d; climate := climate
     d; water := v; env := env d; economy := economy d; social := social d; alerts :=
     alerts d; insight := insight d; forecast := forecast d; health := health d;
     lastManualSimTime := lastManualSimTime d |}.

Definition setEnv (v : option EnvironmentResponse.t) (d : t) : t :=
  {| activeTab := activeTab d; simOnline := simOnline d; govOnline := govOnline d; nodes
     := nodes d; tooltip := tooltip d; timestep := timestep d; simLoading := simLoading
     d; lastSimMetrics := lastSimMetrics d; stateData := stateData d; climate := climate
     d; water := water d; env := v; economy := economy d; social := social d; alerts :=
     alerts d; insight := insight d; forecast := forecast d; health := health d;
     lastManualSimTime := lastManualSimTime d |}.

Definition setEconomy (v : option EconomyResponse.t) (d : t) : t :=
  {| activeTab := activeTab d; simOnline := simOnline d; govOnline := govOnline d; nodes
     := nodes d; tooltip := tooltip d; timestep := timestep d; simLoading := simLoading
     d; lastSimMetrics := lastSimMetrics d; stateData := stateData d; climate := climate
     d; water := water d; env := env d; economy := v; social := social d; alerts :=
     alerts d; insight := insight d; forecast := forecast d; health := health d;
     lastManualSimTime := lastManualSimTime d |}.

Definition setSocial (v : option SocialResponse.t) (d : t) : t :=
  {| activeTab := activeTab d; simOnline := simOnline d; govOnline := govOnline d; nodes
     := nodes d; tooltip := tooltip d; timestep := timestep d; simLoading := simLoading
     d; lastSimMetrics := lastSimMetrics d; stateData := stateData d; climate := climate
     d; water := water d; env := env d; economy := economy d; social := v; alerts :=
     alerts d; insight := insight d; forecast := forecast d; health := health d;
     lastManualSimTime := lastManualSimTime d |}.

Definition setAlerts (v : option AlertsResponse.t) (d : t) : t :=
  {| activeTab := activeTab d; simOnline := simOnline d; govOnline := govOnline d; nodes
     := nodes d; tooltip := tooltip d; timestep := timestep d; simLoading := simLoading
     d; lastSimMetrics := lastSimMetrics d; stateData := stateData d; climate := climate
     d; water := water d; env := env d; economy := economy d; social := social d; alerts
     := v; insight := insight d; forecast := forecast d; health := health d;
     lastManualSimTime := lastManualSimTime d |}.

Definition setInsight (v : option InsightResponse.t) (d : t) : t :=
  {| activeTab := activeTab d; simOnline := simOnline d; govOnline := govOnline d; nodes
     := nodes d; tooltip := tooltip d; timestep := timestep d; simLoading := simLoading
     d; lastSimMetrics := lastSimMetrics d; stateData := stateData d; climate := climate
     d; water := water d; env := env d; economy := economy d; social := social d; alerts
     := alerts d; insight := v; forecast := forecast d; health := health d;
     lastManualSimTime := lastManualSimTime d |}.

Definition setForecast (v : option ForecastResponse.t) (d : t) : t :=
  {| activeTab := activeTab d; simOnline := simOnline d; govOnline := govOnline d; nodes
     := nodes d; tooltip := tooltip d; timestep := timestep d; simLoading := simLoading
     d; lastSimMetrics := lastSimMetrics d; stateData := stateData d; climate := climate
     d; water := water d; env := env d; economy := economy d; social := social d; alerts
     := alerts d; insight := insight d; forecast := v; health := health d;
     lastManualSimTime := lastManualSimTime d |}.

Definition setHealth (v : option HealthResponse.t) (d : t) : t :=
  {| activeTab := activeTab d; simOnline := simOnline d; govOnline := govOnline d; nodes
     := nodes d; tooltip := tooltip d; timestep := timestep d; simLoading := simLoading
     d; lastSimMetrics := lastSimMetrics d; stateData := stateData d; climate := climate
     d; water := water d; env := env d; economy := economy d; social := social d; alerts
     := alerts d; insight := insight d; forecast := forecast d; health := v;
     lastManualSimTime := lastManualSimTime d |}.

Definition setLastManualSimTime (v : Z) (d : t) : t :=
  {| activeTab := activeTab d; simOnline := simOnline d; govOnline := govOnline d; nodes
     := nodes d; tooltip := tooltip d; timestep := timestep d; simLoading := simLoading
     d; lastSimMetrics := lastSimMetrics d; stateData := stateData d; climate := climate
     d; water := water d; env := env d; economy := economy d; social := social d; alerts
     := alerts d; insight := insight d; forecast := forecast d; health := health d;
     lastManualSimTime := v |}.

End View.

(** *** The callbacks of the component

    Each callback takes the state it runs on and returns the state it leaves;
    the requests it issues are logged by [IO]. *)

(** [Date.now()] and [new Date().toISOString()]. *)
Definition Date_now : IO Z := fun w log => (date_now w, log).
Definition Date_toISOString : IO string := fun w log => (date_iso w, log).

(** [fetch(url)] with no options. *)
Definition ping_request (b : Base) (p : string) : Request :=
  {| method := GET; base := b; path := p; headers := []; body := None;
     timeout := None |}.

(** [fetch(url).then(r => r.ok).catch(() => false)]. *)
Definition ping (b : Base) (p : string) : IO bool :=
  out <- fetch SAny (ping_request b p) ;;
  match out with
  | Responded res => ret (ok res)
  | NetworkFailure _ | TimedOut _ => ret false
  end.

Definition pingBoth (d : View.t) : IO View.t :=
  simRes <- ping SIM_API "/" ;;
  govRes <- ping GOV_API "/api/meta/health" ;;
  let d := View.setSimOnline simRes d in
  let d := View.setGovOnline govRes d in
  ret d.

(** [stepSim(policy)]: the [finally] block clears [simLoading] on every path. *)
Definition stepSim (policy : option Policy) (d : View.t)
  : IO (option (SimMetrics.t * Js.num) * View.t) :=
  let d := View.setSimLoading true d in
  let steps := 1 in
  result <- Api.EtwinAPI.simulate steps policy ;;
  match Js.chain result SimulateResult.results with
  | Some (r0 :: rest) =>
      let m := List.last (r0 :: rest) r0 in
      let ts := Js.chain result SimulateResult.current_timestep ?? 0 in
      let d := View.setLastSimMetrics (Some m) d in
      let d := View.setTimestep ts d in
      ret (Some (m, ts), View.setSimLoading false d)
  | Some [] | None => ret (None, View.setSimLoading false d)
  end.

(** [if (x) set(x)]. *)
Definition set_if {A : Type} (x : option A) (set : option A -> View.t -> View.t)
    (d : View.t) : View.t :=
  match x with
  | Some v => set (Some v) d
  | None => d
  end.

(** [fetchGov(simMetrics, ts, govUp)]. *)
Definition fetchGov (simMetrics : option SimMetrics.t) (ts : Js.num) (govUp : bool)
    (d : View.t) : IO View.t :=
  if govUp then
    st <- Api.EtwinAPI.state ;;
    cl <- Api.EtwinAPI.climate ;;
    wa <- Api.EtwinAPI.water ;;
    en <- Api.EtwinAPI.environment ;;
    ec <- Api.EtwinAPI.economy ;;
    so <- Api.EtwinAPI.social ;;
    al <- Api.EtwinAPI.alerts ;;
    ins <- Api.EtwinAPI.insight ;;
    fc <- Api.EtwinAPI.forecast ;;
    he <- Api.EtwinAPI.health ;;
    let d := set_if st View.setStateData d in
    let d := set_if cl View.setClimate d in
    let d := set_if wa View.setWater d in
    let d := set_if en View.setEnv d in
    let d := set_if ec View.setEconomy d in
    let d := set_if so View.setSocial d in
    let d := set_if al View.setAlerts d in
    let d := set_if ins View.setInsight d in
    let d := set_if fc View.setForecast d in
    let d := set_if he View.setHealth d in
    ret d
  else
    iso <- Date_toISOString ;;
    let g := deriveLocalGovData simMetrics ts iso in
    let d := View.setStateData (Some (Derived.state g)) d in
    let d := View.setClimate (Some (Derived.climate g)) d in
    let d := View.setWater (Some (Derived.water g)) d in
    let d := View.setEnv (Some (Derived.env g)) d in
    let d := View.setEconomy (Some (Derived.economy g)) d in
    let d := View.setSocial (Some (Derived.social g)) d in
    let d := View.setForecast (Some (Derived.forecast g)) d in
    ret d.

(** [fetchNodes(stressFactor)]. *)
Definition fetchNodes (stressFactor : Js.num) (d : View.t) : IO View.t :=
  data <- Api.EtwinAPI.nodes ;;
  match Js.chain data NodesResult.nodes with
  | Some (n0 :: rest) => ret (View.setNodes (buildNodesFromAPI (n0 :: rest)) d)
  | Some [] | None => ret (View.setNodes (generateSyntheticNodes stressFactor None) d)
  end.

(** [Math.min(1, Math.abs(m.average_social_vulnerability ?? 0.35) + 0.1)]. *)
Definition stress_of (m : SimMetrics.t) : Js.num :=
  Js.min 1 (Js.abs (SimMetrics.average_social_vulnerability m ?? 0.35) + 0.1).

(** [applyPolicy(policy)]; [govOnline] is the value the callback closed over. *)
Definition applyPolicy (policy : Policy) (d : View.t) : IO View.t :=
  now <- Date_now ;;
  let govOnline := View.govOnline d in
  let d := View.setLastManualSimTime now d in
  rd <- stepSim (Some policy) d ;;
  let (result, d) := rd in
  match result with
  | Some (m, ts) =>
      let stressFactor := stress_of m in
      d <- fetchGov (Some m) ts govOnline d ;;
      d <- fetchNodes stressFactor d ;;
      ret d
  | None => ret d
  end.

(** [tick()], the body of the poll loop. *)
Definition tick (d : View.t) : IO View.t :=
  now <- Date_now ;;
  if (now - View.lastManualSimTime d <? 15000)%Z then ret d
  else
    simUp <- ping SIM_API "/" ;;
    govUp <- ping GOV_API "/api/meta/health" ;;
    let d := View.setSimOnline simUp d in
    let d := View.setGovOnline govUp d in
    if simUp then
      rd <- stepSim None d ;;
      let (result, d) := rd in
      match result with
      | Some (m, ts) =>
          let stressFactor := stress_of m in
          d <- fetchGov (Some m) ts govUp d ;;
          d <- fetchNodes stressFactor d ;;
          ret d
      | None => ret d
      end
    else ret d.

End Dashboard.

(* ------------------------------------------------------------------------- *)
(** ** PolicyChat.tsx *)

Module PolicyChat.
Import Http.

Inductive Role : Type := user | assistant.

Record Message : Type := mkMessage {
  role : Role;
  text : string;
  result : option PolicyResult.t
}.

(** One field per [useState] of [PolicyChat]. *)
Record t : Type := mk {
  open : bool;
  input : string;
  messages : list Message;
  loading : bool;
  apiKey : string;
  showKeyInput : bool;
  appliedIndex : option Z
}.

Definition setInput (v : string) (c : t) : t :=
  {| open := open c; input := v; messages := messages c; loading := loading c;
     apiKey := apiKey c; showKeyInput := showKeyInput c; appliedIndex := appliedIndex c |}.

(** [setMessages(prev => f prev)]. *)
Definition setMessages (f : list Message -> list Message) (c : t) : t :=
  {| open := open c; input := input c; messages := f (messages c); loading := loading c;
     apiKey := apiKey c; showKeyInput := showKeyInput c; appliedIndex := appliedIndex c |}.

Definition setLoading (v : bool) (c : t) : t :=
  {| open := open c; input := input c; messages := messages c; loading := v;
     apiKey := apiKey c; showKeyInput := showKeyInput c; appliedIndex := appliedIndex c |}.

(** The characters [String.prototype.trim] strips - the code points of
    WhiteSpace and of LineTerminator - each as its UTF-8 bytes:
    U+0009 to U+000D, U+0020, U+00A0, U+1680, U+2000 to U+200A, U+2028,
    U+2029, U+202F, U+205F, U+3000 and U+FEFF. *)
Definition white_space : list (list ascii) :=
  map (map ascii_of_nat)
    [ [9]; [10]; [11]; [12]; [13]; [32];
      [194; 160];
      [225; 154; 128];
      [226; 128; 128]; [226; 128; 129]; [226; 128; 130]; [226; 128; 131];
      [226; 128; 132]; [226; 128; 133]; [226; 128; 134]; [226; 128; 135];
      [226; 128; 136]; [226; 128; 137]; [226; 128; 138];
      [226; 128; 168]; [226; 128; 169];
      [226; 128; 175];
      [226; 129; 159];
      [227; 128; 128];
      [239; 187; 191] ]%nat.

Fixpoint bytes_eqb (x y : list ascii) : bool :=
  match x, y with
  | [], [] => true
  | a :: x', b :: y' => Ascii.eqb a b && bytes_eqb x' y'
  | _, _ => false
  end.

(** Whether the bytes [e] are one white-space character. *)
Definition is_white_space (e : list ascii) : bool :=
  existsb (bytes_eqb e) white_space.

(** Drop from the front of [l] every character [test] accepts; a character
    is one, two or three bytes long. *)
Fixpoint strip (test : list ascii -> bool) (l : list ascii) : list ascii :=
  match l with
  | [] => []
  | a :: l1 =>
      if test [a] then strip test l1
      else
        match l1 with
        | [] => l
        | b :: l2 =>
            if test [a; b] then strip test l2
            else
              match l2 with
              | [] => l
              | c :: l3 => if test [a; b; c] then strip test l3 else l
              end
        end
  end.

Definition trim_start (l : list ascii) : list ascii := strip is_white_space l.

(** The same from the back: the bytes of a character are met in reverse. *)
Definition trim_end (l : list ascii) : list ascii :=
  rev (strip (fun e => is_white_space (rev e)) (rev l)).

(** [s.trim()]. *)
Definition trim (s : string) : string :=
  string_of_list_ascii (trim_end (trim_start (list_ascii_of_string s))).

(** U+00A0, the no-break space. *)
Definition no_break_space : string :=
  string_of_list_ascii (map ascii_of_nat [194; 160]%nat).

(** The warning sign followed by a variation selector, as UTF-8 bytes. *)
Definition warning_sign : string :=
  string_of_list_ascii
    (map ascii_of_nat [226; 154; 160; 239; 184; 143]%nat).

(** [err instanceof Error ? err.message : 'Request failed']. *)
Definition message_of (e : Thrown) : string :=
  match e with
  | ErrorObj m => m
  | NonError => "Request failed"
  end.

Definition error_message (e : Thrown) : Message :=
  {| role := assistant; text := warning_sign ++ " Error: " ++ message_of e;
     result := None |}.

(** [JSON.stringify({ question: q, gemini_api_key: apiKey || undefined })]. *)
Definition chat_body (q key : string) : Json :=
  JObj (("question", JStr q) ::
        if (key =? "")%string then [] else [("gemini_api_key", JStr key)]).

Definition chat_request (q key : string) : Request :=
  {| method := POST; base := SIM_API; path := "/api/policy-chat";
     headers := Api.json_headers; body := Some (chat_body q key);
     timeout := Some 20000%Z |}.

(** What the [try] block appends, or what the [catch] block appends when the
    [try] block throws. *)
Definition reply_message (out : Outcome PolicyResult.t) : Message :=
  match out with
  | Responded res =>
      if negb (ok res) then
        error_message (ErrorObj ("Server returned " ++ Api.decimal (status res)))
      else
        match json res with
        | Parsed data =>
            {| role := assistant; text := PolicyResult.analysis data; result := Some data |}
        | Unparsable e => error_message e
        end
  | NetworkFailure e | TimedOut e => error_message e
  end.

(** [send(question?)]. *)
Definition send (question : option string) (c : t) : IO t :=
  let q := trim (question ?? input c) in
  if (q =? "")%string || loading c then ret c
  else
    let key := apiKey c in
    let c := setInput "" c in
    let c := setMessages (fun prev => prev ++ [{| role := user; text := q; result := None |}])%list c in
    let c := setLoading true c in
    out <- fetch SPolicy (chat_request q key) ;;
    let c := setMessages (fun prev => prev ++ [reply_message out])%list c in
    ret (setLoading false c).

(** [clear()]. *)
Definition clear (c : t) : t := setMessages (fun _ => []) c.

End PolicyChat.

(* ------------------------------------------------------------------------- *)
(** ** Vocabulary of the properties *)

Module Contract.
Import Http Api.

(** A network failure, a timeout, or an answer whose status is not 2xx. *)
Definition failed {T : Type} (out : Outcome T) : bool :=
  match out with
  | Responded res => negb (ok res)
  | NetworkFailure _ | TimedOut _ => true
  end.

(** The type argument each call of the client reads its answer at. *)
Definition shape_of (c : Call) : Shape :=
  match c with
  | CState => SState | CClimate => SClimate | CWater => SWater
  | CEnvironment => SEnvironment | CEconomy => SEconomy | CSocial => SSocial
  | CAlerts => SAlerts | CInsight => SInsight | CTimeline _ => STimeline
  | CForecast => SForecast | CHealth => SHealth
  | CUpdateDigitalTwin _ | CRunEmergencySimulation _ => SAny
  | CSimulate _ _ => SSimulate
  | CNodes => SNodes
  | CReset => SAny
  end.

(** [s.startsWith(pre)]. *)
Fixpoint starts_with (pre s : string) : bool :=
  match pre with
  | EmptyString => true
  | String a pre' =>
      match s with
      | String b s' => Ascii.eqb a b && starts_with pre' s'
      | EmptyString => false
      end
  end.

(** The operations the specification enumerates, by method and path: the
    twelve GET endpoints (the timeline with its [limit] query) and the four
    POST endpoints. *)
Definition claimed_operation (m : Method) (p : string) : bool :=
  match m with
  | GET =>
      existsb (String.eqb p)
        ["/api/state/current"; "/api/signals/climate"; "/api/systems/water";
         "/api/systems/environment"; "/api/systems/economy"; "/api/systems/social";
         "/api/alerts/recent"; "/api/insights/latest"; "/api/forecast/7-cycle";
         "/api/meta/health"; "/api/nodes"]
      || starts_with "/api/timeline?limit=" p
  | POST =>
      existsb (String.eqb p)
        ["/api/simulate"; "/run-emergency-simulation"; "/update-digital-twin";
         "/api/policy-chat"]
  end.

(** Method, base and path of every call of the client, [reset] included. *)
Definition target (c : Call) : Method * Base * string :=
  match c with
  | CState => (GET, GOV_API, "/api/state/current")
  | CClimate => (GET, GOV_API, "/api/signals/climate")
  | CWater => (GET, GOV_API, "/api/systems/water")
  | CEnvironment => (GET, GOV_API, "/api/systems/environment")
  | CEconomy => (GET, GOV_API, "/api/systems/economy")
  | CSocial => (GET, GOV_API, "/api/systems/social")
  | CAlerts => (GET, GOV_API, "/api/alerts/recent")
  | CInsight => (GET, GOV_API, "/api/insights/latest")
  | CTimeline limit => (GET, GOV_API, "/api/timeline?limit=" ++ decimal (limit ?? 20%Z))
  | CForecast => (GET, GOV_API, "/api/forecast/7-cycle")
  | CHealth => (GET, GOV_API, "/api/meta/health")
  | CUpdateDigitalTwin _ => (POST, GOV_API, "/update-digital-twin")
  | CRunEmergencySimulation _ => (POST, GOV_API, "/run-emergency-simulation")
  | CSimulate _ _ => (POST, SIM_API, "/api/simulate")
  | CNodes => (GET, SIM_API, "/api/nodes")
  | CReset => (POST, SIM_API, "/api/reset")
  end.

(** The request a call of the client issues. *)
Definition request_of (c : Call) : Request :=
  match c with
  | CUpdateDigitalTwin b => govPost_request "/update-digital-twin" (Some b)
  | CRunEmergencySimulation b => govPost_request "/run-emergency-simulation" b
  | CSimulate steps policy => EtwinAPI.simulate_request steps policy
  | CReset => EtwinAPI.reset_request
  | _ => get_request (snd (fst (target c))) (snd (target c))
  end.

(** The abort timeout of every call of the client, in milliseconds. *)
Definition client_timeout (c : Call) : option Z :=
  match c with
  | CUpdateDigitalTwin _ | CRunEmergencySimulation _ => Some 10000%Z
  | CSimulate _ _ => Some 8000%Z
  | CReset => None
  | _ => Some 5000%Z
  end.

(** A world in which no request reaches a server. *)
Definition offline : World :=
  {| reply := fun _ _ _ => NetworkFailure (ErrorObj "Failed to fetch");
     date_now := 0%Z;
     date_iso := "1970-01-01T00:00:00.000Z" |}.

(** A world in which every request is answered with [code] and no JSON body. *)
Definition answering (code : Z) : World :=
  {| reply := fun _ _ _ =>
       Responded {| status := code;
                    json := Unparsable (ErrorObj "Unexpected end of JSON input") |};
     date_now := 0%Z;
     date_iso := "1970-01-01T00:00:00.000Z" |}.

(** A world in which every request is answered with status 200 and the body
    [null], where the reader admits [null]; the chat is not answered. *)
Definition null_bodies : World :=
  {| reply := fun s _ _ =>
       match s return Outcome (Body s) with
       | SPolicy => NetworkFailure (ErrorObj "Failed to fetch")
       | SAny => Responded {| status := 200; json := Parsed JNull |}
       | _ => Responded {| status := 200; json := Parsed None |}
       end;
     date_now := 0%Z;
     date_iso := "1970-01-01T00:00:00.000Z" |}.

End Contract.

Module Bounds.
Import Dashboard.

(** [Number.isFinite]. *)
Definition is_finite (x : Js.num) : bool :=
  match x with Js.Fin _ => true | _ => false end.

Definition finite_field (o : option Js.num) : bool :=
  match o with Some x => is_finite x | None => true end.

(** [Number.isNaN]. *)
Definition is_nan (x : Js.num) : bool :=
  match x with Js.NaN => true | _ => false end.

Definition not_nan_field (o : option Js.num) : bool :=
  match o with Some x => negb (is_nan x) | None => true end.

(** The metrics are [null], or: [total_water_consumption] is absent or a
    finite number, and neither [total_emissions] nor
    [average_social_vulnerability] is NaN. *)
Definition admissible (m : option SimMetrics.t) : bool :=
  match m with
  | None => true
  | Some m =>
      not_nan_field (SimMetrics.total_emissions m)
      && finite_field (SimMetrics.total_water_consumption m)
      && not_nan_field (SimMetrics.average_social_vulnerability m)
  end.

(** A magnitude that is not NaN: a finite number that is not negative, or
    [Infinity]. *)
Definition magnitude (x : Js.num) : Prop :=
  x = Js.PInf \/ exists q, 0 <= q /\ x = Js.Fin q.

(** The consumption the water thresholds are applied to: the magnitude of
    [total_water_consumption], 85 when it is absent. *)
Definition consumption (m : option SimMetrics.t) : Js.num :=
  Js.abs (Js.chain m SimMetrics.total_water_consumption ?? 85).

Fixpoint non_increasing (l : list Js.num) : bool :=
  match l with
  | a :: (b :: _) as rest => (b <=? a) && non_increasing rest
  | _ => true
  end.

(** The bounds on what [deriveLocalGovData] returns. *)
Definition bounded_output (water : Js.num) (g : Derived.t) : Prop :=
  (0 <=? StateResponse.system_stability_score (Derived.state g)) = true
  /\ (10 <=? WaterResponse.reservoir_level_percent (Derived.water g)) = true
  /\ (WaterResponse.reservoir_level_percent (Derived.water g) <=? 80) = true
  /\ (WaterResponse.water_stress_index (Derived.water g) <=? 1) = true
  /\ (1 <=? WaterResponse.days_until_critical (Derived.water g)) = true
  /\ (EnvironmentResponse.emission_growth_rate (Derived.env g) <=? 0.15) = true
  /\ (EnvironmentResponse.carbon_stress_index (Derived.env g) <=? 1) = true
  /\ (SocialResponse.public_pressure_score (Derived.social g) <=? 1) = true
  /\ (0.2 <=? SocialResponse.governance_confidence (Derived.social g)) = true
  /\ (SocialResponse.governance_confidence (Derived.social g) <=? 0.8) = true
  /\ (ForecastResponse.risk_probability (Derived.forecast g) <=? 0.95) = true
  /\ (WaterResponse.status (Derived.water g) = WaterResponse.critical
      <-> (water >? 100) = true)
  /\ (WaterResponse.status (Derived.water g) = WaterResponse.warning
      <-> (water >? 60) = true /\ (water <=? 100) = true)
  /\ List.length (ForecastResponse.reservoir_projection (Derived.forecast g)) = 7%nat
  /\ List.length (ForecastResponse.emission_projection (Derived.forecast g)) = 7%nat
  /\ non_increasing (ForecastResponse.reservoir_projection (Derived.forecast g)) = true
  /\ Forall (fun x => (10 <=? x) = true)
       (ForecastResponse.reservoir_projection (Derived.forecast g)).

(** Metrics of a step with a negative consumption reading. *)
Definition sample_metrics : SimMetrics.t :=
  {| SimMetrics.total_emissions := Some (Js.Fin 310);
     SimMetrics.total_water_consumption := Some (Js.Fin (-150));
     SimMetrics.average_social_vulnerability := Some (Js.Fin 0.6);
     SimMetrics.composite_sdg_score := None;
     SimMetrics.timestep := Some (Js.Fin 7) |}.

(** The metrics of a simulation step whose water consumption overflowed to
    [Infinity] when the answer was parsed. *)
Definition flooded_metrics : SimMetrics.t :=
  {| SimMetrics.total_emissions := None;
     SimMetrics.total_water_consumption := Some Js.PInf;
     SimMetrics.average_social_vulnerability := None;
     SimMetrics.composite_sdg_score := None;
     SimMetrics.timestep := None |}.

(** Where a synthetic node lies, and what its emissions are. *)
Definition node_placed (n : NodeData.t) : Prop :=
  (CL - R <=? NodeData.lat n) = true
  /\ (NodeData.lat n <=? CL + R) = true
  /\ (CO - R <=? NodeData.lon n) = true
  /\ (NodeData.lon n <=? CO + R) = true
  /\ NodeData.emissions n = NodeData.stress n * 400.

(** The stress of a node lies in [[0, 1]]. *)
Definition stress_in_unit (n : NodeData.t) : Prop :=
  (0 <=? NodeData.stress n) = true /\ (NodeData.stress n <=? 1) = true.

(** The bounds on one synthetic node. *)
Definition node_in_bounds (n : NodeData.t) : Prop :=
  node_placed n /\ stress_in_unit n.

End Bounds.

Module Governance.
Import Http Dashboard.

(** The ten governance objects the dashboard holds. *)
Inductive Dto : Type :=
| DState | DClimate | DWater | DEnv | DEconomy | DSocial
| DAlerts | DInsight | DForecast | DHealth.

Definition all : list Dto :=
  [DState; DClimate; DWater; DEnv; DEconomy; DSocial; DAlerts; DInsight; DForecast; DHealth].

Definition shape (k : Dto) : Shape :=
  match k with
  | DState => SState | DClimate => SClimate | DWater => SWater
  | DEnv => SEnvironment | DEconomy => SEconomy | DSocial => SSocial
  | DAlerts => SAlerts | DInsight => SInsight | DForecast => SForecast
  | DHealth => SHealth
  end.

(** The state variable that holds the object. *)
Definition field (k : Dto) : View.t -> option (El (shape k)) :=
  match k with
  | DState => View.stateData | DClimate => View.climate | DWater => View.water
  | DEnv => View.env | DEconomy => View.economy | DSocial => View.social
  | DAlerts => View.alerts | DInsight => View.insight | DForecast => View.forecast
  | DHealth => View.health
  end.

(** The endpoint [fetchGov] reads it from, and its place in [Promise.all]. *)
Definition endpoint (k : Dto) : string :=
  match k with
  | DState => "/api/state/current" | DClimate => "/api/signals/climate"
  | DWater => "/api/systems/water" | DEnv => "/api/systems/environment"
  | DEconomy => "/api/systems/economy" | DSocial => "/api/systems/social"
  | DAlerts => "/api/alerts/recent" | DInsight => "/api/insights/latest"
  | DForecast => "/api/forecast/7-cycle" | DHealth => "/api/meta/health"
  end.

Definition position (k : Dto) : nat :=
  match k with
  | DState => 0 | DClimate => 1 | DWater => 2 | DEnv => 3 | DEconomy => 4
  | DSocial => 5 | DAlerts => 6 | DInsight => 7 | DForecast => 8 | DHealth => 9
  end.

(** The object [deriveLocalGovData] provides, if it provides one. *)
Definition derived (k : Dto) : Derived.t -> option (El (shape k)) :=
  match k with
  | DState => fun g => Some (Derived.state g)
  | DClimate => fun g => Some (Derived.climate g)
  | DWater => fun g => Some (Derived.water g)
  | DEnv => fun g => Some (Derived.env g)
  | DEconomy => fun g => Some (Derived.economy g)
  | DSocial => fun g => Some (Derived.social g)
  | DForecast => fun g => Some (Derived.forecast g)
  | DAlerts | DInsight | DHealth => fun _ => None
  end.

(** What the governance service answers for the object during a run of
    [fetchGov] started with [log]: the parsed body, or [None] for [null]. *)
Definition received (k : Dto) (w : World) (log : list Request) : option (El (shape k)) :=
  Api.json_or_null
    (reply w (shape k) (List.length log + position k)%nat
       (Api.get_request GOV_API (endpoint k))).

(** The three ways a run [fetchGov m ts govUp] from [d] to [d'] treats an
    object: replaced by the object just received or just derived; kept
    because the governance branch received [null] for it; kept because the
    fallback branch derives nothing for it. *)
Definition replaced (k : Dto) (m : option SimMetrics.t) (ts : Js.num) (govUp : bool)
    (w : World) (log : list Request) (d' : View.t) : Prop :=
  (govUp = true /\ exists v, received k w log = Some v /\ field k d' = Some v)
  \/ (govUp = false
      /\ exists v, derived k (deriveLocalGovData m ts (date_iso w)) = Some v
                   /\ field k d' = Some v).

Definition kept_on_null (k : Dto) (govUp : bool) (w : World) (log : list Request)
    (d d' : View.t) : Prop :=
  govUp = true /\ received k w log = None /\ field k d' = field k d.

Definition kept_underived (k : Dto) (m : option SimMetrics.t) (ts : Js.num)
    (govUp : bool) (w : World) (d d' : View.t) : Prop :=
  govUp = false
  /\ derived k (deriveLocalGovData m ts (date_iso w)) = None
  /\ field k d' = field k d.

(** The state [fetchGov] leaves on the governance branch. *)
Definition merged (w : World) (log : list Request) (d : View.t) : View.t :=
  set_if (received DHealth w log) View.setHealth
    (set_if (received DForecast w log) View.setForecast
       (set_if (received DInsight w log) View.setInsight
          (set_if (received DAlerts w log) View.setAlerts
             (set_if (received DSocial w log) View.setSocial
                (set_if (received DEconomy w log) View.setEconomy
                   (set_if (received DEnv w log) View.setEnv
                      (set_if (received DWater w log) View.setWater
                         (set_if (received DClimate w log) View.setClimate
                            (set_if (received DState w log) View.setStateData d))))))))).

End Governance.

Module Samples.
Import Http.

(** An answer of the policy advisor. *)
Definition advice : PolicyResult.t :=
  {| PolicyResult.analysis := "## Carbon tax";
     PolicyResult.policy_used := [("carbon_tax", Js.Fin 0.5)];
     PolicyResult.baseline := [("composite_sdg_score", Js.Fin 45)];
     PolicyResult.projected := [("composite_sdg_score", Js.Fin 47)];
     PolicyResult.weather :=
       {| PolicyResult.available := false;
          PolicyResult.temperature_forecast_c := None;
          PolicyResult.precipitation_forecast_mm := None |};
     PolicyResult.delta := [("composite_sdg_score", Js.Fin 2)];
     PolicyResult.timestep := 12 |}.

(** Two steps of the simulation engine, as [/api/simulate] reports them. *)
Definition two_steps : SimulateResult.t :=
  {| SimulateResult.results :=
       Some [ {| SimMetrics.total_emissions := Some (Js.Fin 118);
                 SimMetrics.total_water_consumption := Some (Js.Fin 90);
                 SimMetrics.average_social_vulnerability := Some (Js.Fin 0.41);
                 SimMetrics.composite_sdg_score := Some (Js.Fin 46);
                 SimMetrics.timestep := Some (Js.Fin 4) |};
              Bounds.sample_metrics ];
     SimulateResult.current_timestep := Some (Js.Fin 7) |}.

(** A world in which the simulation service answers every simulate and
    policy-chat request with status 200, and nothing else is reachable; the
    clock reads [now]. *)
Definition simulating (now : Z) : World :=
  {| reply := fun s _ _ =>
       match s return Outcome (Body s) with
       | SSimulate => Responded {| status := 200; json := Parsed (Some two_steps) |}
       | SPolicy => Responded {| status := 200; json := Parsed advice |}
       | _ => NetworkFailure (ErrorObj "Failed to fetch")
       end;
     date_now := now;
     date_iso := "2024-01-01T00:00:00.000Z" |}.

(** A dashboard on which a policy was applied by hand when the clock read
    [t]. *)
Definition overridden (t : Z) : Dashboard.View.t :=
  Dashboard.View.setLastManualSimTime t Dashboard.View.initial.

(** A dashboard that shows one alert of the governance service. *)
Definition alerted : Dashboard.View.t :=
  Dashboard.View.setAlerts
    (Some {| AlertsResponse.alerts :=
               [{| Alert.id := 1; Alert.type := Alert.resource_threshold;
                   Alert.severity := Alert.high;
                   Alert.message := "Reservoir below 20%";
                   Alert.timestamp := "2024-01-01T00:00:00.000Z" |}] |})
    Dashboard.View.initial.


End Samples.

(* ------------------------------------------------------------------------- *)
(** ** CityHexMap.tsx: what the map computes from the nodes *)

Module CityHexMap.

(** [stressRGB(s)]. *)
Definition stressRGB (s : Js.num) : Js.num * Js.num * Js.num :=
  let c := Js.max 0 (Js.min 1 s) in
  if c <? 0.33 then
    let t := c / 0.33 in
    (Js.round (20 + t * 235), Js.round (200 - t * 30), Js.round (80 - t * 80))
  else if c <? 0.66 then
    let t := (c - 0.33) / 0.33 in
    (Js.Fin 255, Js.round (170 - t * 90), Js.Fin 0)
  else
    let t := (c - 0.66) / 0.34 in
    (Js.Fin 255, Js.round (80 - t * 80), Js.Fin 0).

(** [getWeight] of the heat map layer. *)
Definition getWeight (d : NodeData.t) : Js.num := Js.max 0.01 (NodeData.stress d).

(** [nodes.filter((n) => n.stress > 0.6)]. *)
Definition critNodes (nodes : list NodeData.t) : list NodeData.t :=
  filter (fun n => NodeData.stress n >? 0.6) nodes.

(** [getRadius] of the layer of critical zones.  The code rounds the product
    and the sum to binary64; the bounds proved of the radius are not strict,
    and hold with that rounding as without it. *)
Definition getRadius (d : NodeData.t) : Js.num := 60 + NodeData.stress d * 140.

End CityHexMap.

(* ------------------------------------------------------------------------- *)
(** ** SimulationDashboard.tsx: what the render computes from the state *)

Module Render.

Inductive Severity : Type := CRITICAL | HIGH_STRESS | MODERATE | HEALTHY.

(** The label of the tooltip of a node. *)
Definition severity (stress : Js.num) : Severity :=
  if stress >? 0.75 then CRITICAL
  else if stress >? 0.5 then HIGH_STRESS
  else if stress >? 0.25 then MODERATE
  else HEALTHY.

(** [Bar({ value, max = 100 })]: the width of the bar, in percent. *)
Definition Bar (value : Js.num) (max : option Js.num) : Js.num :=
  Js.min 100 (value / (max ?? 100) * 100).

(** [Math.min(...l)] and [Math.max(...l)]. *)
Definition min_of (l : list Js.num) : Js.num := fold_right Js.min Js.PInf l.
Definition max_of (l : list Js.num) : Js.num := fold_right Js.max Js.NInf l.

(** The heights, in pixels, of the bars of the reservoir chart. *)
Definition reservoir_bars (forecast : option ForecastResponse.t) : list Js.num :=
  map (fun v => v / 100 * 80)
    (option_map ForecastResponse.reservoir_projection forecast ?? []).

(** The heights, in pixels, of the bars of the CO2 chart.  The code rounds
    each difference, quotient, product and sum to binary64; the bounds proved
    of the heights are not strict and are stated for entries whose
    differences stay finite, so that they hold with that rounding as without
    it. *)
Definition emission_bars (forecast : option ForecastResponse.t) : list Js.num :=
  map (fun v =>
         let base := min_of (option_map ForecastResponse.emission_projection forecast ?? [v]) in
         let top := max_of (option_map ForecastResponse.emission_projection forecast ?? [v]) in
         (v - base) / (top - base + 1) * 72 + 8)
    (option_map ForecastResponse.emission_projection forecast ?? []).

(** The bar of the reservoir level and the three bars of the environment
    panel. *)
Definition reservoir_level_bar (water : option WaterResponse.t) : Js.num :=
  Bar (option_map WaterResponse.reservoir_level_percent water ?? 0) None.

Definition environment_bars (env : option EnvironmentResponse.t) : list Js.num :=
  [ Bar ((option_map EnvironmentResponse.co2_ppm env ?? 420) - 400) (Some (Js.Fin 80));
    Bar ((option_map EnvironmentResponse.emission_growth_rate env ?? 0) * 100)
      (Some (Js.Fin 10));
    Bar ((option_map EnvironmentResponse.carbon_stress_index env ?? 0) * 100) None ].

End Render.

(* ------------------------------------------------------------------------- *)
(** ** PolicyChat.tsx: the events of a conversation

    [send] awaits its answer, and the chat takes other events meanwhile.
    [send_begin] is what [send] does up to the [await], [send_finish] what it
    does from the answer on; both update the state that is current when they
    run, as the functional updates of the source do.  Every event sees the
    state the events before it left. *)

Module Conversation.
Import Http PolicyChat.

(** The state of [PolicyChat] when it is mounted, [key] being [GEMINI_KEY]. *)
Definition initial (key : string) : t :=
  {| open := false; input := ""; messages := []; loading := false;
     apiKey := key; showKeyInput := (key =? "")%string; appliedIndex := None |}.

(** The question [send] goes on with, if it does. *)
Definition accepted (question : option string) (c : t) : option string :=
  let q := trim (question ?? input c) in
  if (q =? "")%string || loading c then None else Some q.

(** [send] up to its [await]. *)
Definition send_begin (q : string) (c : t) : t :=
  let c := setInput "" c in
  let c := setMessages (fun prev => prev ++ [{| role := user; text := q; result := None |}])%list c in
  setLoading true c.

(** [send] from the answer on: the rest of the [try] block or the [catch]
    block, then the [finally] block. *)
Definition send_finish (out : Outcome PolicyResult.t) (c : t) : t :=
  let c := setMessages (fun prev => prev ++ [reply_message out])%list c in
  setLoading false c.

Inductive Event : Type :=
| Send (question : option string)
| Arrive (out : Outcome PolicyResult.t)
| Clear
| Type_ (v : string).

(** The chat, the requests that await their answer, and all requests that
    were issued. *)
Record Session : Type := mkSession {
  chat : t;
  pending : list Request;
  issued : list Request
}.

Definition start (key : string) : Session :=
  {| chat := initial key; pending := []; issued := [] |}.

Definition step (s : Session) (e : Event) : Session :=
  match e with
  | Send question =>
      match accepted question (chat s) with
      | Some q =>
          let r := chat_request q (apiKey (chat s)) in
          {| chat := send_begin q (chat s);
             pending := (pending s ++ [r])%list;
             issued := (issued s ++ [r])%list |}
      | None => s
      end
  | Arrive out =>
      match pending s with
      | _ :: rest =>
          {| chat := send_finish out (chat s); pending := rest; issued := issued s |}
      | [] => s
      end
  | Clear => {| chat := clear (chat s); pending := pending s; issued := issued s |}
  | Type_ v => {| chat := setInput v (chat s); pending := pending s; issued := issued s |}
  end.

Definition run (s : Session) (events : list Event) : Session :=
  fold_left step events s.

(** No two neighbours have the same role. *)
Fixpoint alternating (l : list Message) : Prop :=
  match l with
  | a :: (b :: _) as rest => role a <> role b /\ alternating rest
  | _ => True
  end.

(** What every session that starts with the component satisfies: the roles
    alternate; while the chat is not loading nothing awaits an answer and the
    last message, if any, is the advisor's; while it is loading exactly one
    request awaits its answer and the last message, if any, is the user's;
    and every request issued asks a question that is not empty. *)
Definition settled (s : Session) : Prop :=
  alternating (messages (chat s))
  /\ (loading (chat s) = false ->
      pending s = []
      /\ forall m d, last (messages (chat s)) d = m -> messages (chat s) <> [] ->
                     role m = assistant)
  /\ (loading (chat s) = true ->
      List.length (pending s) = 1%nat
      /\ forall m d, last (messages (chat s)) d = m -> messages (chat s) <> [] ->
                     role m = user)
  /\ Forall (fun r => exists q key, r = chat_request q key /\ q <> "") (issued s).

(** [l] is made of characters [test] accepts. *)
Inductive made_of (test : list ascii -> bool) : list ascii -> Prop :=
| made_nil : made_of test []
| made_app (e r : list ascii) :
    test e = true -> made_of test r -> made_of test (e ++ r)%list.

(** [s] is empty or consists of white space only. *)
Definition blank (s : string) : Prop :=
  made_of is_white_space (list_ascii_of_string s).

End Conversation.

(* ------------------------------------------------------------------------- *)
(** ** PolicyChat.tsx: the badge of one delta *)

Module DeltaBadge.

Inductive Color : Type := zinc | emerald | red.
Inductive Icon : Type := Minus | TrendingUp | TrendingDown.

(** [s.includes(sub)]. *)
Fixpoint includes (sub s : string) : bool :=
  Contract.starts_with sub s
  || match s with
     | String _ s' => includes sub s'
     | EmptyString => false
     end.

Definition positive (value : Js.num) : bool := value >? 0.
Definition zero (value : Js.num) : bool := Js.abs value <? 0.0001.
Definition isGoodMetric (label : string) : bool := includes "sdg" label.
Definition isGood (value : Js.num) (label : string) : bool :=
  if isGoodMetric label then positive value else negb (positive value).

Definition color (value : Js.num) (label : string) : Color :=
  if zero value then zinc else if isGood value label then emerald else red.

Definition icon (value : Js.num) : Icon :=
  if zero value then Minus else if positive value then TrendingUp else TrendingDown.

End DeltaBadge.

(* ------------------------------------------------------------------------- *)
(** ** Vocabulary of the further properties *)

Module Facts.
Import Dashboard.

(** The metrics with the sign of every field that is read reversed. *)
Definition flip (m : SimMetrics.t) : SimMetrics.t :=
  {| SimMetrics.total_emissions := option_map Js.neg (SimMetrics.total_emissions m);
     SimMetrics.total_water_consumption :=
       option_map Js.neg (SimMetrics.total_water_consumption m);
     SimMetrics.average_social_vulnerability :=
       option_map Js.neg (SimMetrics.average_social_vulnerability m);
     SimMetrics.composite_sdg_score := option_map Js.neg (SimMetrics.composite_sdg_score m);
     SimMetrics.timestep := SimMetrics.timestep m |}.

(** The magnitudes [deriveLocalGovData] works with. *)
Definition emissions_of (m : option SimMetrics.t) : Js.num :=
  Js.abs (Js.chain m SimMetrics.total_emissions ?? 120).

Definition vulnerability_of (m : option SimMetrics.t) : Js.num :=
  Js.abs (Js.chain m SimMetrics.average_social_vulnerability ?? 0.4).

Fixpoint non_decreasing (l : list Js.num) : bool :=
  match l with
  | a :: (b :: _) as rest => (a <=? b) && non_decreasing rest
  | _ => true
  end.

(** [lo <= x <= hi]. *)
Definition within (lo hi x : Js.num) : Prop :=
  (lo <=? x) = true /\ (x <=? hi) = true.

(** The ranges of the derived fields that have a floor or a ceiling in the
    source. *)
Definition ranged_output (g : Derived.t) : Prop :=
  (StateResponse.system_stability_score (Derived.state g) <=? 100) = true
  /\ (33 <=? ClimateResponse.temperature_current (Derived.climate g)) = true
  /\ (0 <=? ClimateResponse.temperature_anomaly (Derived.climate g)) = true
  /\ within 0 2 (ClimateResponse.precipitation_current (Derived.climate g))
  /\ (1 <=? ClimateResponse.climate_stress_factor (Derived.climate g)) = true
  /\ (0 <=? WaterResponse.daily_outflow (Derived.water g)) = true
  /\ (0 <=? WaterResponse.water_stress_index (Derived.water g)) = true
  /\ (WaterResponse.days_until_critical (Derived.water g) <=? 50) = true
  /\ (420 <=? EnvironmentResponse.co2_ppm (Derived.env g)) = true
  /\ (0 <=? EnvironmentResponse.emission_growth_rate (Derived.env g)) = true
  /\ (0 <=? EnvironmentResponse.carbon_stress_index (Derived.env g)) = true
  /\ within (-2) 4 (EconomyResponse.gdp_growth_rate (Derived.economy g))
  /\ within 0 0.8 (EconomyResponse.industry_profit_index (Derived.economy g))
  /\ (1 <=? EconomyResponse.energy_price_index (Derived.economy g)) = true
  /\ within 0 0.8 (EconomyResponse.economic_stability_score (Derived.economy g))
  /\ (0 <=? SocialResponse.inequality_index (Derived.social g)) = true
  /\ within (-1) 0.3 (SocialResponse.public_sentiment_score (Derived.social g))
  /\ (0 <=? SocialResponse.public_pressure_score (Derived.social g)) = true
  /\ (0 <=? ForecastResponse.risk_probability (Derived.forecast g)) = true.

(** The requests of the poll loop: the two status pings, the ten governance
    GETs of [fetchGov], and the GET of [fetchNodes]. *)
Definition pings : list Http.Request :=
  [ping_request Http.SIM_API "/"; ping_request Http.GOV_API "/api/meta/health"].

Definition governance_gets : list Http.Request :=
  map (fun k => Api.get_request Http.GOV_API (Governance.endpoint k)) Governance.all.

Definition nodes_get : Http.Request := Api.get_request Http.SIM_API "/api/nodes".

(** [now - lastManualSimTime < 15000], as [tick] tests it. *)
Definition suppressed (d : View.t) (w : Http.World) : bool :=
  (Http.date_now w - View.lastManualSimTime d <? 15000)%Z.

(** What the poll loop never writes: the selected tab, the tooltip and the
    time of the last manual step. *)
Definition ui_state (d : View.t) : Tab.t * option (Js.num * Js.num * NodeData.t) * Z :=
  (View.activeTab d, View.tooltip d, View.lastManualSimTime d).

(** A world in which the simulation service answers its ping and every
    simulate request, and the governance service does not answer; the clock
    reads [now]. *)
Definition governance_down (now : Z) : Http.World :=
  {| Http.reply := fun s _ r =>
       match s return Http.Outcome (Http.Body s) with
       | Http.SAny =>
           match Http.base r with
           | Http.SIM_API =>
               Http.Responded
                 {| Http.status := 200; Http.json := Http.Parsed (JObj []) |}
           | Http.GOV_API => Http.NetworkFailure (Http.ErrorObj "Failed to fetch")
           end
       | Http.SSimulate =>
           Http.Responded
             {| Http.status := 200; Http.json := Http.Parsed (Some Samples.two_steps) |}
       | _ => Http.NetworkFailure (Http.ErrorObj "Failed to fetch")
       end;
     Http.date_now := now;
     Http.date_iso := "2024-01-01T00:00:00.000Z" |}.

(** A node of stress 0.8. *)
Definition hot_node : NodeData.t :=
  {| NodeData.id := 0; NodeData.lat := 13.05; NodeData.lon := 80.25;
     NodeData.stress := 0.8; NodeData.emissions := 320; NodeData.vulnerability := 0.5 |}.

(** A number of magnitude at most 10^300: the difference of two such numbers
    is far from the largest binary64 number. *)
Definition huge : Js.num := Js.Fin (inject_Z (10 ^ 300)).

Definition moderate (v : Js.num) : Prop := within (Js.neg huge) huge v.


(** Identifier and position of a node. *)
Definition place (n : NodeData.t) : Js.num * Js.num * Js.num :=
  (NodeData.id n, NodeData.lat n, NodeData.lon n).

End Facts.

(* ------------------------------------------------------------------------- *)
(** * Properties *)

(** ** Arithmetic of finite numbers *)

(** Linear arithmetic over the rationals, divisions by a literal included. *)
Ltac qinv_consts :=
  unfold Qdiv in *;
  repeat match goal with
         | |- context [Qinv ?c] =>
             let v := eval vm_compute in (Qinv c) in change (Qinv c) with v
         | H : context [Qinv ?c] |- _ =>
             let v := eval vm_compute in (Qinv c) in change (Qinv c) with v in H
         end.

Ltac qlra := qinv_consts; lra.

(** Unfold a call of the client down to its helper. *)
Ltac unfold_call :=
  unfold Api.perform, Api.EtwinAPI.state, Api.EtwinAPI.climate, Api.EtwinAPI.water,
    Api.EtwinAPI.environment, Api.EtwinAPI.economy, Api.EtwinAPI.social, Api.EtwinAPI.alerts,
    Api.EtwinAPI.insight, Api.EtwinAPI.timeline, Api.EtwinAPI.forecast, Api.EtwinAPI.health,
    Api.EtwinAPI.updateDigitalTwin, Api.EtwinAPI.runEmergencySimulation, Api.EtwinAPI.nodes,
    Api.gov, Api.sim, Http.bind, Http.ret.

Section FiniteArithmetic.
Import Js.

Lemma add_Fin (a b : Q) : Fin a + Fin b = Fin (a + b).
Proof. reflexivity. Qed.

Lemma sub_Fin (a b : Q) : Fin a - Fin b = Fin (a - b).
Proof. reflexivity. Qed.

Lemma mul_Fin (a b : Q) : Fin a * Fin b = Fin (a * b).
Proof. reflexivity. Qed.

Lemma sgn_pos (b : Q) : 0 < b -> sgn b = Gt.
Proof.
  unfold sgn, Qlt. simpl. intros H. apply Z.compare_gt_iff. lia.
Qed.

Lemma div_Fin (a b : Q) : 0 < b -> Fin a / Fin b = Fin (a / b).
Proof. intros H. unfold div. now rewrite (sgn_pos H). Qed.

Lemma round_Fin (a : Q) : round (Fin a) = Fin (inject_Z (Qfloor (a + 0.5))).
Proof. reflexivity. Qed.

Lemma leb_Fin (a b : Q) : (Fin a <=? Fin b) = true <-> a <= b.
Proof. simpl. apply Qle_bool_iff. Qed.

Lemma leb_Fin_false (a b : Q) : (Fin a <=? Fin b) = false <-> b < a.
Proof.
  simpl. split; intros H.
  - apply Qnot_le_lt. intros C. apply Qle_bool_iff in C. congruence.
  - destruct (Qle_bool a b) eqn:E; [|reflexivity].
    apply Qle_bool_iff in E. exfalso. apply (Qlt_not_le _ _ H E).
Qed.

Lemma max_Fin (a b : Q) :
  exists c, max (Fin a) (Fin b) = Fin c /\ a <= c /\ b <= c /\ (c = a \/ c = b).
Proof.
  unfold max. destruct (Fin a <=? Fin b) eqn:E.
  - apply leb_Fin in E. exists b. repeat split; auto; lra.
  - apply leb_Fin_false in E. exists a. repeat split; auto; lra.
Qed.

Lemma min_Fin (a b : Q) :
  exists c, min (Fin a) (Fin b) = Fin c /\ c <= a /\ c <= b /\ (c = a \/ c = b).
Proof.
  unfold min. destruct (Fin a <=? Fin b) eqn:E.
  - apply leb_Fin in E. exists a. repeat split; auto; lra.
  - apply leb_Fin_false in E. exists b. repeat split; auto; lra.
Qed.

Lemma leb_max_l (a b : Q) : (Fin a <=? max (Fin a) (Fin b)) = true.
Proof.
  destruct (max_Fin a b) as (c & -> & Ha & _). now apply leb_Fin.
Qed.

Lemma max_leb (a b u : Q) :
  a <= u -> b <= u -> (max (Fin a) (Fin b) <=? Fin u) = true.
Proof.
  intros Ha Hb. destruct (max_Fin a b) as (c & -> & _ & _ & [-> | ->]);
    now apply leb_Fin.
Qed.

Lemma min_leb_l (a b : Q) : (min (Fin a) (Fin b) <=? Fin a) = true.
Proof.
  destruct (min_Fin a b) as (c & -> & Ha & _). now apply leb_Fin.
Qed.

Lemma gtb_negb_leb (a b : Q) : (Fin a >? Fin b) = negb (Fin a <=? Fin b).
Proof. reflexivity. Qed.

Lemma round_mono (a b : Q) :
  a <= b -> inject_Z (Qfloor (a + 0.5)) <= inject_Z (Qfloor (b + 0.5)).
Proof.
  intros H. rewrite <- Zle_Qle. apply Qfloor_resp_le. lra.
Qed.

(** The same operators when an operand is infinite. *)
Lemma mul_PInf (b : Q) : 0 < b -> PInf * Fin b = PInf.
Proof. intros H. unfold mul. now rewrite (sgn_pos H). Qed.

Lemma div_PInf (b : Q) : 0 < b -> PInf / Fin b = PInf.
Proof. intros H. unfold div. now rewrite (sgn_pos H). Qed.

Lemma add_Fin_PInf (a : Q) : Fin a + PInf = PInf.
Proof. reflexivity. Qed.

Lemma add_PInf_Fin (a : Q) : PInf + Fin a = PInf.
Proof. reflexivity. Qed.

Lemma sub_Fin_PInf (a : Q) : Fin a - PInf = NInf.
Proof. reflexivity. Qed.

Lemma sub_NInf_Fin (a : Q) : NInf - Fin a = NInf.
Proof. reflexivity. Qed.

Lemma max_Fin_NInf (a : Q) : max (Fin a) NInf = Fin a.
Proof. reflexivity. Qed.

Lemma min_Fin_PInf (a : Q) : min (Fin a) PInf = Fin a.
Proof. reflexivity. Qed.

End FiniteArithmetic.

Create Rewrite HintDb fin.
#[local] Hint Rewrite add_Fin sub_Fin mul_Fin round_Fin : fin.
#[local] Hint Rewrite div_Fin using reflexivity : fin.
#[local] Hint Rewrite add_Fin_PInf add_PInf_Fin sub_Fin_PInf sub_NInf_Fin
  max_Fin_NInf min_Fin_PInf : fin.
#[local] Hint Rewrite mul_PInf div_PInf using reflexivity : fin.

(** ** deriveLocalGovData *)

Section Derive.
Import Js Dashboard Bounds.

Lemma abs_magnitude (o : option num) (d : Q) :
  not_nan_field o = true -> magnitude (abs (o ?? Fin d)).
Proof.
  destruct o as [[| | |q]|]; simpl; try discriminate; intros _;
    try (left; reflexivity); right.
  - exists (Qabs q). split; [apply Qabs_nonneg | reflexivity].
  - exists (Qabs d). split; [apply Qabs_nonneg | reflexivity].
Qed.

Lemma abs_finite (o : option num) (d : Q) :
  finite_field o = true -> exists q, 0 <= q /\ abs (o ?? Fin d) = Fin q.
Proof.
  destruct o as [[| | |q]|]; simpl; try discriminate; intros _.
  - exists (Qabs q). split; [apply Qabs_nonneg | reflexivity].
  - exists (Qabs d). split; [apply Qabs_nonneg | reflexivity].
Qed.

Lemma admissible_fields (m : option SimMetrics.t) :
  admissible m = true ->
  not_nan_field (chain m SimMetrics.total_emissions) = true
  /\ finite_field (chain m SimMetrics.total_water_consumption) = true
  /\ not_nan_field (chain m SimMetrics.average_social_vulnerability) = true.
Proof.
  destruct m as [m|]; simpl; [|tauto].
  rewrite !andb_true_iff. tauto.
Qed.

(** The entries of the reservoir projection never increase. *)
Lemma non_increasing_array_from (f : Z -> num) (n : nat) (i : Z) :
  (forall j, (f (j + 1)%Z <=? f j) = true) ->
  non_increasing (array_from n i f) = true.
Proof.
  intros Hf. revert i. induction n as [|n IH]; intros i; [reflexivity|].
  simpl. destruct n as [|n]; [reflexivity|].
  simpl in *. rewrite Hf. simpl. apply (IH (i + 1)%Z).
Qed.

Lemma Forall_array_from {A : Type} (P : A -> Prop) (f : Z -> A) (n : nat) (i : Z) :
  (forall j, P (f j)) -> Forall P (array_from n i f).
Proof.
  intros Hf. revert i. induction n; intros i; simpl; constructor; auto.
Qed.

Lemma length_array_from {A : Type} (f : Z -> A) (n : nat) (i : Z) :
  List.length (array_from n i f) = n.
Proof. revert i. induction n; intros i; simpl; auto. Qed.

(** One step of the reservoir projection: a later entry is no larger. *)
Lemma projection_step (b c : Q) (j : Z) :
  0 <= c ->
  (max 10 (round (Fin b - of_Z (j + 1) * Fin c))
   <=? max 10 (round (Fin b - of_Z j * Fin c))) = true.
Proof.
  intros Hc. unfold of_Z. autorewrite with fin.
  assert (H : inject_Z (Qfloor (b - inject_Z (j + 1) * c + 0.5))
              <= inject_Z (Qfloor (b - inject_Z j * c + 0.5))).
  { apply round_mono. rewrite inject_Z_plus. change (inject_Z 1) with 1%Q. nra. }
  destruct (max_Fin 10 (inject_Z (Qfloor (b - inject_Z j * c + 0.5))))
    as (hi & -> & Hhi10 & Hhi & _).
  apply max_leb; lra.
Qed.

(** The bounds that depend on the emissions and on the vulnerability. *)
Lemma social_bounds (e v : num) :
  magnitude e -> magnitude v ->
  (0 <=? max 0 (100 - v * 60 - (e / 5))) = true
  /\ (min 0.15 (e / 2000) <=? 0.15) = true
  /\ (min 1 (e / 300) <=? 1) = true
  /\ (min 1 (v * 1.5) <=? 1) = true
  /\ (0.2 <=? max 0.2 (0.8 - v * 0.4)) = true
  /\ (max 0.2 (0.8 - v * 0.4) <=? 0.8) = true
  /\ (min 0.95 (v * 0.8 + e / 600) <=? 0.95) = true.
Proof.
  intros [-> | (e' & He & ->)] [-> | (v' & Hv & ->)]; autorewrite with fin;
    repeat match goal with |- _ /\ _ => split end;
    try reflexivity; try apply leb_max_l; try apply min_leb_l;
    apply max_leb; qlra.
Qed.

(** The bounds that depend on the water consumption. *)
Lemma water_bounds (w : Q) :
  0 <= w ->
  (10 <=? max 10 (80 - Fin w / 50)) = true
  /\ (max 10 (80 - Fin w / 50) <=? 80) = true
  /\ (min 1 (Fin w / 200) <=? 1) = true
  /\ (1 <=? max 1 (round (50 - Fin w / 10))) = true
  /\ non_increasing
       (array_from 7 0 (fun i =>
          max 10 (round (max 10 (80 - Fin w / 50) - of_Z i * (Fin w / 500))))) = true
  /\ Forall (fun x => (10 <=? x) = true)
       (array_from 7 0 (fun i =>
          max 10 (round (max 10 (80 - Fin w / 50) - of_Z i * (Fin w / 500))))).
Proof.
  intros Hw. autorewrite with fin.
  repeat match goal with |- _ /\ _ => split end;
    try apply leb_max_l; try apply min_leb_l.
  - apply max_leb; qlra.
  - apply non_increasing_array_from. intros j.
    destruct (max_Fin 10 (80 - w / 50)) as (b & -> & _).
    apply projection_step. qlra.
  - apply Forall_array_from. intros j.
    destruct (max_Fin 10 (80 - w / 50)) as (b & -> & _).
    unfold of_Z. autorewrite with fin. apply leb_max_l.
Qed.

(** The status follows the thresholds. *)
Lemma status_thresholds (w : Q) :
  let status :=
    if Fin w >? 100 then WaterResponse.critical
    else if Fin w >? 60 then WaterResponse.warning
    else WaterResponse.normal in
  (status = WaterResponse.critical <-> (Fin w >? 100) = true)
  /\ (status = WaterResponse.warning
      <-> (Fin w >? 60) = true /\ (Fin w <=? 100) = true).
Proof.
  cbv zeta. split.
  - destruct (Fin w >? Fin 100), (Fin w >? Fin 60); split; congruence.
  - rewrite !gtb_negb_leb.
    destruct (Fin w <=? Fin 100) eqn:E1, (Fin w <=? Fin 60) eqn:E2; simpl;
      try (split; [congruence | intros [? ?]; congruence]).
    split; auto.
Qed.

(** C8, amended.  Whenever the metrics are [null], or
    [total_water_consumption] is absent or a finite number and neither
    [total_emissions] nor [average_social_vulnerability] is NaN, and for
    every timestep, [deriveLocalGovData] returns bounded, consistent values:
    [system_stability_score >= 0], [reservoir_level_percent] in [[10, 80]],
    [water_stress_index <= 1], [days_until_critical >= 1],
    [emission_growth_rate <= 0.15], [carbon_stress_index <= 1],
    [public_pressure_score <= 1], [governance_confidence] in [[0.2, 0.8]],
    [risk_probability <= 0.95]; the water status is critical iff the
    consumption (the magnitude of [total_water_consumption], 85 when absent)
    exceeds 100, and warning iff it lies in (60, 100]; both projections have
    exactly 7 entries, and the reservoir projection never increases and stays
    at or above 10. *)
Theorem deriveLocalGovData_bounded (m : option SimMetrics.t) (ts : num) (iso : string) :
  admissible m = true ->
  bounded_output (consumption m) (deriveLocalGovData m ts iso).
Proof.
  intros Hm. apply admissible_fields in Hm. destruct Hm as (He & Hw & Hv).
  pose proof (abs_magnitude _ 120 He) as Me.
  pose proof (abs_magnitude _ 0.4 Hv) as Mv.
  destruct (abs_finite _ 85 Hw) as (w & Hw0 & Ew).
  destruct (social_bounds Me Mv) as (S1 & S2 & S3 & S4 & S5 & S6 & S7).
  destruct (water_bounds Hw0) as (W1 & W2 & W3 & W4 & W5 & W6).
  destruct (status_thresholds w) as (T1 & T2).
  unfold bounded_output, consumption, deriveLocalGovData.
  cbv zeta. cbn [Derived.state Derived.water Derived.env Derived.social Derived.forecast
    StateResponse.system_stability_score WaterResponse.reservoir_level_percent
    WaterResponse.water_stress_index WaterResponse.days_until_critical
    EnvironmentResponse.emission_growth_rate EnvironmentResponse.carbon_stress_index
    SocialResponse.public_pressure_score SocialResponse.governance_confidence
    ForecastResponse.risk_probability WaterResponse.status
    ForecastResponse.reservoir_projection ForecastResponse.emission_projection].
  rewrite Ew, !length_array_from.
  repeat match goal with |- _ /\ _ => split end; try assumption; reflexivity.
Qed.

Lemma deriveLocalGovData_bounded_witness :
  admissible (Some sample_metrics) = true
  /\ bounded_output (consumption (Some sample_metrics))
       (deriveLocalGovData (Some sample_metrics) 7 "2024-01-01T00:00:00.000Z").
Proof.
  split; [reflexivity|].
  apply (@deriveLocalGovData_bounded (Some sample_metrics) 7
           "2024-01-01T00:00:00.000Z").
  reflexivity.
Defined.


(** C8 as stated fails: with an infinite water consumption the first entry of
    the reservoir projection is [0 * Infinity], that is NaN, which is not at
    or above 10. *)
Lemma deriveLocalGovData_unbounded_projection :
  ForecastResponse.reservoir_projection
    (Derived.forecast (deriveLocalGovData (Some flooded_metrics) 0 "")) =
    [NaN; Fin 10; Fin 10; Fin 10; Fin 10; Fin 10; Fin 10]
  /\ ~ bounded_output (consumption (Some flooded_metrics))
        (deriveLocalGovData (Some flooded_metrics) 0 "").
Proof.
  split.
  - vm_compute. reflexivity.
  - unfold bounded_output. intros H.
    repeat match type of H with _ /\ _ => destruct H as (_ & H) end.
    apply Forall_inv in H. vm_compute in H. discriminate H.
Qed.

End Derive.

(** ** The generator and the synthetic nodes *)

Section Synthetic.
Import Js Dashboard Bounds.

Lemma toInt32_small (k : Z) :
  (0 <= k < 2 ^ 28)%Z -> toInt32 (of_Z k) = k.
Proof.
  intros Hk. unfold toInt32, of_Z, inject_Z. cbn [Qnum Qden].
  rewrite Z.quot_1_r, Z.mod_small by lia.
  destruct (2 ^ 31 <=? k)%Z eqn:E; [apply Z.leb_le in E; lia | reflexivity].
Qed.

(** Every draw is a finite number between 0 and 1, whatever the state. *)
Lemma rand_unit (s : num) :
  exists (k : Z) (q : Q), rand s = (of_Z k, Fin q) /\ 0 <= q <= 1.
Proof.
  unfold rand, bitand.
  set (x := toInt32 (s * 1664525 + 1013904223)).
  rewrite (toInt32_small (k := 0xfffffff)) by lia.
  change 0xfffffff%Z with (Z.ones 28). rewrite Z.land_ones by lia.
  assert (Hk : (0 <= x mod 2 ^ 28 < 2 ^ 28)%Z) by (apply Z.mod_pos_bound; lia).
  set (k := (x mod 2 ^ 28)%Z) in *.
  exists k, (inject_Z k / inject_Z (Z.ones 28))%Q. split.
  - unfold ushr0. rewrite toInt32_small by exact Hk.
    rewrite Z.mod_small by lia. unfold of_Z.
    now rewrite div_Fin by reflexivity.
  - assert (H0 : inject_Z 0 <= inject_Z k) by (rewrite <- Zle_Qle; lia).
    assert (H1 : inject_Z k <= inject_Z (Z.ones 28)).
    { rewrite <- Zle_Qle. change (Z.ones 28) with (2 ^ 28 - 1)%Z. lia. }
    change (inject_Z 0) with 0%Q in H0.
    change (inject_Z (Z.ones 28)) with 268435455%Q in *.
    split; qlra.
Qed.

(** The stress of a node, from two draws and a stress factor that is not
    negative (it may be infinite). *)
Lemma stress_clamped (sf : num) (q3 q4 : Q) :
  (0 <=? sf) = true -> 0 <= q3 <= 1 -> 0 <= q4 <= 1 ->
  exists c, min 1 ((Fin q3 * 0.5) + sf * 0.5 + Fin q4 * 0.15) = Fin c /\ 0 <= c <= 1.
Proof.
  intros Hsf H3 H4. destruct sf as [| | |f]; try discriminate.
  - exists 1. split; [reflexivity | lra].
  - apply leb_Fin in Hsf. autorewrite with fin.
    destruct (min_Fin 1 (q3 * 0.5 + f * 0.5 + q4 * 0.15)) as (c & -> & Hc1 & Hc2 & [-> | ->]);
      eexists; (split; [reflexivity | lra]).
Qed.

(** One node: its id and its place hold for every stress factor, the bounds
    on its stress for one that is not negative. *)
Lemma synthetic_node_spec (sf : num) (id : Z) (s : num) :
  NodeData.id (fst (synthetic_node sf id s)) = of_Z id
  /\ node_placed (fst (synthetic_node sf id s))
  /\ ((0 <=? sf) = true -> stress_in_unit (fst (synthetic_node sf id s))).
Proof.
  unfold synthetic_node.
  destruct (rand_unit s) as (k1 & q1 & -> & H1).
  destruct (rand_unit (of_Z k1)) as (k2 & q2 & -> & H2).
  destruct (rand_unit (of_Z k2)) as (k3 & q3 & -> & H3).
  destruct (rand_unit (of_Z k3)) as (k4 & q4 & -> & H4).
  unfold node_placed, stress_in_unit.
  cbn [fst NodeData.lat NodeData.lon NodeData.stress NodeData.emissions NodeData.id].
  split; [reflexivity|]. split.
  - unfold CL, CO, R. autorewrite with fin.
    repeat split; apply leb_Fin; lra.
  - intros Hsf. destruct (stress_clamped sf Hsf H3 H4) as (c & -> & Hc).
    split; apply leb_Fin; lra.
Qed.

Lemma synthetic_nodes_spec (sf : num) (n : nat) (id : Z) (s : num) :
  List.length (synthetic_nodes n sf id s) = n
  /\ map NodeData.id (synthetic_nodes n sf id s) = array_from n id of_Z
  /\ Forall node_placed (synthetic_nodes n sf id s)
  /\ ((0 <=? sf) = true -> Forall stress_in_unit (synthetic_nodes n sf id s)).
Proof.
  revert id s. induction n as [|n IH]; intros id s;
    cbn [synthetic_nodes array_from].
  - repeat split; constructor.
  - destruct (synthetic_node_spec sf id s) as (Hid & Hplace & Hstress).
    destruct (synthetic_node sf id s) as (node, s') eqn:E.
    cbn [fst List.length map] in *.
    destruct (IH (id + 1)%Z s') as (Hlen & Hids & Hplaces & Hstresses).
    repeat split.
    + now rewrite Hlen.
    + now rewrite Hid, Hids.
    + now constructor.
    + intros Hsf. constructor; auto.
Qed.

(** C9, amended.  [generateSyntheticNodes] is deterministic and bounded: for
    every stress factor and seed, two calls with equal arguments return
    identical lists, and every returned list has exactly 200 nodes whose ids
    are 0..199, whose latitude lies in [[13.0827 - 0.18, 13.0827 + 0.18]],
    whose longitude lies in [[80.2707 - 0.18, 80.2707 + 0.18]] and whose
    emissions equal stress * 400; when the stress factor is not negative,
    the stress of every node lies in [[0, 1]]. *)
Theorem generateSyntheticNodes_spec (stressFactor : num) (seed : option num) :
  (forall stressFactor' seed',
      stressFactor' = stressFactor -> seed' = seed ->
      generateSyntheticNodes stressFactor' seed' = generateSyntheticNodes stressFactor seed)
  /\ List.length (generateSyntheticNodes stressFactor seed) = 200%nat
  /\ map NodeData.id (generateSyntheticNodes stressFactor seed) = array_from 200 0 of_Z
  /\ Forall node_placed (generateSyntheticNodes stressFactor seed)
  /\ ((0 <=? stressFactor) = true ->
      Forall stress_in_unit (generateSyntheticNodes stressFactor seed)).
Proof.
  split.
  - intros sf' seed' -> ->. reflexivity.
  - apply synthetic_nodes_spec.
Qed.

Lemma generateSyntheticNodes_spec_witness :
  List.length (generateSyntheticNodes 0.5 None) = 200%nat
  /\ Forall node_in_bounds (generateSyntheticNodes 0.5 None).
Proof.
  destruct (generateSyntheticNodes_spec 0.5 None) as (_ & Hlen & _ & Hplaced & Hstress).
  split; [assumption|].
  specialize (Hstress eq_refl).
  apply Forall_forall. intros n Hn. split.
  - exact (proj1 (Forall_forall _ _) Hplaced n Hn).
  - exact (proj1 (Forall_forall _ _) Hstress n Hn).
Defined.

(** C9 as stated fails: with the stress factor -2 (and the default seed) the
    stress of the first node is negative. *)
Lemma generateSyntheticNodes_negative_stress :
  ~ Forall node_in_bounds (generateSyntheticNodes (-2) None).
Proof.
  intros H. apply Forall_inv in H.
  destruct H as (_ & H & _).
  vm_compute in H. discriminate H.
Qed.

End Synthetic.

(** ** The HTTP client *)

Section Client.
Import Http Api Contract.

(** What the helpers compute, and what they add to the log. *)
Lemma get_run (s : Shape) (b : Base) (p : string) (w : World) (log : list Request) :
  get s b p w log =
    (json_or_null (reply w s (List.length log) (get_request b p)),
     (log ++ [get_request b p])%list).
Proof.
  unfold get, bind, fetch, ret, json_or_null.
  destruct (reply w s (List.length log) (get_request b p)) as [e|e|res]; try reflexivity.
  destruct (ok res); simpl; [destruct (json res)|]; reflexivity.
Qed.

Lemma govPost_run (p : string) (b : option Json) (w : World) (log : list Request) :
  govPost p b w log =
    (json_or_null (reply w SAny (List.length log) (govPost_request p b)),
     (log ++ [govPost_request p b])%list).
Proof. reflexivity. Qed.

Lemma simulate_run (steps : Js.num) (policy : option Policy) (w : World)
    (log : list Request) :
  EtwinAPI.simulate steps policy w log =
    (json_or_null
       (reply w SSimulate (List.length log) (EtwinAPI.simulate_request steps policy)),
     (log ++ [EtwinAPI.simulate_request steps policy])%list).
Proof. reflexivity. Qed.

Lemma reset_run (w : World) (log : list Request) :
  EtwinAPI.reset w log =
    (match reply w SAny (List.length log) EtwinAPI.reset_request with
     | Responded res => Some res
     | NetworkFailure _ | TimedOut _ => None
     end,
     (log ++ [EtwinAPI.reset_request])%list).
Proof.
  unfold EtwinAPI.reset, bind, fetch, ret.
  destruct (reply w SAny (List.length log) EtwinAPI.reset_request); reflexivity.
Qed.

Lemma json_or_null_failed {s : Shape} (out : Outcome (Body s)) :
  failed out = true -> json_or_null out = None.
Proof.
  destruct out as [e|e|res]; simpl; try reflexivity.
  destruct (ok res); simpl; [discriminate | reflexivity].
Qed.

Lemma perform_run (c : Call) (w : World) (log : list Request) :
  snd (perform c w log) = (log ++ [request_of c])%list
  /\ (c <> CReset ->
      fst (perform c w log) =
        resolved (json_or_null (reply w (shape_of c) (List.length log) (request_of c)))).
Proof.
  destruct c; unfold_call;
    rewrite ?get_run, ?govPost_run, ?simulate_run, ?reset_run; (split; [reflexivity | intros H; try reflexivity]).
  now elim H.
Qed.


Lemma perform_requests (c : Call) (w : World) :
  requests (perform c) w = [request_of c].
Proof. unfold requests. now rewrite (proj1 (perform_run c w [])). Qed.

(** C2, amended.  For every operation of the client other than [reset] (all
    governance GETs, the node list GET, the governance POSTs and the simulate
    POST), a network failure, a timeout or a non-2xx status makes the
    operation resolve to [null]; no operation throws.  [reset] resolves to
    [null] on a network failure or a timeout, and to the [Response] object
    itself whenever the server answers, whatever the status. *)
Theorem client_null_on_failure (c : Call) (w : World) (r : Request) :
  requests (perform c) w = [r] ->
  (c <> CReset ->
   failed (reply w (shape_of c) 0 r) = true -> result (perform c) w = Null)
  /\ (c = CReset ->
      result EtwinAPI.reset w =
        match reply w SAny 0 r with
        | Responded res => Some res
        | NetworkFailure _ | TimedOut _ => None
        end
      /\ result (perform c) w = resolved (result EtwinAPI.reset w)).
Proof.
  rewrite perform_requests. intros [= <-]. split.
  - intros Hc Hfail. unfold result.
    rewrite (proj2 (perform_run c w []) Hc).
    change (List.length (@nil Request)) with 0%nat.
    now rewrite (json_or_null_failed _ Hfail).
  - intros ->. unfold result. split.
    + now rewrite reset_run.
    + unfold perform, bind, ret. now destruct (EtwinAPI.reset w []).
Qed.

Lemma client_null_on_failure_witness :
  result (perform (CSimulate 1 None)) (answering 503) = Null.
Proof.
  refine (proj1 (@client_null_on_failure (CSimulate 1 None) (answering 503)
                   (EtwinAPI.simulate_request 1 None) eq_refl) _ eq_refl).
  discriminate.
Defined.

(** C2 as stated fails for [reset]: answered with status 500, it resolves to
    the [Response], not to [null]. *)
Lemma reset_resolves_on_server_error :
  requests (perform CReset) (answering 500) = [EtwinAPI.reset_request]
  /\ failed (reply (answering 500) (shape_of CReset) 0 EtwinAPI.reset_request) = true
  /\ result EtwinAPI.reset (answering 500) =
       Some {| status := 500;
               json := Unparsable (ErrorObj "Unexpected end of JSON input") |}
  /\ result (perform CReset) (answering 500) <> Null.
Proof.
  repeat split. discriminate.
Qed.

(** C5, amended.  Every request issued through [get] carries a timeout of
    5000 ms, every request issued through [govPost] one of 10000 ms, and the
    simulate POST one of 8000 ms; each call of the client issues exactly one
    request, with the timeout of [client_timeout]: [reset] alone is issued
    without an abort timeout. *)
Theorem client_timeouts :
  (forall s b p w log,
      snd (get s b p w log) = (log ++ [get_request b p])%list
      /\ timeout (get_request b p) = Some 5000%Z)
  /\ (forall p b w log,
      snd (govPost p b w log) = (log ++ [govPost_request p b])%list
      /\ timeout (govPost_request p b) = Some 10000%Z)
  /\ (forall steps policy w log,
      snd (EtwinAPI.simulate steps policy w log) =
        (log ++ [EtwinAPI.simulate_request steps policy])%list
      /\ timeout (EtwinAPI.simulate_request steps policy) = Some 8000%Z)
  /\ (forall c w,
      exists r, requests (perform c) w = [r] /\ timeout r = client_timeout c).
Proof.
  split; [|split; [|split]].
  - intros s b p w log. now rewrite get_run.
  - intros p b w log. split; reflexivity.
  - intros steps policy w log. split; reflexivity.
  - intros c w. exists (request_of c). split; [apply perform_requests|].
    destruct c; reflexivity.
Qed.

(** C5 as stated fails: the request of [reset] has no abort timeout. *)
Lemma reset_has_no_timeout :
  requests (perform CReset) offline = [EtwinAPI.reset_request]
  /\ timeout EtwinAPI.reset_request = None.
Proof. split; reflexivity. Qed.

End Client.

(** ** The policy chat *)

Section Chat.
Import Http PolicyChat.

(** A guarded [send] changes nothing; an accepted one issues one request and
    appends two messages. *)
Lemma send_run (question : option string) (c : t) (w : World) (log : list Request) :
  let q := trim (question ?? input c) in
  send question c w log =
    if (q =? "")%string || loading c then (c, log)
    else
      let r := chat_request q (apiKey c) in
      let out := reply w SPolicy (List.length log) r in
      ({| open := open c; input := ""; 
          messages := (messages c
                       ++ [{| role := user; text := q; result := None |}]
                       ++ [reply_message out])%list;
          loading := false; apiKey := apiKey c; showKeyInput := showKeyInput c;
          appliedIndex := appliedIndex c |},
       (log ++ [r])%list).
Proof.
  intros q. unfold send. fold q.
  destruct ((q =? "")%string || loading c); [reflexivity|].
  unfold bind, fetch, ret, setLoading, setMessages, setInput. simpl.
  now rewrite <- app_assoc.
Qed.





End Chat.

Section Operations.
Import Http Api Contract.

(** C7, amended.  Each call of the client issues exactly one request, with the
    method, base and path of [target]: GET requests for state, climate, water,
    environment, economy, social, alerts, insight, timeline (default limit
    20), forecast, health and the node list, and POST requests for
    simulation stepping ([/api/simulate] with body [{steps, policy}]),
    emergency simulation ([/run-emergency-simulation]), digital-twin signal
    updates ([/update-digital-twin]) and, beyond the enumeration, reset
    ([/api/reset]); policy-chat queries are POSTed to [/api/policy-chat] by
    the chat component.  No other method or path is used. *)
Theorem client_operations :
  (forall c w,
      exists r, requests (perform c) w = [r]
                /\ (method r, base r, path r) = target c
                /\ (claimed_operation (method r) (path r) = true \/ c = CReset))
  /\ (forall w,
      exists r, requests (perform (CTimeline None)) w = [r]
                /\ path r = "/api/timeline?limit=20")
  /\ (forall steps policy,
      body (EtwinAPI.simulate_request steps policy) =
        Some (JObj (("steps", JNum steps) ::
                    match policy with
                    | Some p => [("policy", json_of_policy p)]
                    | None => []
                    end)))
  /\ (forall question c w,
      requests (PolicyChat.send question c) w = []
      \/ exists r, requests (PolicyChat.send question c) w = [r]
                   /\ (method r, base r, path r) = (POST, SIM_API, "/api/policy-chat")
                   /\ claimed_operation (method r) (path r) = true).
Proof.
  split; [|split; [|split]].
  - intros c w. exists (request_of c). split; [apply perform_requests|].
    split; [destruct c; reflexivity|].
    destruct c; try (left; reflexivity); right; reflexivity.
  - intros w. eexists. split; [apply perform_requests | reflexivity].
  - reflexivity.
  - intros question c w. unfold requests. rewrite send_run. cbv zeta.
    destruct (_ || _); [left; reflexivity|].
    right. eexists. split; [reflexivity|]. split; reflexivity.
Qed.

(** C7 as stated fails: [reset] is an operation of the client, and its path
    is none of those enumerated. *)
Lemma reset_not_enumerated :
  requests (perform CReset) offline = [EtwinAPI.reset_request]
  /\ method EtwinAPI.reset_request = POST
  /\ path EtwinAPI.reset_request = "/api/reset"
  /\ claimed_operation (method EtwinAPI.reset_request) (path EtwinAPI.reset_request)
     = false.
Proof. repeat split. Qed.

End Operations.

(** ** The dashboard *)

Section Polling.
Import Http Dashboard Governance.

(** *** stepSim *)

Lemma stepSim_run (policy : option Policy) (d : View.t) (w : World) (log : list Request) :
  stepSim policy d w log =
    (let answer : option SimulateResult.t :=
       Api.json_or_null
         (reply w SSimulate (List.length log) (Api.EtwinAPI.simulate_request 1 policy)) in
     match Js.chain answer SimulateResult.results with
     | Some (r0 :: rest) =>
         let m := List.last (r0 :: rest) r0 in
         let ts := Js.chain answer SimulateResult.current_timestep ?? 0 in
         (Some (m, ts),
          View.setSimLoading false
            (View.setTimestep ts
               (View.setLastSimMetrics (Some m) (View.setSimLoading true d))))
     | Some [] | None => (None, View.setSimLoading false (View.setSimLoading true d))
     end,
     (log ++ [Api.EtwinAPI.simulate_request 1 policy])%list).
Proof.
  unfold stepSim, bind, ret. rewrite simulate_run. cbv zeta.
  change (El SSimulate) with SimulateResult.t.
  destruct (Js.chain _ SimulateResult.results) as [[|r0 rest]|]; reflexivity.
Qed.

(** *** fetchGov *)

Lemma field_set_if_other {A B : Type} (proj : View.t -> B)
    (set : option A -> View.t -> View.t) (x : option A) (d : View.t) :
  (forall v d', proj (set v d') = proj d') -> proj (set_if x set d) = proj d.
Proof. intros H. destruct x; simpl; auto. Qed.

Lemma field_set_if_same {A : Type} (proj : View.t -> option A)
    (set : option A -> View.t -> View.t) (x : option A) (d : View.t) :
  (forall v d', proj (set v d') = v) ->
  proj (set_if x set d) = match x with Some v => Some v | None => proj d end.
Proof. intros H. destruct x; simpl; auto. Qed.

Lemma fetchGov_online (m : option SimMetrics.t) (ts : Js.num) (d : View.t)
    (w : World) (log : list Request) :
  fetchGov m ts true d w log =
    (merged w log d,
     (log ++ map (fun k => Api.get_request GOV_API (endpoint k)) all)%list).
Proof.
  unfold fetchGov, Api.EtwinAPI.state, Api.EtwinAPI.climate, Api.EtwinAPI.water,
    Api.EtwinAPI.environment, Api.EtwinAPI.economy, Api.EtwinAPI.social,
    Api.EtwinAPI.alerts, Api.EtwinAPI.insight, Api.EtwinAPI.forecast,
    Api.EtwinAPI.health, Api.gov, bind, ret.
  rewrite !get_run. rewrite <- !app_assoc. cbn [app].
  rewrite !length_app. cbn [List.length].
  unfold merged, received. cbn [position shape endpoint all map].
  rewrite Nat.add_0_r. reflexivity.
Qed.

Lemma fetchGov_offline (m : option SimMetrics.t) (ts : Js.num) (d : View.t)
    (w : World) (log : list Request) :
  fetchGov m ts false d w log =
    (let g := deriveLocalGovData m ts (date_iso w) in
     View.setForecast (Some (Derived.forecast g))
       (View.setSocial (Some (Derived.social g))
          (View.setEconomy (Some (Derived.economy g))
             (View.setEnv (Some (Derived.env g))
                (View.setWater (Some (Derived.water g))
                   (View.setClimate (Some (Derived.climate g))
                      (View.setStateData (Some (Derived.state g)) d)))))),
     log).
Proof. reflexivity. Qed.


(** C10.  [stepSim] is atomic on failure: whenever the simulate call resolves
    to [null] or answers with a missing or empty [results] array, [stepSim]
    returns [null] and leaves [lastSimMetrics] and [timestep] unchanged; when
    [results] is not empty it sets [lastSimMetrics] to its last element and
    [timestep] to [current_timestep], or to 0 when that is absent, and
    returns both. *)
Theorem stepSim_atomic (policy : option Policy) (d : View.t) (w : World)
    (log : list Request) :
  let answer : option SimulateResult.t :=
    Api.json_or_null
      (reply w SSimulate (List.length log) (Api.EtwinAPI.simulate_request 1 policy)) in
  let r := fst (fst (stepSim policy d w log)) in
  let d' := snd (fst (stepSim policy d w log)) in
  (Js.chain answer SimulateResult.results = None
   \/ Js.chain answer SimulateResult.results = Some [] ->
   r = None
   /\ View.lastSimMetrics d' = View.lastSimMetrics d
   /\ View.timestep d' = View.timestep d)
  /\ (forall r0 rest,
      Js.chain answer SimulateResult.results = Some (r0 :: rest) ->
      let m := List.last (r0 :: rest) r0 in
      let ts := Js.chain answer SimulateResult.current_timestep ?? 0 in
      r = Some (m, ts)
      /\ View.lastSimMetrics d' = Some m
      /\ View.timestep d' = ts).
Proof.
  cbv zeta. rewrite stepSim_run. cbv zeta. cbn [fst snd]. split.
  - intros [-> | ->]; repeat split.
  - intros r0 rest ->. repeat split.
Qed.

Lemma stepSim_atomic_witness :
  fst (fst (stepSim None View.initial Contract.offline [])) = None
  /\ View.timestep (snd (fst (stepSim None View.initial Contract.offline []))) = 0
  /\ fst (fst (stepSim None View.initial (Samples.simulating 0) [])) =
       Some (Bounds.sample_metrics, Js.Fin 7)
  /\ View.lastSimMetrics (snd (fst (stepSim None View.initial (Samples.simulating 0) []))) =
       Some Bounds.sample_metrics.
Proof.
  destruct (stepSim_atomic None View.initial Contract.offline []) as [Hfail _].
  destruct (stepSim_atomic None View.initial (Samples.simulating 0) []) as [_ Hok].
  destruct Hfail as (H1 & _ & H2); [left; reflexivity|].
  destruct (Hok _ _ eq_refl) as (H3 & H4 & _).
  repeat split; assumption.
Defined.

(** The two branches of one call of [fetchGov]: without [govUp] it sets
    state, climate, water, environment, economy, social and forecast to the
    objects [deriveLocalGovData] computes from the metrics and the timestep
    it is given, leaves alerts, insight and health untouched, and issues no
    request; with [govUp] it fetches the ten governance endpoints. *)
Lemma fetchGov_branches (m : option SimMetrics.t) (ts : Js.num) (d : View.t)
    (w : World) (log : list Request) :
  let g := deriveLocalGovData m ts (date_iso w) in
  let d' := fst (fetchGov m ts false d w log) in
  (View.stateData d' = Some (Derived.state g)
   /\ View.climate d' = Some (Derived.climate g)
   /\ View.water d' = Some (Derived.water g)
   /\ View.env d' = Some (Derived.env g)
   /\ View.economy d' = Some (Derived.economy g)
   /\ View.social d' = Some (Derived.social g)
   /\ View.forecast d' = Some (Derived.forecast g))
  /\ (View.alerts d' = View.alerts d
      /\ View.insight d' = View.insight d
      /\ View.health d' = View.health d)
  /\ snd (fetchGov m ts false d w log) = log
  /\ snd (fetchGov m ts true d w log) =
       (log ++ [Api.get_request GOV_API "/api/state/current";
                Api.get_request GOV_API "/api/signals/climate";
                Api.get_request GOV_API "/api/systems/water";
                Api.get_request GOV_API "/api/systems/environment";
                Api.get_request GOV_API "/api/systems/economy";
                Api.get_request GOV_API "/api/systems/social";
                Api.get_request GOV_API "/api/alerts/recent";
                Api.get_request GOV_API "/api/insights/latest";
                Api.get_request GOV_API "/api/forecast/7-cycle";
                Api.get_request GOV_API "/api/meta/health"])%list.
Proof.
  cbv zeta. rewrite fetchGov_online, fetchGov_offline. cbv zeta. cbn [fst snd].
  repeat split.
Qed.

(** What [fetchGov] leaves in each of the ten state variables. *)
Lemma fetchGov_field (k : Dto) (m : option SimMetrics.t) (ts : Js.num) (govUp : bool)
    (d : View.t) (w : World) (log : list Request) :
  field k (fst (fetchGov m ts govUp d w log)) =
    match (if govUp then received k w log
           else derived k (deriveLocalGovData m ts (date_iso w)))
    with
    | Some v => Some v
    | None => field k d
    end.
Proof.
  destruct govUp.
  - rewrite fetchGov_online. cbn [fst]. unfold merged.
    destruct k; cbn [field];
      rewrite ?(field_set_if_other View.stateData), ?(field_set_if_other View.climate),
        ?(field_set_if_other View.water), ?(field_set_if_other View.env),
        ?(field_set_if_other View.economy), ?(field_set_if_other View.social),
        ?(field_set_if_other View.alerts), ?(field_set_if_other View.insight),
        ?(field_set_if_other View.forecast), ?(field_set_if_other View.health)
        by reflexivity;
      (rewrite field_set_if_same by reflexivity);
      rewrite ?(field_set_if_other View.stateData), ?(field_set_if_other View.climate),
        ?(field_set_if_other View.water), ?(field_set_if_other View.env),
        ?(field_set_if_other View.economy), ?(field_set_if_other View.social),
        ?(field_set_if_other View.alerts), ?(field_set_if_other View.insight),
        ?(field_set_if_other View.forecast), ?(field_set_if_other View.health)
        by reflexivity;
      reflexivity.
  - rewrite fetchGov_offline. destruct k; reflexivity.
Qed.


(** *** The poll loop *)

Lemma bind_run {A B : Type} (c : IO A) (k : A -> IO B) (w : World) (log : list Request) :
  bind c k w log = k (fst (c w log)) w (snd (c w log)).
Proof. unfold bind. now destruct (c w log). Qed.

Lemma stepSim_field (k : Dto) (policy : option Policy) (d : View.t) (w : World)
    (log : list Request) :
  field k (snd (fst (stepSim policy d w log))) = field k d.
Proof.
  rewrite stepSim_run. cbv zeta. cbn [fst].
  destruct (Js.chain _ SimulateResult.results) as [[|r0 rest]|];
    destruct k; reflexivity.
Qed.

Lemma fetchNodes_field (k : Dto) (sf : Js.num) (d : View.t) (w : World)
    (log : list Request) :
  field k (fst (fetchNodes sf d w log)) = field k d.
Proof.
  unfold fetchNodes. rewrite bind_run.
  destruct (Js.chain _ NodesResult.nodes) as [[|n0 rest]|]; destruct k; reflexivity.
Qed.

(** [tick], with the threading of the log written out. *)
Lemma tick_run (d : View.t) (w : World) (log : list Request) :
  tick d w log =
    if (date_now w - View.lastManualSimTime d <? 15000)%Z then (d, log)
    else
      let p1 := ping SIM_API "/" w log in
      let p2 := ping GOV_API "/api/meta/health" w (snd p1) in
      let d1 := View.setGovOnline (fst p2) (View.setSimOnline (fst p1) d) in
      if fst p1 then
        let st := stepSim None d1 w (snd p2) in
        match fst (fst st) with
        | Some (m, ts) =>
            let g := fetchGov (Some m) ts (fst p2) (snd (fst st)) w (snd st) in
            fetchNodes (stress_of m) (fst g) w (snd g)
        | None => (snd (fst st), snd st)
        end
      else (d1, snd p2).
Proof.
  unfold tick. rewrite bind_run. cbv [Date_now]. cbn [fst snd].
  destruct (_ <? _)%Z; [reflexivity|].
  rewrite bind_run, bind_run. cbv zeta.
  destruct (fst (ping SIM_API "/" w log)); [|reflexivity].
  rewrite bind_run.
  destruct (stepSim None _ w _) as [[[[m ts]|] d2] log3]; cbn [fst snd]; [|reflexivity].
  rewrite bind_run, bind_run. unfold ret.
  now destruct (fetchNodes _ _ w _).
Qed.

(** C4 as stated fails: on the fallback branch the alerts are neither
    replaced nor kept because the governance branch received [null]; the
    branch does not run, and the alert on display stays. *)
Lemma fallback_keeps_alerts :
  let d' := fst (fetchGov None 0 false Samples.alerted Contract.offline []) in
  View.alerts d' = View.alerts Samples.alerted
  /\ View.alerts d' <> None
  /\ ~ (replaced DAlerts None 0 false Contract.offline [] d'
        \/ kept_on_null DAlerts false Contract.offline [] Samples.alerted d').
Proof.
  cbv zeta. split; [reflexivity|]. split; [discriminate|].
  intros [[(Hup & _) | (_ & v & Hv & _)] | (Hup & _)]; discriminate.
Qed.

(** *** Manual override *)

Lemma stepSim_lastManualSimTime (policy : option Policy) (d : View.t) (w : World)
    (log : list Request) :
  View.lastManualSimTime (snd (fst (stepSim policy d w log))) = View.lastManualSimTime d.
Proof.
  rewrite stepSim_run. cbv zeta. cbn [fst].
  destruct (Js.chain _ SimulateResult.results) as [[|r0 rest]|]; reflexivity.
Qed.

Lemma fetchGov_lastManualSimTime (m : option SimMetrics.t) (ts : Js.num) (govUp : bool)
    (d : View.t) (w : World) (log : list Request) :
  View.lastManualSimTime (fst (fetchGov m ts govUp d w log)) = View.lastManualSimTime d.
Proof.
  destruct govUp.
  - rewrite fetchGov_online. cbn [fst]. unfold merged.
    now rewrite !(field_set_if_other View.lastManualSimTime) by reflexivity.
  - reflexivity.
Qed.

Lemma fetchNodes_lastManualSimTime (sf : Js.num) (d : View.t) (w : World)
    (log : list Request) :
  View.lastManualSimTime (fst (fetchNodes sf d w log)) = View.lastManualSimTime d.
Proof.
  unfold fetchNodes. rewrite bind_run.
  destruct (Js.chain _ NodesResult.nodes) as [[|n0 rest]|]; reflexivity.
Qed.

Lemma applyPolicy_records (policy : Policy) (d : View.t) (w : World) (log : list Request) :
  View.lastManualSimTime (fst (applyPolicy policy d w log)) = date_now w.
Proof.
  unfold applyPolicy. rewrite bind_run. cbv [Date_now]. cbn [fst snd].
  cbv zeta. rewrite bind_run.
  pose proof (stepSim_lastManualSimTime (Some policy)
                (View.setLastManualSimTime (date_now w) d) w log) as Hstep.
  destruct (stepSim _ _ w log) as [[[[m ts]|] d1] log1]; cbn [fst snd] in *.
  - rewrite bind_run, bind_run. unfold ret. cbn [fst].
    now rewrite fetchNodes_lastManualSimTime, fetchGov_lastManualSimTime, Hstep.
  - unfold ret. cbn [fst]. now rewrite Hstep.
Qed.

(** C3.  [applyPolicy] records the time of its call in [lastManualSimTime],
    and every [tick] that reads the clock strictly less than 15000 ms after
    the recorded time returns at once: it issues no request and leaves the
    whole state of the dashboard as it was. *)
Theorem tick_suppressed (policy : Policy) (d0 : View.t) (w0 : World)
    (log0 : list Request) (d : View.t) (w : World) (log : list Request) :
  View.lastManualSimTime (fst (applyPolicy policy d0 w0 log0)) = date_now w0
  /\ ((date_now w - View.lastManualSimTime d < 15000)%Z -> tick d w log = (d, log)).
Proof.
  split; [apply applyPolicy_records|].
  intros H. apply Z.ltb_lt in H. rewrite tick_run. now rewrite H.
Qed.

Lemma tick_suppressed_witness :
  tick (Samples.overridden 1000) (Samples.simulating 15999) [] =
    (Samples.overridden 1000, []).
Proof.
  refine (proj2 (@tick_suppressed [] View.initial Contract.offline []
                   (Samples.overridden 1000) (Samples.simulating 15999) []) _).
  reflexivity.
Defined.

End Polling.

(* ------------------------------------------------------------------------- *)
(** * Further properties *)

(** ** More on deriveLocalGovData *)

Section DeriveMore.
Import Js Dashboard Bounds Facts.

Ltac derived_fields :=
  unfold deriveLocalGovData; cbv zeta;
  cbn [Derived.state Derived.climate Derived.water Derived.env Derived.economy
       Derived.social Derived.forecast
       StateResponse.system_stability_score StateResponse.sdg_composite_score
       ClimateResponse.temperature_current ClimateResponse.temperature_anomaly
       ClimateResponse.precipitation_current ClimateResponse.climate_stress_factor
       ClimateResponse.anomaly_detected ClimateResponse.trend
       WaterResponse.reservoir_level_percent WaterResponse.daily_outflow
       WaterResponse.water_stress_index WaterResponse.days_until_critical
       WaterResponse.status
       EnvironmentResponse.co2_ppm EnvironmentResponse.emission_growth_rate
       EnvironmentResponse.carbon_stress_index EnvironmentResponse.trend
       EconomyResponse.gdp_growth_rate EconomyResponse.industry_profit_index
       EconomyResponse.energy_price_index EconomyResponse.economic_stability_score
       SocialResponse.inequality_index SocialResponse.public_sentiment_score
       SocialResponse.public_pressure_score SocialResponse.governance_confidence
       SocialResponse.stability_trend
       ForecastResponse.reservoir_projection ForecastResponse.emission_projection
       ForecastResponse.risk_probability].

Lemma leb_min_r (a b u : Q) :
  u <= a -> u <= b -> (Fin u <=? min (Fin a) (Fin b)) = true.
Proof.
  intros Ha Hb. destruct (min_Fin a b) as (c & -> & _ & _ & [-> | ->]);
    now apply leb_Fin.
Qed.

Lemma leb_max_r (a b u : Q) :
  u <= a \/ u <= b -> (Fin u <=? max (Fin a) (Fin b)) = true.
Proof.
  intros H. destruct (max_Fin a b) as (c & -> & Ha & Hb & _).
  apply leb_Fin. destruct H; lra.
Qed.

Lemma round_50 (a : Q) : a <= 50 -> inject_Z (Qfloor (a + 0.5)) <= 50.
Proof. intros H. apply (round_mono (a := a) (b := 50)). exact H. Qed.

(** The ranges that depend on the emissions and on the vulnerability. *)
Lemma social_ranges (e v : num) :
  magnitude e -> magnitude v ->
  (max 0 (100 - v * 60 - (e / 5)) <=? 100) = true
  /\ (33 <=? 33 + v * 3) = true
  /\ (0 <=? v * 3) = true
  /\ within 0 2 (max 0 (2 - v * 2))
  /\ (1 <=? 1 + v * 0.5) = true
  /\ (420 <=? 420 + e / 10) = true
  /\ (0 <=? min 0.15 (e / 2000)) = true
  /\ (0 <=? min 1 (e / 300)) = true
  /\ within (-2) 4 (max (-2) (4 - v * 3))
  /\ within 0 0.8 (max 0 (0.8 - v * 0.3))
  /\ (1 <=? 1 + e / 500) = true
  /\ within 0 0.8 (max 0 (0.8 - v * 0.4))
  /\ (0 <=? v) = true
  /\ within (-1) 0.3 (max (-1) (0.3 - v * 1.2))
  /\ (0 <=? min 1 (v * 1.5)) = true
  /\ (0 <=? min 0.95 (v * 0.8 + e / 600)) = true.
Proof.
  unfold within.
  intros [-> | (e' & He & ->)] [-> | (v' & Hv & ->)]; autorewrite with fin;
    repeat match goal with |- _ /\ _ => split end;
    try reflexivity; try apply leb_max_l;
    try (apply leb_Fin; qlra);
    try (apply max_leb; qlra);
    try (apply leb_min_r; qlra).
Qed.

(** X3.  The other floors and ceilings of the derived data: whenever the
    metrics are [null], or the water consumption is absent or finite and
    neither the emissions nor the vulnerability is NaN, the stability score
    is at most 100, the temperature at least 33, precipitation within
    [[0, 2]], GDP growth within [[-2, 4]], the industry profit index and the
    economic stability score within [[0, 0.8]], public sentiment within
    [[-1, 0.3]], CO2 at least 420, the energy price index and the climate
    stress factor at least 1, at most 50 days until critical, and no index,
    rate or probability is negative. *)
Theorem deriveLocalGovData_ranged (m : option SimMetrics.t) (ts : num) (iso : string) :
  admissible m = true -> ranged_output (deriveLocalGovData m ts iso).
Proof.
  intros Hm. apply admissible_fields in Hm. destruct Hm as (He & Hw & Hv).
  pose proof (abs_magnitude _ 120 He) as Me.
  pose proof (abs_magnitude _ 0.4 Hv) as Mv.
  destruct (abs_finite _ 85 Hw) as (w & Hw0 & Ew).
  destruct (social_ranges Me Mv)
    as (S1 & S2 & S3 & S4 & S5 & S6 & S7 & S8 & S9 & S10 & S11 & S12 & S13 & S14
        & S15 & S16).
  unfold ranged_output. derived_fields. rewrite Ew. autorewrite with fin.
  repeat match goal with |- _ /\ _ => split end; try assumption.
  - apply leb_Fin. qlra.
  - apply leb_min_r; qlra.
  - apply max_leb; [lra|]. apply round_50. qlra.
Qed.

Lemma deriveLocalGovData_ranged_witness :
  ranged_output (deriveLocalGovData (Some sample_metrics) 7 "2024-01-01T00:00:00.000Z").
Proof.
  apply (@deriveLocalGovData_ranged (Some sample_metrics) 7 "2024-01-01T00:00:00.000Z").
  reflexivity.
Defined.

(** X4.  The three flags that depend on the vulnerability agree, for every
    input: an anomaly is detected exactly when the climate trend is rising,
    and exactly when the social stability trend is declining; the emission
    trend is increasing exactly when the emissions exceed 150. *)
Theorem deriveLocalGovData_flags (m : option SimMetrics.t) (ts : num) (iso : string) :
  let g := deriveLocalGovData m ts iso in
  (ClimateResponse.anomaly_detected (Derived.climate g) = true
   <-> ClimateResponse.trend (Derived.climate g) = ClimateResponse.rising)
  /\ (ClimateResponse.anomaly_detected (Derived.climate g) = true
      <-> SocialResponse.stability_trend (Derived.social g) = SocialResponse.declining)
  /\ (ClimateResponse.anomaly_detected (Derived.climate g) = true
      <-> (vulnerability_of m >? 0.5) = true)
  /\ (EnvironmentResponse.trend (Derived.env g) = EnvironmentResponse.increasing
      <-> (emissions_of m >? 150) = true).
Proof.
  cbv zeta. derived_fields. unfold vulnerability_of, emissions_of.
  set (v := abs (chain m SimMetrics.average_social_vulnerability ?? 0.4)).
  set (e := abs (chain m SimMetrics.total_emissions ?? 120)).
  destruct (v >? 0.5), (v >? 0.3), (e >? 150); repeat split; congruence.
Qed.

Lemma abs_neg (x : num) : abs (neg x) = abs x.
Proof.
  destruct x as [| | |[a b]]; try reflexivity.
  unfold neg, abs, Qopp, Qabs. cbn [Qnum Qden]. now rewrite Z.abs_opp.
Qed.

Lemma abs_flip (o : option num) (d : num) :
  abs (option_map neg o ?? d) = abs (o ?? d).
Proof. destruct o as [x|]; simpl; [apply abs_neg | reflexivity]. Qed.

(** X5.  Only the magnitude of a metric counts: reversing the sign of every
    field of the metrics leaves the derived data unchanged. *)
Theorem deriveLocalGovData_ignores_signs (m : SimMetrics.t) (ts : num) (iso : string) :
  deriveLocalGovData (Some (flip m)) ts iso = deriveLocalGovData (Some m) ts iso.
Proof.
  unfold deriveLocalGovData, flip, chain.
  cbn [SimMetrics.total_emissions SimMetrics.total_water_consumption
       SimMetrics.average_social_vulnerability SimMetrics.composite_sdg_score].
  now rewrite !abs_flip.
Qed.

Lemma non_decreasing_array_from (f : Z -> num) (n : nat) (i : Z) :
  (forall j, (f j <=? f (j + 1)%Z) = true) ->
  non_decreasing (array_from n i f) = true.
Proof.
  intros Hf. revert i. induction n as [|n IH]; intros i; [reflexivity|].
  cbn [array_from non_decreasing]. destruct n as [|n]; [reflexivity|].
  cbn [array_from] in *. rewrite Hf. apply (IH (i + 1)%Z).
Qed.

Lemma Forall_array_from_ge {A : Type} (P : A -> Prop) (f : Z -> A) (n : nat) (i : Z) :
  (forall j, (i <= j)%Z -> P (f j)) -> Forall P (array_from n i f).
Proof.
  revert i. induction n as [|n IH]; intros i Hf; cbn [array_from]; constructor.
  - apply Hf. lia.
  - apply IH. intros j Hj. apply Hf. lia.
Qed.

Lemma round_Fin_eq (a b : Q) : a == b -> round (Fin a) = round (Fin b).
Proof. intros H. unfold round. now rewrite H. Qed.

(** X6.  With finite emissions the CO2 projection starts at the current CO2
    value rounded, never falls and stays at or above 420; with a finite water
    consumption the reservoir projection starts at the current reservoir
    level rounded. *)
Theorem projections_start_at_present (m : option SimMetrics.t) (ts : num) (iso : string) :
  let g := deriveLocalGovData m ts iso in
  (finite_field (chain m SimMetrics.total_emissions) = true ->
   hd_error (ForecastResponse.emission_projection (Derived.forecast g)) =
     Some (round (EnvironmentResponse.co2_ppm (Derived.env g)))
   /\ non_decreasing (ForecastResponse.emission_projection (Derived.forecast g)) = true
   /\ Forall (fun x => (420 <=? x) = true)
        (ForecastResponse.emission_projection (Derived.forecast g)))
  /\ (finite_field (chain m SimMetrics.total_water_consumption) = true ->
      hd_error (ForecastResponse.reservoir_projection (Derived.forecast g)) =
        Some (round (WaterResponse.reservoir_level_percent (Derived.water g)))).
Proof.
  cbv zeta. derived_fields. split.
  - intros He. destruct (abs_finite _ 120 He) as (e & He0 & ->).
    autorewrite with fin. split; [|split].
    + cbn [array_from hd_error]. unfold of_Z. autorewrite with fin.
      f_equal. apply round_Fin_eq. change (inject_Z 0) with 0%Q. ring.
    + apply non_decreasing_array_from. intros j. unfold of_Z.
      autorewrite with fin. apply leb_Fin. apply round_mono.
      rewrite inject_Z_plus. change (inject_Z 1) with 1%Q.
      assert (0 <= 1.2 + e / 1000) by qlra. nra.
    + apply Forall_array_from_ge. intros j Hj. unfold of_Z.
      autorewrite with fin. apply leb_Fin.
      apply (round_mono (a := 420)).
      assert (0 <= inject_Z j) by (change 0%Q with (inject_Z 0); rewrite <- Zle_Qle; lia).
      assert (0 <= 1.2 + e / 1000) by qlra. qinv_consts. nra.
  - intros Hw. destruct (abs_finite _ 85 Hw) as (w & Hw0 & ->).
    autorewrite with fin. cbn [array_from hd_error].
    destruct (max_Fin 10 (80 - w / 50)) as (b & -> & Hb & _).
    unfold of_Z. autorewrite with fin. f_equal.
    assert (E : b - inject_Z 0 * (w / 500) + 0.5 == b + 0.5)
      by (change (inject_Z 0) with 0%Q; ring).
    rewrite E.
    assert (H10 : 10 <= inject_Z (Qfloor (b + 0.5))).
    { apply (round_mono (a := 10) (b := b)). exact Hb. }
    assert (Hz : (10 <= Qfloor (b + 0.5))%Z) by (rewrite Zle_Qle; exact H10).
    unfold max, leb. destruct (Qle_bool 10 (inject_Z (Qfloor (b + 0.5)))) eqn:E';
      [reflexivity|].
    exfalso. assert (Hle : Qle_bool 10 (inject_Z (Qfloor (b + 0.5))) = true)
      by (apply Qle_bool_iff; exact H10).
    congruence.
Qed.

Lemma projections_start_at_present_witness :
  hd_error (ForecastResponse.emission_projection
              (Derived.forecast (deriveLocalGovData (Some sample_metrics) 7 ""))) =
    Some (Fin 451)
  /\ hd_error (ForecastResponse.reservoir_projection
                 (Derived.forecast (deriveLocalGovData (Some sample_metrics) 7 ""))) =
       Some (Fin 77).
Proof.
  destruct (projections_start_at_present (Some sample_metrics) 7 "") as (He & Hw).
  destruct (He eq_refl) as (H1 & _). specialize (Hw eq_refl).
  split; [rewrite H1 | rewrite Hw]; vm_compute; reflexivity.
Defined.





End DeriveMore.

(** ** More on the generator and the nodes *)

Section SyntheticMore.
Import Js Dashboard Bounds Facts.

(** X8.  Whatever the state of the generator - any number, NaN and the
    infinities included - a draw leaves an integer state in [[0, 2^28)] and
    returns that state divided by [0xfffffff]: a number in [[0, 1]]. *)
Theorem rand_range (s : num) :
  exists k : Z,
    rand s = (of_Z k, Fin (inject_Z k / 268435455))
    /\ (0 <= k < 2 ^ 28)%Z
    /\ 0 <= inject_Z k / 268435455 <= 1.
Proof.
  unfold rand, bitand.
  set (x := toInt32 (s * 1664525 + 1013904223)).
  rewrite (toInt32_small (k := 0xfffffff)) by lia.
  change 0xfffffff%Z with (Z.ones 28). rewrite Z.land_ones by lia.
  assert (Hk : (0 <= x mod 2 ^ 28 < 2 ^ 28)%Z) by (apply Z.mod_pos_bound; lia).
  set (k := (x mod 2 ^ 28)%Z) in *.
  exists k. split; [|split; [exact Hk|]].
  - unfold ushr0. rewrite toInt32_small by exact Hk.
    rewrite Z.mod_small by lia. unfold of_Z.
    now rewrite div_Fin by reflexivity.
  - assert (H0 : inject_Z 0 <= inject_Z k) by (rewrite <- Zle_Qle; lia).
    assert (H1 : inject_Z k <= inject_Z (2 ^ 28 - 1)) by (rewrite <- Zle_Qle; lia).
    change (inject_Z 0) with 0%Q in H0.
    change (inject_Z (2 ^ 28 - 1)) with 268435455%Q in H1.
    split; qlra.
Qed.

(** The draws, and so the state and the position, do not depend on the
    stress factor. *)
Lemma synthetic_node_place (sf1 sf2 : num) (id : Z) (s : num) :
  snd (synthetic_node sf1 id s) = snd (synthetic_node sf2 id s)
  /\ place (fst (synthetic_node sf1 id s)) = place (fst (synthetic_node sf2 id s))
  /\ NodeData.vulnerability (fst (synthetic_node sf1 id s)) = sf1.
Proof.
  unfold synthetic_node.
  destruct (rand s) as (s1, r1). destruct (rand s1) as (s2, r2).
  destruct (rand s2) as (s3, r3). destruct (rand s3) as (s4, r4).
  repeat split.
Qed.

Lemma synthetic_nodes_place (sf1 sf2 : num) (n : nat) (id : Z) (s : num) :
  map place (synthetic_nodes n sf1 id s) = map place (synthetic_nodes n sf2 id s)
  /\ Forall (fun d => NodeData.vulnerability d = sf1) (synthetic_nodes n sf1 id s).
Proof.
  revert id s. induction n as [|n IH]; intros id s; cbn [synthetic_nodes].
  - split; constructor.
  - destruct (synthetic_node_place sf1 sf2 id s) as (Hs & Hp & Hv).
    destruct (synthetic_node sf1 id s) as (n1, s1).
    destruct (synthetic_node sf2 id s) as (n2, s2).
    cbn [fst snd] in *. subst s2.
    destruct (IH (id + 1)%Z s1) as (IHp & IHv).
    split; [cbn [map]; now rewrite Hp, IHp | now constructor].
Qed.

(** X9.  The stress factor moves no node: for a given seed, the identifiers
    and the positions of the synthetic nodes are the same for every stress
    factor, and the vulnerability of every node is the stress factor itself. *)
Theorem synthetic_positions_fixed (sf1 sf2 : num) (seed : option num) :
  map place (generateSyntheticNodes sf1 seed) = map place (generateSyntheticNodes sf2 seed)
  /\ Forall (fun d => NodeData.vulnerability d = sf1) (generateSyntheticNodes sf1 seed).
Proof. apply synthetic_nodes_place. Qed.

Lemma stress_of_range (m : SimMetrics.t) :
  not_nan_field (SimMetrics.average_social_vulnerability m) = true ->
  exists c, stress_of m = Fin c /\ 0.1 <= c <= 1.
Proof.
  intros H. unfold stress_of.
  destruct (abs_magnitude _ 0.35 H) as [-> | (v & Hv & ->)].
  - exists 1. split; [reflexivity | lra].
  - autorewrite with fin.
    destruct (min_Fin 1 (v + 0.1)) as (c & -> & H1 & H2 & [-> | ->]);
      eexists; (split; [reflexivity | lra]).
Qed.

(** X10.  The stress factor the poll loop and [applyPolicy] compute from the
    metrics of a step lies in [[0.1, 1]] unless the vulnerability is NaN, so
    every synthetic node generated from it has a stress in [[0, 1]]. *)
Theorem stress_factor_of_step (m : SimMetrics.t) :
  not_nan_field (SimMetrics.average_social_vulnerability m) = true ->
  within 0.1 1 (stress_of m)
  /\ Forall stress_in_unit (generateSyntheticNodes (stress_of m) None).
Proof.
  intros H. destruct (stress_of_range m H) as (c & E & Hc). split.
  - rewrite E. split; apply leb_Fin; lra.
  - apply synthetic_nodes_spec. rewrite E. apply leb_Fin. lra.
Qed.

Lemma stress_factor_of_step_witness :
  within 0.1 1 (stress_of sample_metrics)
  /\ Forall stress_in_unit (generateSyntheticNodes (stress_of sample_metrics) None).
Proof. apply (stress_factor_of_step sample_metrics). reflexivity. Defined.

End SyntheticMore.

(** ** More on the HTTP client *)

Section ClientMore.
Import Http Api Contract.

Lemma ok_status {T : Type} (res : Response T) :
  ok res = true <-> (200 <= status res <= 299)%Z.
Proof.
  unfold ok. rewrite andb_true_iff, !Z.leb_le. tauto.
Qed.

Lemma json_or_null_some {s : Shape} (out : Outcome (Body s)) (v : El s) :
  json_or_null out = Some v
  <-> exists res body, out = Responded res
                       /\ (200 <= status res <= 299)%Z
                       /\ json res = Parsed body /\ value s body = Some v.
Proof.
  split.
  - destruct out as [e|e|res]; cbn [json_or_null]; try discriminate.
    destruct (ok res) eqn:E; [|discriminate].
    destruct (json res) as [body|e] eqn:J; [|discriminate].
    intros Hv. exists res, body. repeat split; try assumption; now apply ok_status.
  - intros (res & body & -> & Hs & J & Hv). cbn [json_or_null].
    apply ok_status in Hs. now rewrite Hs, J.
Qed.

(** X1.  [get] resolves to a value exactly when the server answers with a
    status from 200 to 299 and a body that is a JSON value other than
    [null], and the value is then that body; so do [govPost] and
    [simulate].  Hence every call of the client other than [reset] resolves
    to a value exactly in that case: an answer 2xx whose body does not parse,
    or whose body is [null], resolves to [null] too. *)
Theorem client_value_iff_2xx_body :
  (forall s b p w log v,
      fst (get s b p w log) = Some v
      <-> exists res body,
            reply w s (List.length log) (get_request b p) = Responded res
            /\ (200 <= status res <= 299)%Z
            /\ json res = Parsed body /\ value s body = Some v)
  /\ (forall p b w log v,
      fst (govPost p b w log) = Some v
      <-> exists res,
            reply w SAny (List.length log) (govPost_request p b) = Responded res
            /\ (200 <= status res <= 299)%Z
            /\ json res = Parsed v /\ v <> JNull)
  /\ (forall steps policy w log v,
      fst (EtwinAPI.simulate steps policy w log) = Some v
      <-> exists res,
            reply w SSimulate (List.length log) (EtwinAPI.simulate_request steps policy)
              = Responded res
            /\ (200 <= status res <= 299)%Z /\ json res = Parsed (Some v))
  /\ (forall c w,
      c <> CReset ->
      (result (perform c) w = Value
       <-> exists res body v,
             reply w (shape_of c) 0 (request_of c) = Responded res
             /\ (200 <= status res <= 299)%Z
             /\ json res = Parsed body /\ value (shape_of c) body = Some v)).
Proof.
  split; [|split; [|split]].
  - intros. rewrite get_run. apply json_or_null_some.
  - intros. rewrite govPost_run. cbn [fst]. split.
    + intros H. apply (@json_or_null_some SAny) in H.
      destruct H as (res & body & E & Hs & J & Hv). exists res.
      destruct body; cbv [value] in Hv; try discriminate; injection Hv as <-;
        (split; [exact E|]; split; [exact Hs|]; split; [exact J | discriminate]).
    + intros (res & E & Hs & J & Hv). apply (@json_or_null_some SAny).
      exists res, v. split; [exact E|]. split; [exact Hs|]. split; [exact J|].
      cbv [value]. destruct v; try reflexivity. now elim Hv.
  - intros. rewrite simulate_run. cbn [fst]. split.
    + intros H. apply (@json_or_null_some SSimulate) in H.
      destruct H as (res & body & E & Hs & J & Hv). exists res.
      cbv [value] in Hv. subst body. split; [exact E|]. split; [exact Hs | exact J].
    + intros (res & E & Hs & J). apply (@json_or_null_some SSimulate).
      exists res, (Some v). split; [exact E|]. split; [exact Hs|].
      split; [exact J | reflexivity].
  - intros c w Hc. unfold result. rewrite (proj2 (perform_run c w []) Hc).
    change (List.length (@nil Request)) with 0%nat.
    destruct (json_or_null (reply w (shape_of c) 0 (request_of c))) as [v|] eqn:E.
    + apply json_or_null_some in E. destruct E as (res & body & E1 & E2 & E3 & E4).
      split; [intros _; now exists res, body, v | reflexivity].
    + split; [discriminate|]. intros (res & body & v & E1 & E2 & E3 & E4).
      assert (H : json_or_null (reply w (shape_of c) 0 (request_of c)) = Some v)
        by (apply json_or_null_some; now exists res, body).
      congruence.
Qed.

Lemma client_value_iff_2xx_body_witness :
  result (perform (CSimulate 1 None)) (Samples.simulating 0) = Value
  /\ result (perform (CSimulate 1 None)) null_bodies <> Value.
Proof.
  destruct client_value_iff_2xx_body as (_ & _ & _ & H). split.
  - apply (H (CSimulate 1 None) (Samples.simulating 0)); [discriminate|].
    do 3 eexists. split; [reflexivity|]. split; [cbn; lia|]. split; reflexivity.
  - intros C. apply (H (CSimulate 1 None) null_bodies) in C; [|discriminate].
    destruct C as (res & body & v & E & _ & J & Hv).
    injection E as <-. injection J as <-. discriminate Hv.
Defined.

(** X2.  No GET of the client carries a body or a header; every POST other
    than [reset] carries the JSON content type and a body, which is [{}] for
    [runEmergencySimulation] called without an argument and an object
    without a [policy] key for [simulate] called without a policy; [reset]
    carries neither body nor header. *)
Theorem client_request_shapes (c : Call) (w : World) :
  exists r,
    requests (perform c) w = [r]
    /\ (method r = GET -> body r = None /\ headers r = [])
    /\ (method r = POST -> c <> CReset ->
        headers r = [("Content-Type", "application/json")]
        /\ exists j, body r = Some j)
    /\ (c = CRunEmergencySimulation None -> body r = Some (JObj []))
    /\ (forall steps, c = CSimulate steps None ->
        body r = Some (JObj [("steps", JNum steps)]))
    /\ (c = CReset -> body r = None /\ headers r = []).
Proof.
  exists (request_of c). split; [apply perform_requests|].
  destruct c; cbn [request_of target fst snd get_request govPost_request
                     EtwinAPI.simulate_request EtwinAPI.reset_request method body
                     headers];
    repeat match goal with |- _ /\ _ => split end; intros;
    try discriminate; try reflexivity;
    try (eexists; reflexivity);
    try match goal with H : ?x <> ?x |- _ => now elim H end;
    try (split; [reflexivity | eexists; reflexivity]);
    match goal with H : _ = _ |- _ => inversion H; subst; reflexivity end.
Qed.

Lemma client_request_shapes_witness :
  exists r,
    requests (perform (CRunEmergencySimulation None)) offline = [r]
    /\ body r = Some (JObj []).
Proof.
  destruct (client_request_shapes (CRunEmergencySimulation None) offline)
    as (r & Hr & _ & _ & Hb & _).
  exists r. split; [exact Hr | exact (Hb eq_refl)].
Defined.

End ClientMore.

(** ** More on the dashboard *)

Section PollingMore.
Import Http Dashboard Governance Facts.

Lemma ping_run (b : Base) (p : string) (w : World) (log : list Request) :
  snd (ping b p w log) = (log ++ [ping_request b p])%list
  /\ fst (ping b p w log) =
       match reply w SAny (List.length log) (ping_request b p) with
       | Responded res => ok res
       | NetworkFailure _ | TimedOut _ => false
       end.
Proof.
  unfold ping, bind, fetch, ret.
  destruct (reply w SAny (List.length log) (ping_request b p)); split; reflexivity.
Qed.

Lemma pingBoth_run (d : View.t) (w : World) (log : list Request) :
  pingBoth d w log =
    (View.setGovOnline (fst (ping GOV_API "/api/meta/health" w (snd (ping SIM_API "/" w log))))
       (View.setSimOnline (fst (ping SIM_API "/" w log)) d),
     (log ++ pings)%list).
Proof.
  unfold pingBoth. rewrite bind_run, bind_run. unfold ret. cbv zeta. f_equal.
  rewrite (proj1 (ping_run _ _ _ _)), (proj1 (ping_run _ _ _ _)).
  now rewrite <- app_assoc.
Qed.

Lemma stepSim_requests (policy : option Policy) (d : View.t) (w : World)
    (log : list Request) :
  snd (stepSim policy d w log) = (log ++ [Api.EtwinAPI.simulate_request 1 policy])%list.
Proof. now rewrite stepSim_run. Qed.

Lemma copy_nodes (raw : list NodeData.t) : buildNodesFromAPI raw = raw.
Proof.
  unfold buildNodesFromAPI. induction raw as [|[i la lo st em vu] raw IH];
    cbn [map]; [reflexivity | now rewrite IH].
Qed.

Lemma fetchNodes_run (sf : Js.num) (d : View.t) (w : World) (log : list Request) :
  fetchNodes sf d w log =
    (View.setNodes
       (match Js.chain (Api.json_or_null
                          (reply w SNodes (List.length log) nodes_get))
                NodesResult.nodes with
        | Some (n0 :: rest) => n0 :: rest
        | Some [] | None => generateSyntheticNodes sf None
        end) d,
     (log ++ [nodes_get])%list).
Proof.
  unfold fetchNodes, Api.EtwinAPI.nodes, Api.sim. rewrite bind_run, get_run.
  cbn [fst snd]. unfold nodes_get. change (El SNodes) with NodesResult.t.
  destruct (Js.chain _ NodesResult.nodes) as [[|n0 rest]|]; unfold ret;
    try reflexivity.
  now rewrite copy_nodes.
Qed.

Lemma fetchGov_requests (m : option SimMetrics.t) (ts : Js.num) (govUp : bool)
    (d : View.t) (w : World) (log : list Request) :
  snd (fetchGov m ts govUp d w log) =
    (log ++ if govUp then governance_gets else [])%list.
Proof.
  destruct govUp.
  - now rewrite fetchGov_online.
  - rewrite fetchGov_offline. cbn [snd]. now rewrite app_nil_r.
Qed.

Lemma synthetic_length (sf : Js.num) (seed : option Js.num) :
  List.length (generateSyntheticNodes sf seed) = 200%nat.
Proof. apply synthetic_nodes_spec. Qed.

(** X12.  [stepSim] always issues exactly one request, the simulate POST
    with one step and the policy it was given, and always ends with
    [simLoading] cleared; besides [simLoading] it changes nothing when it
    returns [null], and only [lastSimMetrics] and [timestep] when it returns
    a result. *)
Theorem stepSim_frame (policy : option Policy) (d : View.t) (w : World)
    (log : list Request) :
  let r := fst (fst (stepSim policy d w log)) in
  let d' := snd (fst (stepSim policy d w log)) in
  snd (stepSim policy d w log) = (log ++ [Api.EtwinAPI.simulate_request 1 policy])%list
  /\ View.simLoading d' = false
  /\ match r with
     | None => d' = View.setSimLoading false d
     | Some (m, ts) =>
         d' = View.setSimLoading false
                (View.setTimestep ts (View.setLastSimMetrics (Some m) d))
     end.
Proof.
  cbv zeta. rewrite stepSim_run. cbv zeta. cbn [fst snd].
  destruct (Js.chain _ SimulateResult.results) as [[|r0 rest]|]; repeat split.
Qed.

Lemma fetchNodes_never_empty_aux (sf : Js.num) (d : View.t) (w : World)
    (log : list Request) :
  exists ns,
    fetchNodes sf d w log = (View.setNodes ns d, (log ++ [nodes_get])%list) /\ ns <> [].
Proof.
  rewrite fetchNodes_run. eexists. split; [reflexivity|].
  change (El SNodes) with NodesResult.t.
  assert (H : generateSyntheticNodes sf None <> []).
  { intros H. apply (f_equal (@List.length _)) in H.
    rewrite synthetic_length in H. discriminate H. }
  destruct (Js.chain _ NodesResult.nodes) as [[|n0 rest]|]; try exact H. discriminate.
Qed.

(** X13.  [fetchNodes] issues exactly one request, the GET of [/api/nodes]
    on the simulation service, changes nothing but the node list, and never
    leaves the list empty: it stores the nodes of the answer when there are
    some, and otherwise - answer missing, failed or empty - the 200
    synthetic nodes of the stress factor. *)
Theorem fetchNodes_never_empty (sf : Js.num) (d : View.t) (w : World)
    (log : list Request) :
  exists ns,
    fetchNodes sf d w log = (View.setNodes ns d, (log ++ [nodes_get])%list)
    /\ ns <> []
    /\ match Js.chain (Api.json_or_null (reply w SNodes (List.length log) nodes_get))
               NodesResult.nodes with
       | Some (n0 :: rest) => ns = n0 :: rest
       | Some [] | None =>
           ns = generateSyntheticNodes sf None /\ List.length ns = 200%nat
       end.
Proof.
  rewrite fetchNodes_run. eexists. split; [reflexivity|].
  change (El SNodes) with NodesResult.t.
  destruct (Js.chain _ NodesResult.nodes) as [[|n0 rest]|].
  - split; [|split; [reflexivity|]].
    + intros H. apply (f_equal (@List.length _)) in H.
      rewrite synthetic_length in H. discriminate H.
    + apply synthetic_length.
  - split; [discriminate | reflexivity].
  - split; [|split; [reflexivity|]].
    + intros H. apply (f_equal (@List.length _)) in H.
      rewrite synthetic_length in H. discriminate H.
    + apply synthetic_length.
Qed.

(** [tick] in terms of [pingBoth], [stepSim], [fetchGov] and [fetchNodes]. *)
Lemma tick_composed (d : View.t) (w : World) (log : list Request) :
  tick d w log =
    if suppressed d w then (d, log)
    else
      let pb := fst (pingBoth d w log) in
      if View.simOnline pb then
        let st := stepSim None pb w (log ++ pings)%list in
        match fst (fst st) with
        | Some (m, ts) =>
            let g := fetchGov (Some m) ts (View.govOnline pb) (snd (fst st)) w (snd st) in
            fetchNodes (stress_of m) (fst g) w (snd g)
        | None => (snd (fst st), snd st)
        end
      else pingBoth d w log.
Proof.
  rewrite tick_run. unfold suppressed.
  destruct (_ <? _)%Z; [reflexivity|].
  rewrite pingBoth_run. cbv zeta. cbn [fst View.simOnline View.govOnline
    View.setGovOnline View.setSimOnline].
  rewrite (proj1 (ping_run GOV_API _ _ _)), (proj1 (ping_run SIM_API _ _ _)).
  rewrite <- app_assoc. cbn [app]. reflexivity.
Qed.

(** X14.  The requests of one poll, in order.  A suppressed poll issues
    none.  Any other poll first pings the simulation service and the
    governance service, as [pingBoth] does; it posts one simulation step
    exactly when the first ping succeeded; and only when that step returned
    a result does it go on, to the ten governance GETs (exactly when the
    second ping succeeded) followed by the GET of the nodes. *)
Theorem tick_requests (d : View.t) (w : World) (log : list Request) :
  let pb := fst (pingBoth d w log) in
  let step := fst (fst (stepSim None pb w (log ++ pings)%list)) in
  snd (tick d w log) =
    (log ++
     if suppressed d w then []
     else
       pings ++
       if View.simOnline pb then
         Api.EtwinAPI.simulate_request 1 None ::
         match step with
         | Some _ => (if View.govOnline pb then governance_gets else []) ++ [nodes_get]
         | None => []
         end
       else [])%list.
Proof.
  cbv zeta. rewrite tick_composed.
  destruct (suppressed d w); [now rewrite app_nil_r|].
  cbv zeta. destruct (View.simOnline (fst (pingBoth d w log))).
  - pose proof (stepSim_requests None (fst (pingBoth d w log)) w (log ++ pings)%list)
      as Hs.
    destruct (stepSim None _ w _) as [[[[m ts]|] d2] log2]; cbn [fst snd] in *; subst log2.
    + rewrite fetchNodes_run. cbn [snd]. rewrite fetchGov_requests.
      now rewrite <- !app_assoc.
    + now rewrite <- app_assoc.
  - rewrite pingBoth_run. cbn [snd]. now rewrite app_nil_r.
Qed.

(** X15.  [pingBoth] issues exactly the two status GETs, with no timeout,
    sets each badge to whether its service answered with a 2xx status, and
    changes nothing else; a poll that is not suppressed and finds the
    simulation service down is exactly [pingBoth]. *)
Theorem tick_with_simulation_down (d : View.t) (w : World) (log : list Request) :
  (exists simUp govUp,
      pingBoth d w log =
        (View.setGovOnline govUp (View.setSimOnline simUp d), (log ++ pings)%list)
      /\ simUp = match reply w SAny (List.length log) (ping_request SIM_API "/") with
                 | Responded res => ok res
                 | NetworkFailure _ | TimedOut _ => false
                 end
      /\ govUp = match reply w SAny (S (List.length log))
                         (ping_request GOV_API "/api/meta/health") with
                 | Responded res => ok res
                 | NetworkFailure _ | TimedOut _ => false
                 end)
  /\ Forall (fun r => timeout r = None /\ method r = GET) pings
  /\ (suppressed d w = false ->
      View.simOnline (fst (pingBoth d w log)) = false ->
      tick d w log = pingBoth d w log).
Proof.
  split; [|split].
  - eexists. eexists. split; [apply pingBoth_run|]. split.
    + apply ping_run.
    + rewrite (proj2 (ping_run GOV_API _ _ _)), (proj1 (ping_run SIM_API _ _ _)).
      rewrite length_app. cbn [List.length]. now rewrite Nat.add_1_r.
  - repeat constructor.
  - intros Hs Hd. rewrite tick_composed, Hs. cbv zeta. now rewrite Hd.
Qed.

Lemma tick_with_simulation_down_witness :
  tick (Samples.overridden 0) (Samples.simulating 20000) [] =
    pingBoth (Samples.overridden 0) (Samples.simulating 20000) [].
Proof.
  destruct (tick_with_simulation_down (Samples.overridden 0) (Samples.simulating 20000) [])
    as (_ & _ & H).
  apply H; reflexivity.
Defined.

Lemma stepSim_cases (policy : option Policy) (d : View.t) (w : World)
    (log : list Request) :
  match fst (fst (stepSim policy d w log)) with
  | None => snd (fst (stepSim policy d w log)) = View.setSimLoading false d
  | Some (m, ts) =>
      snd (fst (stepSim policy d w log)) =
        View.setSimLoading false (View.setTimestep ts (View.setLastSimMetrics (Some m) d))
  end.
Proof.
  rewrite stepSim_run. cbv zeta. cbn [fst snd].
  destruct (Js.chain _ SimulateResult.results) as [[|r0 rest]|]; reflexivity.
Qed.

(** X16.  A poll on the fallback path.  When a poll is not suppressed, the
    simulation service answers its ping, the governance service does not,
    and the step returns a result, then the poll contacts the governance
    service for nothing but that ping; it stores the metrics and the
    timestep of the step; every governance object that [deriveLocalGovData]
    provides is the one derived from exactly those stored metrics and that
    stored timestep, and alerts, insight and health keep their value; and
    the node list is not empty. *)
Theorem tick_fallback (d : View.t) (w : World) (log : list Request)
    (m : SimMetrics.t) (ts : Js.num) :
  let pb := fst (pingBoth d w log) in
  let d' := fst (tick d w log) in
  suppressed d w = false ->
  View.simOnline pb = true ->
  View.govOnline pb = false ->
  fst (fst (stepSim None pb w (log ++ pings)%list)) = Some (m, ts) ->
  snd (tick d w log) =
    (log ++ pings ++ [Api.EtwinAPI.simulate_request 1 None; nodes_get])%list
  /\ View.simOnline d' = true /\ View.govOnline d' = false
  /\ View.lastSimMetrics d' = Some m /\ View.timestep d' = ts
  /\ (forall k,
        field k d' =
          match derived k (deriveLocalGovData (View.lastSimMetrics d') (View.timestep d')
                             (date_iso w)) with
          | Some v => Some v
          | None => field k d
          end)
  /\ View.nodes d' <> [].
Proof.
  cbv zeta. intros Hs Hsim Hgov Hstep.
  rewrite tick_composed, Hs. cbv zeta. rewrite Hsim, Hgov.
  pose proof (stepSim_cases None (fst (pingBoth d w log)) w (log ++ pings)%list) as Hc.
  pose proof (stepSim_requests None (fst (pingBoth d w log)) w (log ++ pings)%list) as Hr.
  rewrite Hstep in Hc.
  destruct (stepSim None _ w _) as [[r d2] log2]; cbn [fst snd] in *.
  subst r d2 log2. cbv zeta.
  rewrite fetchGov_offline. cbv zeta. cbn [fst snd].
  match goal with
  | |- context [fetchNodes ?sf ?dd ?ww ?ll] =>
      destruct (fetchNodes_never_empty_aux sf dd ww ll) as (ns & E & Hns); rewrite E
  end.
  cbn [fst snd]. rewrite pingBoth_run in *. cbn [fst] in *.
  cbn [View.simOnline View.govOnline View.setGovOnline View.setSimOnline] in Hsim, Hgov.
  split; [now rewrite <- !app_assoc|].
  split; [exact Hsim|]. split; [exact Hgov|].
  split; [reflexivity|]. split; [reflexivity|].
  split; [intros k; destruct k; reflexivity | exact Hns].
Qed.

Lemma tick_fallback_witness :
  View.lastSimMetrics (fst (tick View.initial (governance_down 20000) [])) =
    Some Bounds.sample_metrics
  /\ View.govOnline (fst (tick View.initial (governance_down 20000) [])) = false
  /\ View.nodes (fst (tick View.initial (governance_down 20000) [])) <> [].
Proof.
  destruct (@tick_fallback View.initial (governance_down 20000) []
              Bounds.sample_metrics (Js.Fin 7) eq_refl eq_refl eq_refl eq_refl)
    as (_ & _ & Hg & Hm & _ & _ & Hn).
  repeat split; assumption.
Defined.

(** X17.  [applyPolicy] never pings.  It issues the simulate POST carrying
    its policy; when the step returns nothing that is its only request and,
    besides the recorded time, it changes nothing but [simLoading]; when the
    step returns a result it goes on to the ten governance GETs exactly when
    the governance badge it started from was on - a flag it does not
    refresh - and then to the GET of the nodes. *)
Theorem applyPolicy_requests (policy : Policy) (d : View.t) (w : World)
    (log : list Request) :
  let d0 := View.setLastManualSimTime (date_now w) d in
  let step := fst (fst (stepSim (Some policy) d0 w log)) in
  snd (applyPolicy policy d w log) =
    (log ++
     Api.EtwinAPI.simulate_request 1 (Some policy) ::
     match step with
     | Some _ => (if View.govOnline d then governance_gets else []) ++ [nodes_get]
     | None => []
     end)%list
  /\ body (Api.EtwinAPI.simulate_request 1 (Some policy)) =
       Some (JObj [("steps", JNum 1); ("policy", Api.json_of_policy policy)])
  /\ (step = None -> fst (applyPolicy policy d w log) = View.setSimLoading false d0).
Proof.
  cbv zeta. unfold applyPolicy. rewrite bind_run. cbv [Date_now]. cbn [fst snd].
  cbv zeta. rewrite bind_run.
  pose proof (stepSim_cases (Some policy) (View.setLastManualSimTime (date_now w) d) w log)
    as Hc.
  pose proof (stepSim_requests (Some policy)
                (View.setLastManualSimTime (date_now w) d) w log) as Hr.
  destruct (stepSim (Some policy) _ w log) as [[[[m ts]|] d2] log2];
    cbn [fst snd] in *; subst d2 log2.
  - rewrite bind_run, bind_run. unfold ret. cbn [snd fst].
    rewrite fetchNodes_run. cbn [snd]. rewrite fetchGov_requests.
    split; [now rewrite <- !app_assoc|]. split; [reflexivity | discriminate].
  - unfold ret. cbn [fst snd]. repeat split.
Qed.

Lemma applyPolicy_requests_witness :
  fst (applyPolicy [("carbon_tax", Js.Fin 0.5)] View.initial Contract.offline []) =
    View.setSimLoading false (View.setLastManualSimTime 0 View.initial)
  /\ snd (applyPolicy [("carbon_tax", Js.Fin 0.5)] View.initial Contract.offline []) =
       [Api.EtwinAPI.simulate_request 1 (Some [("carbon_tax", Js.Fin 0.5)])].
Proof.
  destruct (applyPolicy_requests [("carbon_tax", Js.Fin 0.5)] View.initial
              Contract.offline []) as (Hr & _ & Hf).
  split; [exact (Hf eq_refl) | exact Hr].
Defined.

Lemma ui_state_set_if {A : Type} (x : option A) (set : option A -> View.t -> View.t)
    (d : View.t) :
  (forall v d', ui_state (set v d') = ui_state d') ->
  ui_state (set_if x set d) = ui_state d.
Proof. apply field_set_if_other. Qed.

Lemma fetchGov_ui_state (m : option SimMetrics.t) (ts : Js.num) (govUp : bool)
    (d : View.t) (w : World) (log : list Request) :
  ui_state (fst (fetchGov m ts govUp d w log)) = ui_state d.
Proof.
  destruct govUp.
  - rewrite fetchGov_online. cbn [fst]. unfold merged.
    now rewrite !ui_state_set_if by reflexivity.
  - reflexivity.
Qed.

Lemma stepSim_ui_state (policy : option Policy) (d : View.t) (w : World)
    (log : list Request) :
  ui_state (snd (fst (stepSim policy d w log))) = ui_state d.
Proof.
  pose proof (stepSim_cases policy d w log) as H.
  destruct (fst (fst (stepSim policy d w log))) as [[m ts]|]; now rewrite H.
Qed.

(** X18.  The poll loop never writes the selected tab, the tooltip or the
    time of the last manual step: only [applyPolicy] moves the suppression
    window, and it moves nothing else of the three. *)
Theorem poll_leaves_ui_state (d : View.t) (w : World) (log : list Request)
    (policy : Policy) :
  ui_state (fst (tick d w log)) = ui_state d
  /\ ui_state (fst (pingBoth d w log)) = ui_state d
  /\ ui_state (fst (applyPolicy policy d w log)) =
       (View.activeTab d, View.tooltip d, date_now w).
Proof.
  assert (Hp : ui_state (fst (pingBoth d w log)) = ui_state d)
    by now rewrite pingBoth_run.
  split; [|split; [exact Hp|]].
  - rewrite tick_composed. destruct (suppressed d w); [reflexivity|]. cbv zeta.
    destruct (View.simOnline (fst (pingBoth d w log))); [|exact Hp].
    pose proof (stepSim_ui_state None (fst (pingBoth d w log)) w (log ++ pings)%list)
      as Hs.
    destruct (stepSim None _ w _) as [[[[m ts]|] d2] log2]; cbn [fst snd] in *.
    + rewrite fetchNodes_run. cbn [fst].
      change (ui_state (View.setNodes ?ns ?x)) with (ui_state x).
      now rewrite fetchGov_ui_state, Hs.
    + now rewrite Hs.
  - unfold applyPolicy. rewrite bind_run. cbv [Date_now]. cbn [fst snd].
    cbv zeta. rewrite bind_run.
    pose proof (stepSim_ui_state (Some policy)
                  (View.setLastManualSimTime (date_now w) d) w log) as Hs.
    destruct (stepSim (Some policy) _ w log) as [[[[m ts]|] d2] log2];
      cbn [fst snd] in *.
    + rewrite bind_run, bind_run. unfold ret. cbn [fst].
      rewrite fetchNodes_run. cbn [fst].
      change (ui_state (View.setNodes ?ns ?x)) with (ui_state x).
      now rewrite fetchGov_ui_state, Hs.
    + unfold ret. cbn [fst]. now rewrite Hs.
Qed.

End PollingMore.

(* ------------------------------------------------------------------------- *)
(** ** What one poll does to the governance objects *)

Section Polls.
Import Http Dashboard Governance Facts.

Lemma pingBoth_field (k : Dto) (d : View.t) (w : World) (log : list Request) :
  field k (fst (pingBoth d w log)) = field k d.
Proof. rewrite pingBoth_run. now destruct k. Qed.

Lemma fetchGov_step (m : option SimMetrics.t) (ts : Js.num) (govUp : bool)
    (d : View.t) (w : World) (log : list Request) :
  View.lastSimMetrics (fst (fetchGov m ts govUp d w log)) = View.lastSimMetrics d
  /\ View.timestep (fst (fetchGov m ts govUp d w log)) = View.timestep d.
Proof.
  destruct govUp.
  - rewrite fetchGov_online. cbn [fst]. unfold merged.
    split; now rewrite !field_set_if_other by reflexivity.
  - rewrite fetchGov_offline. split; reflexivity.
Qed.

(** A poll that is not suppressed, finds the simulation service up and gets
    a result from its step is that step followed by [fetchGov] and
    [fetchNodes]. *)
Lemma tick_reaches (d : View.t) (w : World) (log : list Request)
    (m : SimMetrics.t) (ts : Js.num) :
  let pb := fst (pingBoth d w log) in
  let log1 := (log ++ pings ++ [Api.EtwinAPI.simulate_request 1 None])%list in
  let d' := fst (tick d w log) in
  suppressed d w = false ->
  View.simOnline pb = true ->
  fst (fst (stepSim None pb w (log ++ pings)%list)) = Some (m, ts) ->
  (forall k,
      field k d' =
        match (if View.govOnline pb then received k w log1
               else derived k (deriveLocalGovData (Some m) ts (date_iso w)))
        with
        | Some v => Some v
        | None => field k d
        end)
  /\ View.lastSimMetrics d' = Some m
  /\ View.timestep d' = ts
  /\ snd (tick d w log) =
       (log1 ++ (if View.govOnline pb then governance_gets else []) ++ [nodes_get])%list.
Proof.
  cbv zeta. intros Hs Hsim Hstep.
  rewrite tick_composed, Hs. cbv zeta. rewrite Hsim.
  pose proof (stepSim_cases None (fst (pingBoth d w log)) w (log ++ pings)%list) as Hc.
  pose proof (stepSim_requests None (fst (pingBoth d w log)) w (log ++ pings)%list) as Hr.
  assert (Hf : forall k,
             field k (snd (fst (stepSim None (fst (pingBoth d w log)) w
                                  (log ++ pings)%list))) = field k d)
    by (intros k; now rewrite stepSim_field, pingBoth_field).
  rewrite Hstep in Hc.
  destruct (stepSim None _ w _) as [[r d2] log2]; cbn [fst snd] in *.
  subst r log2. cbv zeta.
  replace ((log ++ pings) ++ [Api.EtwinAPI.simulate_request 1 None])%list
    with (log ++ pings ++ [Api.EtwinAPI.simulate_request 1 None])%list
    by now rewrite <- app_assoc.
  rewrite fetchNodes_run. cbn [fst snd].
  destruct (fetchGov_step (Some m) ts (View.govOnline (fst (pingBoth d w log))) d2 w
              (log ++ pings ++ [Api.EtwinAPI.simulate_request 1 None])%list)
    as (Hm & Ht).
  split; [|split; [|split]].
  - intros k.
    assert (E : forall ns x, field k (View.setNodes ns x) = field k x)
      by (intros; now destruct k).
    rewrite E, fetchGov_field, Hf. reflexivity.
  - change (View.lastSimMetrics (View.setNodes ?ns ?x)) with (View.lastSimMetrics x).
    rewrite Hm, Hc. reflexivity.
  - change (View.timestep (View.setNodes ?ns ?x)) with (View.timestep x).
    rewrite Ht, Hc. reflexivity.
  - rewrite fetchGov_requests. now rewrite <- !app_assoc.
Qed.

(** A poll that is suppressed, or finds the simulation service down, or gets
    nothing from its step leaves the governance objects as they were. *)
Lemma tick_stops (k : Dto) (d : View.t) (w : World) (log : list Request) :
  let pb := fst (pingBoth d w log) in
  suppressed d w = true
  \/ View.simOnline pb = false
  \/ fst (fst (stepSim None pb w (log ++ pings)%list)) = None ->
  field k (fst (tick d w log)) = field k d.
Proof.
  cbv zeta. intros H. rewrite tick_composed.
  destruct (suppressed d w); [reflexivity|]. cbv zeta.
  destruct (View.simOnline (fst (pingBoth d w log))) eqn:Hsim.
  - destruct H as [H | [H | H]]; try discriminate H.
    pose proof (stepSim_field k None (fst (pingBoth d w log)) w (log ++ pings)%list) as Hf.
    destruct (stepSim None _ w _) as [[r d2] log2]; cbn [fst snd] in *.
    subst r. cbn [fst snd]. now rewrite Hf, pingBoth_field.
  - apply pingBoth_field.
Qed.




(** C4, amended.  Every governance object is replaced wholesale, never
    partially mutated.  On each run of [fetchGov], each of state, climate,
    water, environment, economy, social, alerts, insight, forecast and health
    is either replaced in its entirety by the object just received
    (governance branch) or just derived (fallback branch), or left exactly
    equal to its previous value: when the governance branch receives [null]
    for its endpoint, or when the fallback branch runs and the object is
    alerts, insight or health, which [deriveLocalGovData] does not provide.
    A poll that does not reach [fetchGov] - suppressed, simulation ping
    failed, or step without a result - leaves every object exactly equal to
    its previous value; a poll that reaches it treats every object in one of
    the three ways, with the metrics and timestep of its step and the outcome
    of its health check.  Old and new objects are never merged field by
    field. *)
Theorem governance_objects_replaced_wholesale (k : Dto) :
  (forall m ts govUp d w log,
      let d' := fst (fetchGov m ts govUp d w log) in
      replaced k m ts govUp w log d'
      \/ kept_on_null k govUp w log d d'
      \/ kept_underived k m ts govUp w d d')
  /\ (forall g, derived k g = None <-> In k [DAlerts; DInsight; DHealth])
  /\ (forall d w log,
      let pb := fst (pingBoth d w log) in
      let log1 := (log ++ pings ++ [Api.EtwinAPI.simulate_request 1 None])%list in
      let d' := fst (tick d w log) in
      if suppressed d w then field k d' = field k d
      else if View.simOnline pb then
        match fst (fst (stepSim None pb w (log ++ pings)%list)) with
        | Some (m, ts) =>
            replaced k (Some m) ts (View.govOnline pb) w log1 d'
            \/ kept_on_null k (View.govOnline pb) w log1 d d'
            \/ kept_underived k (Some m) ts (View.govOnline pb) w d d'
        | None => field k d' = field k d
        end
      else field k d' = field k d).
Proof.
  split; [|split].
  - intros m ts govUp d w log d'. unfold replaced, kept_on_null, kept_underived.
    subst d'. rewrite fetchGov_field. destruct govUp.
    + destruct (received k w log) as [v|] eqn:E.
      * left. left. split; [reflexivity|]. now exists v.
      * right. left. repeat split.
    + destruct (derived k _) as [v|] eqn:E.
      * left. right. split; [reflexivity|]. now exists v.
      * right. right. repeat split.
  - intros g. destruct k; simpl; split; intros H;
      try discriminate; try reflexivity; try tauto;
      repeat (destruct H as [H | H]; try discriminate H); now elim H.
  - intros d w log. cbv zeta.
    destruct (suppressed d w) eqn:Hs; [apply tick_stops; now left|].
    destruct (View.simOnline (fst (pingBoth d w log))) eqn:Hsim;
      [|apply tick_stops; right; now left].
    destruct (fst (fst (stepSim None (fst (pingBoth d w log)) w (log ++ pings)%list)))
      as [[m ts]|] eqn:Hstep; [|apply tick_stops; right; now right].
    destruct (@tick_reaches d w log m ts Hs Hsim Hstep) as (Hk & _).
    specialize (Hk k). unfold replaced, kept_on_null, kept_underived.
    destruct (View.govOnline (fst (pingBoth d w log))).
    + destruct (received k w _) as [v|] eqn:E.
      * left. left. split; [reflexivity|]. now exists v.
      * right. left. repeat split. exact Hk.
    + destruct (derived k _) as [v|] eqn:E.
      * left. right. split; [reflexivity|]. now exists v.
      * right. right. repeat split. exact Hk.
Qed.

End Polls.

(* ------------------------------------------------------------------------- *)
(** ** The map: colours, weights and critical zones *)

Section HexMap.
Import Js CityHexMap Render Bounds Facts.

Lemma floor_between (lo hi : Z) (x : Q) :
  inject_Z lo <= x -> x < inject_Z hi + 1 -> (lo <= Qfloor x <= hi)%Z.
Proof.
  intros Hlo Hhi. split.
  - rewrite <- (Qfloor_Z lo). now apply Qfloor_resp_le.
  - pose proof (Qfloor_le x) as Hf.
    assert (H : inject_Z (Qfloor x) < inject_Z (hi + 1)).
    { rewrite inject_Z_plus. change (inject_Z 1) with 1%Q. lra. }
    rewrite <- Zlt_Qlt in H. lia.
Qed.

Lemma leb_floor (x y : Q) :
  x <= y -> (of_Z (Qfloor x) <=? of_Z (Qfloor y)) = true.
Proof.
  intros H. unfold of_Z. apply leb_Fin. rewrite <- Zle_Qle. now apply Qfloor_resp_le.
Qed.

(** The clamp of [stressRGB]: a number of [[0, 1]] unless the stress is NaN. *)
Lemma clamp_cases (s : num) :
  s <> NaN ->
  exists c : Q,
    max 0 (min 1 s) = Fin c /\ 0 <= c /\ c <= 1
    /\ (s = PInf -> c == 1) /\ (s = NInf -> c == 0)
    /\ (forall q, s = Fin q ->
          (q <= 0 -> c == 0) /\ (1 <= q -> c == 1) /\ (0 <= q -> q <= 1 -> c == q)).
Proof.
  intros Hs. destruct s as [| | |q]; [congruence| | |].
  - exists 1. repeat split; try lra; try discriminate; intros; discriminate.
  - exists 0. repeat split; try lra; try discriminate; intros; discriminate.
  - destruct (min_Fin 1 q) as (a & Ea & Ha1 & Haq & Hor).
    destruct (max_Fin 0 a) as (c & Ec & Hc0 & Hca & Hor').
    exists c. rewrite Ea, Ec. split; [reflexivity|].
    split; [lra|]. split; [destruct Hor' as [-> | ->]; lra|].
    split; [discriminate|]. split; [discriminate|].
    intros q' [= <-].
    repeat split; intros; destruct Hor' as [-> | ->]; destruct Hor as [E | E];
      try rewrite E in *; lra.
Qed.

(** The three branches of [stressRGB], on the clamped stress. *)
Lemma stressRGB_clamp (s : num) (c : Q) :
  max 0 (min 1 s) = Fin c ->
  stressRGB s =
    if Qle_bool 0.33 c then
      if Qle_bool 0.66 c then
        (of_Z (Qfloor (255 + 0.5)), of_Z (Qfloor (80 - (c - 0.66) / 0.34 * 80 + 0.5)),
         of_Z (Qfloor (0 + 0.5)))
      else
        (of_Z (Qfloor (255 + 0.5)), of_Z (Qfloor (170 - (c - 0.33) / 0.33 * 90 + 0.5)),
         of_Z (Qfloor (0 + 0.5)))
    else
      (of_Z (Qfloor (20 + c / 0.33 * 235 + 0.5)),
       of_Z (Qfloor (200 - c / 0.33 * 30 + 0.5)),
       of_Z (Qfloor (80 - c / 0.33 * 80 + 0.5))).
Proof.
  intros H. unfold stressRGB. rewrite H. cbv zeta.
  change (Fin c <? Fin 0.33) with (negb (Qle_bool 0.33 c)).
  change (Fin c <? Fin 0.66) with (negb (Qle_bool 0.66 c)).
  destruct (Qle_bool 0.33 c); cbn [negb].
  - destruct (Qle_bool 0.66 c); cbn [negb]; autorewrite with fin; reflexivity.
  - autorewrite with fin. reflexivity.
Qed.

Ltac split_branches c :=
  let E1 := fresh "E" in
  let E2 := fresh "E" in
  destruct (Qle_bool 0.33 c) eqn:E1;
    [ apply (leb_Fin 0.33 c) in E1;
      destruct (Qle_bool 0.66 c) eqn:E2;
        [ apply (leb_Fin 0.66 c) in E2 | apply (leb_Fin_false 0.66 c) in E2 ]
    | apply (leb_Fin_false 0.33 c) in E1 ].

(** X19.  The colour of a node.  For every stress but NaN the three channels
    of [stressRGB] are integers of the ranges a colour needs - red in
    [[20, 255]], green in [[0, 200]], blue in [[0, 80]] - whatever the size
    or sign of the stress; a stress of 0 or less is drawn (20, 200, 80), a
    stress of 1 or more (255, 0, 0), and from 0.33 on red is 255 and blue 0.
    A NaN stress gives a NaN green channel. *)
Theorem stressRGB_bytes (s : num) :
  if is_nan s then stressRGB s = (Fin 255, NaN, Fin 0)
  else
    exists r g b : Z,
      stressRGB s = (of_Z r, of_Z g, of_Z b)
      /\ (20 <= r <= 255)%Z /\ (0 <= g <= 200)%Z /\ (0 <= b <= 80)%Z
      /\ ((s <=? 0) = true -> (r, g, b) = (20, 200, 80)%Z)
      /\ ((1 <=? s) = true -> (r, g, b) = (255, 0, 0)%Z)
      /\ ((0.33 <=? s) = true -> r = 255%Z /\ b = 0%Z).
Proof.
  destruct (is_nan s) eqn:En.
  - destruct s; try discriminate. reflexivity.
  - assert (Hs : s <> NaN) by (intros ->; discriminate).
    destruct (clamp_cases Hs) as (c & Ec & H0 & H1 & Hp & Hn & Hq).
    rewrite (stressRGB_clamp _ Ec).
    assert (Hle0 : (s <=? 0) = true -> c == 0).
    { destruct s as [| | |q]; try discriminate; [now intros _; apply Hn|].
      intros H. apply leb_Fin in H. now apply (Hq q eq_refl). }
    assert (Hge1 : (1 <=? s) = true -> c == 1).
    { destruct s as [| | |q]; try discriminate; [now intros _; apply Hp|].
      intros H. apply leb_Fin in H. now apply (Hq q eq_refl). }
    assert (Hge : (0.33 <=? s) = true -> 0.33 <= c).
    { destruct s as [| | |q]; try discriminate; [intros _; rewrite (Hp eq_refl); lra|].
      intros H. apply leb_Fin in H. destruct (Hq q eq_refl) as (_ & Q1 & Q2).
      destruct (Qlt_le_dec 1 q); [rewrite Q1; lra | rewrite Q2; lra]. }
    split_branches c.
    + exists (Qfloor (255 + 0.5)), (Qfloor (80 - (c - 0.66) / 0.34 * 80 + 0.5)), (Qfloor (0 + 0.5)).
      split; [reflexivity|].
      assert (F : (0 <= Qfloor (80 - (c - 0.66) / 0.34 * 80 + 0.5) <= 80)%Z)
        by (apply floor_between; unfold inject_Z; qlra).
      change (Qfloor (255 + 0.5)) with 255%Z. change (Qfloor (0 + 0.5)) with 0%Z.
      split; [lia|]. split; [lia|]. split; [lia|]. split; [|split].
      * intros H. apply Hle0 in H. lra.
      * intros H. apply Hge1 in H.
        assert (F0 : (0 <= Qfloor (80 - (c - 0.66) / 0.34 * 80 + 0.5) <= 0)%Z)
          by (apply floor_between; unfold inject_Z; qlra).
        do 2 f_equal. lia.
      * intros _. split; reflexivity.
    + exists (Qfloor (255 + 0.5)), (Qfloor (170 - (c - 0.33) / 0.33 * 90 + 0.5)), (Qfloor (0 + 0.5)).
      split; [reflexivity|].
      assert (F : (80 <= Qfloor (170 - (c - 0.33) / 0.33 * 90 + 0.5) <= 170)%Z)
        by (apply floor_between; unfold inject_Z; qlra).
      change (Qfloor (255 + 0.5)) with 255%Z. change (Qfloor (0 + 0.5)) with 0%Z.
      split; [lia|]. split; [lia|]. split; [lia|]. split; [|split].
      * intros H. apply Hle0 in H. lra.
      * intros H. apply Hge1 in H. lra.
      * intros _. split; reflexivity.
    + exists (Qfloor (20 + c / 0.33 * 235 + 0.5)), (Qfloor (200 - c / 0.33 * 30 + 0.5)),
        (Qfloor (80 - c / 0.33 * 80 + 0.5)).
      split; [reflexivity|].
      assert (F1 : (20 <= Qfloor (20 + c / 0.33 * 235 + 0.5) <= 255)%Z)
        by (apply floor_between; unfold inject_Z; qlra).
      assert (F2 : (170 <= Qfloor (200 - c / 0.33 * 30 + 0.5) <= 200)%Z)
        by (apply floor_between; unfold inject_Z; qlra).
      assert (F3 : (0 <= Qfloor (80 - c / 0.33 * 80 + 0.5) <= 80)%Z)
        by (apply floor_between; unfold inject_Z; qlra).
      split; [lia|]. split; [lia|]. split; [lia|]. split; [|split].
      * intros H. apply Hle0 in H.
        assert (G1 : (20 <= Qfloor (20 + c / 0.33 * 235 + 0.5) <= 20)%Z)
          by (apply floor_between; unfold inject_Z; qlra).
        assert (G2 : (200 <= Qfloor (200 - c / 0.33 * 30 + 0.5) <= 200)%Z)
          by (apply floor_between; unfold inject_Z; qlra).
        assert (G3 : (80 <= Qfloor (80 - c / 0.33 * 80 + 0.5) <= 80)%Z)
          by (apply floor_between; unfold inject_Z; qlra).
        f_equal; [f_equal|]; lia.
      * intros H. apply Hge1 in H. lra.
      * intros H. apply Hge in H. lra.
Qed.

Lemma clamp_mono (s1 s2 : num) (c1 c2 : Q) :
  (s1 <=? s2) = true ->
  max 0 (min 1 s1) = Fin c1 -> max 0 (min 1 s2) = Fin c2 -> c1 <= c2.
Proof.
  intros Hle E1 E2.
  assert (N1 : s1 <> NaN) by (intros ->; discriminate).
  assert (N2 : s2 <> NaN) by (intros ->; destruct s1; discriminate).
  destruct (clamp_cases N1) as (a1 & A1 & L1 & U1 & P1 & M1 & Q1).
  destruct (clamp_cases N2) as (a2 & A2 & L2 & U2 & P2 & M2 & Q2).
  rewrite E1 in A1. rewrite E2 in A2. injection A1 as <-. injection A2 as <-.
  destruct s1 as [| | |q1]; [congruence| | |].
  - destruct s2; try discriminate. rewrite (P1 eq_refl), (P2 eq_refl). lra.
  - rewrite (M1 eq_refl). lra.
  - destruct s2 as [| | |q2]; [congruence| | |].
    + rewrite (P2 eq_refl). lra.
    + discriminate.
    + apply leb_Fin in Hle.
      destruct (Q1 q1 eq_refl) as (Z1 & O1 & I1).
      destruct (Q2 q2 eq_refl) as (Z2 & O2 & I2).
      destruct (Qlt_le_dec q1 0) as [D1|D1];
        [rewrite Z1 by lra; lra|].
      destruct (Qlt_le_dec 1 q2) as [D2|D2];
        [rewrite O2 by lra; lra|].
      rewrite I1, I2 by lra. lra.
Qed.

(** X20.  A higher stress never looks better: from one stress to a larger
    one the red channel of [stressRGB] does not decrease and neither the
    green nor the blue channel increases, across the three branches of the
    function. *)
Theorem stressRGB_monotone (s1 s2 : num) :
  (s1 <=? s2) = true ->
  (fst (fst (stressRGB s1)) <=? fst (fst (stressRGB s2))) = true
  /\ (snd (fst (stressRGB s2)) <=? snd (fst (stressRGB s1))) = true
  /\ (snd (stressRGB s2) <=? snd (stressRGB s1)) = true.
Proof.
  intros Hle.
  assert (N1 : s1 <> NaN) by (intros ->; discriminate).
  assert (N2 : s2 <> NaN) by (intros ->; destruct s1; discriminate).
  destruct (clamp_cases N1) as (c1 & E1 & L1 & U1 & _).
  destruct (clamp_cases N2) as (c2 & E2 & L2 & U2 & _).
  pose proof (clamp_mono _ _ Hle E1 E2) as Hc.
  rewrite (stressRGB_clamp _ E1), (stressRGB_clamp _ E2).
  split_branches c1; split_branches c2; cbn [fst snd];
    repeat split; apply leb_floor; qlra.
Qed.

Lemma stressRGB_monotone_witness :
  (fst (fst (stressRGB 0.2)) <=? fst (fst (stressRGB 0.7))) = true
  /\ (snd (fst (stressRGB 0.7)) <=? snd (fst (stressRGB 0.2))) = true
  /\ (snd (stressRGB 0.7) <=? snd (stressRGB 0.2)) = true.
Proof. apply (@stressRGB_monotone 0.2 0.7). reflexivity. Defined.

Lemma above_clamp (s : num) (t c : Q) :
  t <= 1 -> (s >? Fin t) = true -> max 0 (min 1 s) = Fin c -> t <= c.
Proof.
  intros Ht Hs Ec.
  assert (N : s <> NaN) by (intros ->; discriminate).
  destruct (clamp_cases N) as (a & A & L & U & P & M & Hq).
  rewrite Ec in A. injection A as <-.
  destruct s as [| | |q]; [congruence| | |].
  - rewrite (P eq_refl). lra.
  - discriminate.
  - rewrite gtb_negb_leb in Hs. apply negb_true_iff, leb_Fin_false in Hs.
    destruct (Hq q eq_refl) as (Z0 & O & I).
    destruct (Qlt_le_dec 1 q); [rewrite O; lra|].
    destruct (Qlt_le_dec q 0); [rewrite Z0; lra | rewrite I; lra].
Qed.

(** X21.  The layer of critical zones.  A node drawn there is a node of the
    map whose stress exceeds 0.6; its fill and line colour have red 255,
    blue 0 and a green of at most 96; its radius is at least 144 m, and at
    most 200 m when the stress is at most 1; its heat weight is its stress;
    and the tooltip of the dashboard labels it CRITICAL or HIGH STRESS.  The
    lower bound on the radius is not strict: the code rounds the product
    [stress * 140], which is 84 for the stress next above 0.6. *)
Theorem critical_zones (nodes : list NodeData.t) (n : NodeData.t) :
  In n (critNodes nodes) ->
  In n nodes
  /\ (exists g : Z,
        stressRGB (NodeData.stress n) = (Fin 255, of_Z g, Fin 0) /\ (0 <= g <= 96)%Z)
  /\ (144 <=? getRadius n) = true
  /\ ((NodeData.stress n <=? 1) = true -> (getRadius n <=? 200) = true)
  /\ getWeight n = NodeData.stress n
  /\ (severity (NodeData.stress n) = CRITICAL
      \/ severity (NodeData.stress n) = HIGH_STRESS).
Proof.
  unfold critNodes. intros H. apply filter_In in H. destruct H as (Hin & Hs).
  split; [exact Hin|].
  assert (N : NodeData.stress n <> NaN) by (intros E; rewrite E in Hs; discriminate).
  split.
  { destruct (clamp_cases N) as (c & Ec & L & U & _).
    pose proof (@above_clamp _ 0.6 c ltac:(lra) Hs Ec) as Hc.
    rewrite (stressRGB_clamp _ Ec).
    split_branches c; [| |lra].
    - eexists. split; [reflexivity|].
      assert (F : (0 <= Qfloor (80 - (c - 0.66) / 0.34 * 80 + 0.5) <= 80)%Z)
        by (apply floor_between; unfold inject_Z; qlra).
      lia.
    - eexists. split; [reflexivity|].
      apply floor_between; unfold inject_Z; qlra. }
  unfold getRadius, getWeight, severity.
  destruct (NodeData.stress n) as [| | |q]; [congruence| |discriminate|].
  - repeat split; try reflexivity; try discriminate. now left.
  - rewrite gtb_negb_leb in Hs. apply negb_true_iff, leb_Fin_false in Hs.
    autorewrite with fin.
    split; [apply leb_Fin; lra|].
    split; [intros H; apply leb_Fin in H; apply leb_Fin; lra|].
    split.
    + unfold max. destruct (Fin 0.01 <=? Fin q) eqn:E; [reflexivity|].
      apply leb_Fin_false in E. lra.
    + rewrite !gtb_negb_leb. destruct (Fin q <=? Fin 0.75) eqn:E1; cbn [negb];
        [|now left].
      destruct (Fin q <=? Fin 0.5) eqn:E2; cbn [negb]; [|now right].
      apply leb_Fin in E2. lra.
Qed.

Lemma critical_zones_witness :
  (144 <=? getRadius hot_node) = true
  /\ (exists g : Z, stressRGB 0.8 = (Fin 255, of_Z g, Fin 0) /\ (0 <= g <= 96)%Z).
Proof.
  destruct (@critical_zones [hot_node] hot_node) as (_ & Hc & Hr & _).
  - left. reflexivity.
  - split; [exact Hr | exact Hc].
Defined.

(** X22.  The tooltip and the map agree.  A node the tooltip labels CRITICAL
    (stress above 0.75) is in the layer of critical zones and is drawn with
    red 255, blue 0 and a green of at most 59; a node whose stress is a
    number of at most 0.25, which the tooltip labels HEALTHY, is not in that
    layer and is drawn with a red of at most 198, a green of at least 177
    and a blue of at least 19.  A NaN stress is labelled HEALTHY too. *)
Theorem severity_matches_colour (nodes : list NodeData.t) (n : NodeData.t) :
  In n nodes ->
  (severity (NodeData.stress n) = CRITICAL ->
     In n (critNodes nodes)
     /\ exists g : Z,
          stressRGB (NodeData.stress n) = (Fin 255, of_Z g, Fin 0) /\ (0 <= g <= 59)%Z)
  /\ ((NodeData.stress n <=? 0.25) = true ->
       severity (NodeData.stress n) = HEALTHY
       /\ ~ In n (critNodes nodes)
       /\ exists r g b : Z,
            stressRGB (NodeData.stress n) = (of_Z r, of_Z g, of_Z b)
            /\ (20 <= r <= 198)%Z /\ (177 <= g <= 200)%Z /\ (19 <= b <= 80)%Z)
  /\ severity NaN = HEALTHY.
Proof.
  intros Hin. split; [|split; [|reflexivity]].
  - intros Hsev.
    assert (Hs : (NodeData.stress n >? 0.75) = true).
    { unfold severity in Hsev. destruct (NodeData.stress n >? 0.75); [reflexivity|].
      destruct (NodeData.stress n >? 0.5); [discriminate|].
      destruct (NodeData.stress n >? 0.25); discriminate. }
    assert (N : NodeData.stress n <> NaN) by (intros E; rewrite E in Hs; discriminate).
    split.
    + unfold critNodes. apply filter_In. split; [exact Hin|].
      destruct (NodeData.stress n) as [| | |q]; try discriminate; [reflexivity|].
      rewrite gtb_negb_leb in *. apply negb_true_iff, leb_Fin_false in Hs.
      apply negb_true_iff, leb_Fin_false. lra.
    + destruct (clamp_cases N) as (c & Ec & L & U & _).
      pose proof (@above_clamp _ 0.75 c ltac:(lra) Hs Ec) as Hc.
      rewrite (stressRGB_clamp _ Ec).
      split_branches c; [|lra|lra].
      eexists. split; [reflexivity|].
      apply floor_between; unfold inject_Z; qlra.
  - intros Hle.
    assert (N : NodeData.stress n <> NaN) by (intros E; rewrite E in Hle; discriminate).
    assert (Hgt : forall t : Q, 0.25 <= t -> (NodeData.stress n >? Fin t) = false).
    { intros t Ht. destruct (NodeData.stress n) as [| | |q]; try discriminate;
        [reflexivity|].
      apply leb_Fin in Hle. rewrite gtb_negb_leb. apply negb_false_iff, leb_Fin. lra. }
    split; [|split].
    + unfold severity. now rewrite !Hgt by lra.
    + unfold critNodes. rewrite filter_In. intros (_ & H).
      rewrite Hgt in H by lra. discriminate.
    + destruct (clamp_cases N) as (c & Ec & L & U & P & M & Hq).
      assert (Hc : c <= 0.25).
      { destruct (NodeData.stress n) as [| | |q]; try discriminate.
        - rewrite (M eq_refl). lra.
        - apply leb_Fin in Hle. destruct (Hq q eq_refl) as (Z0 & _ & I).
          destruct (Qlt_le_dec q 0); [rewrite Z0; lra | rewrite I; lra]. }
      rewrite (stressRGB_clamp _ Ec).
      split_branches c; [lra|lra|].
      do 3 eexists. split; [reflexivity|].
      split; [|split]; apply floor_between; unfold inject_Z; qlra.
Qed.

Lemma severity_matches_colour_witness :
  In hot_node (critNodes [hot_node]).
Proof.
  destruct (@severity_matches_colour [hot_node] hot_node) as (Hc & _).
  - left. reflexivity.
  - exact (proj1 (Hc eq_refl)).
Defined.

End HexMap.

(* ------------------------------------------------------------------------- *)
(** ** The charts of the dashboard *)

Section Charts.
Import Js Dashboard Render Bounds Facts.

Lemma min_of_spec (l : list num) :
  Forall (fun v => is_finite v = true) l ->
  (l = [] /\ min_of l = PInf)
  \/ exists b, min_of l = Fin b /\ forall q, In (Fin q) l -> b <= q.
Proof.
  induction 1 as [|v l Hv _ IH]; [left; split; reflexivity|].
  right. destruct v as [| | |q]; try discriminate. cbn [min_of fold_right].
  fold (min_of l).
  destruct IH as [(-> & ->) | (b & -> & Hb)].
  - exists q. split; [reflexivity|]. intros q' [[= <-]|[]]. lra.
  - destruct (min_Fin q b) as (c & -> & Hq & Hcb & _).
    exists c. split; [reflexivity|].
    intros q' [[= <-]|Hin]; [lra|]. specialize (Hb _ Hin). lra.
Qed.

Lemma max_of_spec (l : list num) :
  Forall (fun v => is_finite v = true) l ->
  (l = [] /\ max_of l = NInf)
  \/ exists t, max_of l = Fin t /\ forall q, In (Fin q) l -> q <= t.
Proof.
  induction 1 as [|v l Hv _ IH]; [left; split; reflexivity|].
  right. destruct v as [| | |q]; try discriminate. cbn [max_of fold_right].
  fold (max_of l).
  destruct IH as [(-> & ->) | (b & -> & Hb)].
  - exists q. split; [reflexivity|]. intros q' [[= <-]|[]]. lra.
  - destruct (max_Fin q b) as (c & -> & Hq & Hcb & _).
    exists c. split; [reflexivity|].
    intros q' [[= <-]|Hin]; [lra|]. specialize (Hb _ Hin). lra.
Qed.

Lemma moderate_finite (v : num) : moderate v -> exists q, v = Fin q.
Proof.
  unfold moderate, within, huge. intros (H1 & H2).
  destruct v as [| | |q]; try discriminate; now exists q.
Qed.

(** X23.  The CO2 chart.  Whatever forecast is shown, received or derived,
    as long as its emission projection holds numbers of magnitude at most
    10^300 - so that the differences the code takes stay finite - every bar
    of the chart is between 8 and 80 pixels high, the chart being 80 pixels
    high, and there is one bar per entry.  The upper bound is not strict:
    the code rounds [top - base + 1], which can then equal [top - base]. *)
Theorem emission_bars_fit (f : ForecastResponse.t) :
  Forall moderate (ForecastResponse.emission_projection f) ->
  Forall (within 8 80) (emission_bars (Some f))
  /\ List.length (emission_bars (Some f)) =
       List.length (ForecastResponse.emission_projection f).
Proof.
  intros Hm.
  assert (Hf : Forall (fun v => is_finite v = true)
                 (ForecastResponse.emission_projection f)).
  { eapply Forall_impl; [|exact Hm]. intros v Hv.
    destruct (moderate_finite Hv) as (q & ->). reflexivity. }
  unfold emission_bars. cbn [option_map nullish].
  split; [|apply length_map].
  apply Forall_forall. intros h Hh. apply in_map_iff in Hh.
  destruct Hh as (v & <- & Hv).
  pose proof (proj1 (Forall_forall _ _) Hf v Hv) as Fv.
  destruct v as [| | |q]; try discriminate.
  destruct (min_of_spec Hf) as [(E & _) | (b & -> & Hb)];
    [rewrite E in Hv; destruct Hv|].
  destruct (max_of_spec Hf) as [(E & _) | (t & -> & Ht)];
    [rewrite E in Hv; destruct Hv|].
  specialize (Hb _ Hv). specialize (Ht _ Hv).
  cbv zeta. autorewrite with fin.
  rewrite div_Fin by lra. autorewrite with fin.
  assert (D : 0 < t - b + 1) by lra.
  assert (X0 : 0 <= (q - b) / (t - b + 1)) by (apply Qle_shift_div_l; lra).
  assert (X1 : (q - b) / (t - b + 1) < 1) by (apply Qlt_shift_div_r; lra).
  split; apply leb_Fin; lra.
Qed.

Lemma emission_bars_fit_witness :
  Forall (within 8 80)
    (emission_bars
       (Some (Derived.forecast (deriveLocalGovData None 0 "2024-01-01T00:00:00.000Z")))).
Proof.
  refine (proj1 (@emission_bars_fit
                   (Derived.forecast
                      (deriveLocalGovData None 0 "2024-01-01T00:00:00.000Z")) _)).
  repeat (constructor; [split; vm_compute; reflexivity|]). constructor.
Defined.

Lemma Bar_env (e : num) :
  magnitude e ->
  within 0 100 (Bar (420 + e / 10 - 400) (Some (Fin 80)))
  /\ within 0 100 (Bar (min 0.15 (e / 2000) * 100) (Some (Fin 10)))
  /\ within 0 100 (Bar (min 1 (e / 300) * 100) None).
Proof.
  unfold within, Bar. cbn [nullish].
  intros [-> | (q & Hq & ->)].
  - repeat split; reflexivity.
  - autorewrite with fin.
    destruct (min_Fin 0.15 (q / 2000)) as (a & -> & A1 & A2 & A3).
    destruct (min_Fin 1 (q / 300)) as (b & -> & B1 & B2 & B3).
    assert (0 <= a) by (destruct A3 as [-> | ->]; qlra).
    assert (0 <= b) by (destruct B3 as [-> | ->]; qlra).
    autorewrite with fin.
    repeat split; try apply min_leb_l; apply leb_min_r; qlra.
Qed.

(** X24.  Derived data fits the charts.  Whenever the metrics are [null], or
    the water consumption is absent or finite and neither the emissions nor
    the vulnerability is NaN, what [deriveLocalGovData] returns is drawn
    inside its boxes: the seven bars of the reservoir chart are between 8
    and 64 pixels high, the bar of the reservoir level is between 10 and 80
    per cent wide, and the three bars of the environment panel are between
    0 and 100 per cent wide. *)
Theorem derived_data_fits_charts (m : option SimMetrics.t) (ts : num) (iso : string) :
  admissible m = true ->
  Forall (within 8 64)
    (reservoir_bars (Some (Derived.forecast (deriveLocalGovData m ts iso))))
  /\ within 10 80
       (reservoir_level_bar (Some (Derived.water (deriveLocalGovData m ts iso))))
  /\ Forall (within 0 100)
       (environment_bars (Some (Derived.env (deriveLocalGovData m ts iso)))).
Proof.
  intros Hm. apply admissible_fields in Hm. destruct Hm as (He & Hw & _).
  pose proof (abs_magnitude _ 120 He) as Me.
  destruct (abs_finite _ 85 Hw) as (w & Hw0 & Ew).
  unfold reservoir_bars, reservoir_level_bar, environment_bars, deriveLocalGovData.
  cbv zeta. cbn [Derived.forecast Derived.water Derived.env option_map nullish
                 ForecastResponse.reservoir_projection
                 WaterResponse.reservoir_level_percent EnvironmentResponse.co2_ppm
                 EnvironmentResponse.emission_growth_rate
                 EnvironmentResponse.carbon_stress_index].
  rewrite Ew. autorewrite with fin.
  destruct (max_Fin 10 (80 - w / 50)) as (b & -> & B1 & B2 & B3).
  assert (B4 : b <= 80) by (destruct B3 as [-> | ->]; qlra).
  split; [|split].
  - apply Forall_map. apply Forall_array_from_ge. intros j Hj.
    unfold of_Z, within. autorewrite with fin.
    assert (Hj' : 0 <= inject_Z j) by (change 0%Q with (inject_Z 0); now rewrite <- Zle_Qle).
    assert (P : 0 <= inject_Z j * (w / 500))
      by (apply Qmult_le_0_compat; [exact Hj' | qlra]).
    destruct (max_Fin 10 (inject_Z (Qfloor (b - inject_Z j * (w / 500) + 0.5))))
      as (c & -> & C1 & C2 & C3).
    assert (C4 : c <= 80).
    { destruct C3 as [-> | ->]; [lra|].
      assert (F : (Qfloor (b - inject_Z j * (w / 500) + 0.5) <= 80)%Z).
      { change 80%Z with (Qfloor (80 + 0.5)). apply Qfloor_resp_le. lra. }
      rewrite Zle_Qle in F. exact F. }
    autorewrite with fin. split; apply leb_Fin; qlra.
  - unfold within, Bar. cbn [nullish]. autorewrite with fin.
    destruct (min_Fin 100 (b / 100 * 100)) as (c & -> & C1 & C2 & C3).
    split; apply leb_Fin; destruct C3 as [-> | ->]; qlra.
  - destruct (Bar_env Me) as (E1 & E2 & E3).
    constructor; [exact E1|]. constructor; [exact E2|].
    constructor; [exact E3 | constructor].
Qed.

Lemma derived_data_fits_charts_witness :
  Forall (within 8 64)
    (reservoir_bars
       (Some (Derived.forecast
                (deriveLocalGovData (Some sample_metrics) 3 "2024-01-01T00:00:00.000Z")))).
Proof.
  refine (proj1 (@derived_data_fits_charts (Some sample_metrics) 3
                   "2024-01-01T00:00:00.000Z" _)).
  reflexivity.
Defined.

End Charts.

(* ------------------------------------------------------------------------- *)
(** ** The conversation with the policy advisor *)

Section ConversationMore.
Import Http PolicyChat Conversation.

(** [send] is [send_begin], one request, and [send_finish] on its answer. *)
Lemma send_splits (question : option string) (c : t) (w : World) (log : list Request) :
  send question c w log =
    match accepted question c with
    | Some q =>
        let r := chat_request q (apiKey c) in
        (send_finish (reply w SPolicy (List.length log) r) (send_begin q c),
         (log ++ [r])%list)
    | None => (c, log)
    end.
Proof.
  rewrite send_run. unfold accepted. cbv zeta.
  destruct ((trim (question ?? input c) =? "")%string || loading c); [reflexivity|].
  unfold send_finish, send_begin, setLoading, setMessages, setInput.
  cbn [open input messages loading apiKey showKeyInput appliedIndex].
  now rewrite <- app_assoc.
Qed.

Lemma reply_role (out : Outcome PolicyResult.t) : role (reply_message out) = assistant.
Proof.
  destruct out as [e|e|res]; cbn [reply_message]; try reflexivity.
  destruct (negb (ok res)); [reflexivity|]. now destruct (json res).
Qed.

Lemma alternating_snoc (l : list Message) (m : Message) :
  alternating l -> (forall x, last l m = x -> l <> [] -> role x <> role m) ->
  alternating (l ++ [m]).
Proof.
  induction l as [|a [|b l] IH]; intros Hl Hlast; cbn [app alternating]; auto.
  - split; [|exact I]. apply (Hlast a); [reflexivity | discriminate].
  - destruct Hl as (Hab & Hl). split; [exact Hab|].
    apply IH; [exact Hl|]. intros x Hx _. apply (Hlast x); [exact Hx | discriminate].
Qed.

Lemma accepted_some (question : option string) (c : t) (q : string) :
  accepted question c = Some q ->
  q = trim (question ?? input c) /\ q <> "" /\ loading c = false.
Proof.
  unfold accepted. cbv zeta.
  destruct (trim (question ?? input c) =? "")%string eqn:E; [discriminate|].
  destruct (loading c); [discriminate|]. cbn [orb]. intros [= <-].
  apply String.eqb_neq in E. auto.
Qed.

Lemma step_settled (s : Session) (e : Event) : settled s -> settled (step s e).
Proof.
  intros Hs. pose proof Hs as (Halt & Hidle & Hbusy & Hreq).
  destruct e as [question|out| |v]; cbn [step].
  - destruct (accepted question (chat s)) as [q|] eqn:Ea; [|exact Hs].
    apply accepted_some in Ea. destruct Ea as (_ & Hq & Hl).
    destruct (Hidle Hl) as (Hp & Hlast).
    unfold settled, send_begin, setLoading, setMessages, setInput.
    cbn [chat pending issued messages loading apiKey].
    split; [|split; [|split]].
    + apply alternating_snoc; [exact Halt|].
      intros x Hx Hne. rewrite (Hlast x _ Hx Hne). discriminate.
    + discriminate.
    + intros _. rewrite Hp. split; [reflexivity|].
      intros m d Hm _. rewrite last_last in Hm. now subst m.
    + apply Forall_app. split; [exact Hreq|].
      constructor; [|constructor]. now exists q, (apiKey (chat s)).
  - destruct (pending s) as [|r rest] eqn:Ep; [exact Hs|].
    destruct (loading (chat s)) eqn:Hl;
      [|destruct (Hidle eq_refl) as (C & _); discriminate].
    destruct (Hbusy eq_refl) as (Hlen & Hlast).
    unfold settled, send_finish, setLoading, setMessages.
    cbn [chat pending issued messages loading].
    split; [|split; [|split]].
    + apply alternating_snoc; [exact Halt|].
      intros x Hx Hne. rewrite (Hlast x _ Hx Hne), reply_role. discriminate.
    + intros _. split; [destruct rest; [reflexivity | discriminate]|].
      intros m d Hm _. rewrite last_last in Hm. subst m. apply reply_role.
    + discriminate.
    + exact Hreq.
  - unfold settled, clear, setMessages. cbn [chat pending issued messages loading].
    split; [exact I|]. split; [|split; [|exact Hreq]].
    + intros Hl. split; [now apply Hidle|]. intros m d _ C. now contradiction C.
    + intros Hl. split; [now apply Hbusy|]. intros m d _ C. now contradiction C.
  - exact Hs.
Qed.

Lemma run_settled (events : list Event) (s : Session) :
  settled s -> settled (run s events).
Proof.
  unfold run. revert s. induction events as [|e events IH]; intros s Hs; [exact Hs|].
  cbn [fold_left]. apply IH. now apply step_settled.
Qed.

(** X25.  A conversation never has two requests in flight and its roles
    alternate.  Whatever the user does from the moment the chat is mounted -
    sending, typing, clearing, in any order and also while an answer is
    awaited - at most one request awaits its answer, and one does exactly
    when the chat shows that it is loading; no two neighbouring messages have
    the same role, the last message is the user's while loading and the
    advisor's otherwise; and every request issued is the POST of a question
    that is not empty. *)
Theorem conversation_settled (key : string) (events : list Event) :
  let s := run (start key) events in
  settled s
  /\ (List.length (pending s) <= 1)%nat
  /\ (loading (chat s) = true <-> pending s <> []).
Proof.
  cbv zeta.
  assert (H : settled (run (start key) events)).
  { apply run_settled. unfold settled, start, initial.
    cbn [chat pending issued messages loading].
    split; [exact I|]. split; [|split; [discriminate | constructor]].
    intros _. split; [reflexivity|]. intros m d _ C. now contradiction C. }
  split; [exact H|]. destruct H as (_ & Hidle & Hbusy & _).
  destruct (loading (chat (run (start key) events))).
  - destruct (Hbusy eq_refl) as (Hlen & _). split; [lia|].
    split; [|reflexivity]. intros _ C. rewrite C in Hlen. discriminate.
  - destruct (Hidle eq_refl) as (Hp & _). rewrite Hp. split; [cbn; lia|].
    split; [discriminate | intros C; now contradiction C].
Qed.



Lemma strip_cases (test : list ascii -> bool) (l : list ascii) :
  l = []
  \/ (exists e r, l = (e ++ r)%list /\ e <> [] /\ test e = true
                  /\ strip test l = strip test r)
  \/ (l <> [] /\ strip test l = l).
Proof.
  destruct l as [|a l1]; [now left|]. right. cbn [strip].
  destruct (test [a]) eqn:E1.
  { left. exists [a], l1. repeat split; auto. discriminate. }
  destruct l1 as [|b l2]; [right; split; [discriminate | reflexivity]|].
  destruct (test [a; b]) eqn:E2.
  { left. exists [a; b], l2. repeat split; auto. discriminate. }
  destruct l2 as [|c l3]; [right; split; [discriminate | reflexivity]|].
  destruct (test [a; b; c]) eqn:E3.
  { left. exists [a; b; c], l3. repeat split; auto. discriminate. }
  right. split; [discriminate | reflexivity].
Qed.

Lemma strip_made (test : list ascii -> bool) (l : list ascii) :
  strip test l = [] -> made_of test l.
Proof.
  remember (List.length l) as n eqn:Hn. revert l Hn.
  induction n as [n IH] using lt_wf_ind. intros l Hn H.
  destruct (strip_cases test l) as [-> | [(e & r & -> & He & Ht & Hs) | (Hl & Hs)]].
  - constructor.
  - constructor; [exact Ht|]. apply (IH (List.length r)); [|reflexivity|congruence].
    subst n. rewrite length_app. destruct e; [now elim He | cbn; lia].
  - congruence.
Qed.

Lemma strip_idem (test : list ascii -> bool) (l : list ascii) :
  strip test (strip test l) = strip test l.
Proof.
  remember (List.length l) as n eqn:Hn. revert l Hn.
  induction n as [n IH] using lt_wf_ind. intros l Hn.
  destruct (strip_cases test l) as [-> | [(e & r & -> & He & Ht & Hs) | (Hl & Hs)]].
  - reflexivity.
  - rewrite Hs. apply (IH (List.length r)); [|reflexivity].
    subst n. rewrite length_app. destruct e; [now elim He | cbn; lia].
  - now rewrite !Hs.
Qed.

Lemma made_of_app (test : list ascii -> bool) (u v : list ascii) :
  made_of test u -> made_of test v -> made_of test (u ++ v)%list.
Proof.
  induction 1 as [|e r He Hr IH]; intros Hv; [exact Hv|].
  rewrite <- app_assoc. constructor; auto.
Qed.

Lemma made_of_rev (test : list ascii -> bool) (x : list ascii) :
  made_of (fun e => test (rev e)) x -> made_of test (rev x).
Proof.
  induction 1 as [|e r He Hr IH]; [constructor|].
  rewrite rev_app_distr. apply made_of_app; [exact IH|].
  rewrite <- (app_nil_r (rev e)). constructor; [exact He | constructor].
Qed.

Lemma bytes_eqb_eq (x y : list ascii) : bytes_eqb x y = true -> x = y.
Proof.
  revert y. induction x as [|a x IH]; intros [|b y]; cbn [bytes_eqb];
    try discriminate; [reflexivity|].
  intros H. apply andb_true_iff in H. destruct H as (H1 & H2).
  apply Ascii.eqb_eq in H1. subst b. now rewrite (IH _ H2).
Qed.

Lemma strip_white (e r : list ascii) :
  is_white_space e = true -> trim_start (e ++ r) = trim_start r.
Proof.
  unfold is_white_space. intros H. apply existsb_exists in H.
  destruct H as (x & Hin & Hx). apply bytes_eqb_eq in Hx. subst x.
  unfold trim_start. cbv [white_space map] in Hin.
  repeat (destruct Hin as [<- | Hin]; [reflexivity|]).
  destruct Hin.
Qed.

Lemma made_strip (l : list ascii) :
  made_of is_white_space l -> trim_start l = [].
Proof.
  induction 1 as [|e r He Hr IH]; [reflexivity|]. now rewrite strip_white.
Qed.

Lemma trim_blank (s : string) : trim s = "" <-> blank s.
Proof.
  unfold trim, blank, trim_end.
  set (l := list_ascii_of_string s). split.
  - intros H.
    assert (E : strip (fun e => is_white_space (rev e)) (rev (trim_start l)) = []).
    { destruct (strip _ (rev (trim_start l))) as [|a y] eqn:R; [reflexivity|].
      exfalso. cbn [rev] in H.
      destruct (rev y ++ [a])%list eqn:C; [now destruct (rev y) | discriminate H]. }
    apply strip_made, made_of_rev in E. rewrite rev_involutive in E.
    apply made_strip in E. unfold trim_start in E. rewrite strip_idem in E.
    now apply strip_made.
  - intros H. apply made_strip in H. now rewrite H.
Qed.

(** X27.  A blank question is never sent.  [send] leaves the log of requests
    as it was exactly when the question - its argument or, without one, the
    input - is empty or consists only of the white space that
    [String.prototype.trim] strips, no-break and other Unicode spaces
    included, or the chat is loading; in every other case it issues one
    request, which carries the trimmed question. *)
Theorem send_ignored_iff_blank_or_loading (question : option string) (c : t)
    (w : World) (log : list Request) :
  (snd (send question c w log) = log
   <-> blank (question ?? input c) \/ loading c = true)
  /\ (snd (send question c w log) = log
      \/ snd (send question c w log) =
           (log ++ [chat_request (trim (question ?? input c)) (apiKey c)])%list).
Proof.
  rewrite send_splits. unfold accepted. cbv zeta.
  pose proof (trim_blank (question ?? input c)) as Hb.
  destruct (trim (question ?? input c) =? "")%string eqn:Eq.
  - apply String.eqb_eq in Eq. cbn [orb snd]. split; [|now left].
    split; [intros _; left; now apply Hb | reflexivity].
  - apply String.eqb_neq in Eq. cbn [orb]. destruct (loading c); cbn [snd].
    + split; [|now left]. split; auto.
    + split; [|now right]. split.
      * intros C. apply (f_equal (@List.length _)) in C.
        rewrite length_app in C. cbn [List.length] in C. lia.
      * intros [C | C]; [|discriminate]. apply Hb in C. now elim Eq.
Qed.

Lemma send_ignored_iff_blank_or_loading_witness :
  snd (send (Some (no_break_space ++ " " ++ no_break_space)) (initial "")
         Contract.offline []) = [].
Proof.
  apply (proj2 (proj1 (send_ignored_iff_blank_or_loading
                         (Some (no_break_space ++ " " ++ no_break_space))
                         (initial "") Contract.offline []))).
  left. apply trim_blank. reflexivity.
Defined.

End ConversationMore.

(* ------------------------------------------------------------------------- *)
(** ** The badges of the advisor's deltas *)

Section Badges.
Import Js DeltaBadge.

(** X28.  What the colour of a badge means.  The badge is grey, with the
    flat icon, exactly when the delta is a number of magnitude below 0.0001.
    Otherwise, for a label that contains [sdg] it is green exactly when the
    delta is at least 0.0001, and for every other label exactly when the
    delta is at most -0.0001 or is NaN: a NaN delta is drawn as an
    improvement of every metric but the SDG score, with a falling arrow. *)
Theorem DeltaBadge_colour (value : num) (label : string) :
  (color value label = zinc <-> exists q, value = Fin q /\ -0.0001 < q /\ q < 0.0001)
  /\ (icon value = Minus <-> color value label = zinc)
  /\ (color value label = emerald <->
        if isGoodMetric label then (0.0001 <=? value) = true
        else (value <=? -0.0001) = true \/ value = NaN)
  /\ (icon value = TrendingUp <-> (0.0001 <=? value) = true).
Proof.
  unfold color, icon, isGood, zero, positive.
  destruct value as [| | |q].
  - cbn. destruct (isGoodMetric label); repeat split; try discriminate; auto;
      try (intros (q & C & _); discriminate); intros [C|C]; discriminate.
  - cbn. destruct (isGoodMetric label); repeat split; try discriminate; auto;
      try (intros (q & C & _); discriminate); intros [C|C]; discriminate.
  - cbn. destruct (isGoodMetric label); repeat split; try discriminate; auto;
      try (intros (q & C & _); discriminate).
  - change (abs (Fin q) <? Fin 0.0001) with (negb (Fin 0.0001 <=? Fin (Qabs q))).
    change (Fin q >? Fin 0) with (negb (Fin q <=? Fin 0)).
    destruct (Fin 0.0001 <=? Fin (Qabs q)) eqn:Ea; cbn [negb].
    + apply leb_Fin in Ea.
      assert (Hout : q <= -0.0001 \/ 0.0001 <= q).
      { destruct (Qlt_le_dec q 0) as [N|N].
        - left. rewrite Qabs_neg in Ea by lra. lra.
        - right. rewrite Qabs_pos in Ea by lra. lra. }
      destruct (Fin q <=? Fin 0) eqn:Ep; cbn [negb].
      * apply leb_Fin in Ep.
        destruct (isGoodMetric label); repeat split; try discriminate; auto;
          try (intros (q' & [= <-] & A & B); lra);
          try (intros H; apply leb_Fin in H; lra);
          try (intros _; left; apply leb_Fin; lra).
      * apply leb_Fin_false in Ep.
        destruct (isGoodMetric label); repeat split; try discriminate; auto;
          try (intros (q' & [= <-] & A & B); lra);
          try (intros _; apply leb_Fin; lra);
          try (intros [H|H]; [apply leb_Fin in H; lra | discriminate]).
    + apply leb_Fin_false in Ea.
      assert (Hin : -0.0001 < q /\ q < 0.0001).
      { destruct (Qlt_le_dec q 0) as [N|N].
        - rewrite Qabs_neg in Ea by lra. lra.
        - rewrite Qabs_pos in Ea by lra. lra. }
      destruct (isGoodMetric label); repeat split; try discriminate; auto;
        try (intros _; exists q; repeat split; lra);
        try (intros H; apply leb_Fin in H; lra);
        try (intros [H|H]; [apply leb_Fin in H; lra | discriminate]).
Qed.

End Badges.
